(** * Student dropout-risk service: risk scoring, tiering, rule engine
      and dashboard aggregation

    A shallow embedding of the decision logic of
      - [backend/app/models/schemas.py]
      - [backend/app/database.py]
      - [backend/app/repositories/prediction_repository.py]
      - [backend/app/routers/prediction.py]
    followed by the properties established about it.

    Conventions of the embedding.
      - A Python [int] is a [Z].  A Python [float] is the rational number
        it denotes, a [Q], and float arithmetic is taken exact; equality
        of floats is [Qeq] ([==]).  Every float the heuristic scorer builds
        is a multiple of one half far below 2^53, where binary64 arithmetic
        is exact as well.
      - A [dict] used as a lookup table is a [gmap string _];
        [d.get(k, v)] is [dict_get d k v].
      - Exceptions are values of [exn]; code that may raise returns
        [exn + A]; code that also touches the database session, prints or
        reads the clock runs in the monad [M].
      - The trained model ([app.models.ml_model]) and the SQLAlchemy
        session are collaborators: the first is a parameter, the second a
        small transactional store with a schedule of injected faults. *)

From Stdlib Require Import ZArith QArith Qround Qminmax Qabs Qcanon Lqa Lia.
From Stdlib Require Import String Ascii List Sorted.
From stdpp Require Import gmap strings pretty.

Local Open Scope string_scope.
Local Open Scope Z_scope.

(* ===================================================================== *)
(** ** Python values and built-ins *)
(* ===================================================================== *)

(** What may sit in an untyped [list] field of a request body. *)
#[local] Set Warnings "-register-all".
Inductive pyval : Type :=
  | PyStr (s : string)
  | PyNum (q : Q)
  | PyBool (b : bool)
  | PyNone
  | PyList (items : list pyval)
  | PyDict (items : list (string * pyval)).
#[local] Set Warnings "register-all".

Inductive exn : Type :=
  | HTTPException (status_code : Z) (detail : string)
  | ValidationError (msg : string)
  | TypeError (msg : string)
  | KeyError (key : string)
  | ZeroDivisionError
  | SQLAlchemyError (msg : string).

(** [str(e)] *)
Definition exn_str (e : exn) : string :=
  match e with
  | HTTPException c d => pretty c ++ ": " ++ d
  | ValidationError m => m
  | TypeError m => m
  | KeyError k => "'" ++ k ++ "'"
  | ZeroDivisionError => "division by zero"
  | SQLAlchemyError m => m
  end.

Definition py_result (A : Type) : Type := (exn + A)%type.

Definition py_bind {A B} (x : py_result A) (f : A -> py_result B)
  : py_result B :=
  match x with
  | inl e => inl e
  | inr a => f a
  end.

(** [d.get(k, dflt)] *)
Definition dict_get {V} (d : gmap string V) (k : string) (dflt : V) : V :=
  default dflt (d !! k).

(** [x in [a, b, ...]] for strings. *)
Definition py_in (x : string) (l : list string) : bool :=
  existsb (String.eqb x) l.

(** [k in d] for a dict with string keys: lists and dicts are unhashable,
    every other non-string value hashes and is simply absent. *)
Definition py_dict_contains {V} (d : gmap string V) (k : pyval)
  : py_result bool :=
  match k with
  | PyStr s => inr (bool_decide (is_Some (d !! s)))
  | PyList _ => inl (TypeError "unhashable type: 'list'")
  | PyDict _ => inl (TypeError "unhashable type: 'dict'")
  | PyNum _ | PyBool _ | PyNone => inr false
  end.

(** [d[k]] for a dict with string keys. *)
Definition py_dict_getitem {V} (d : gmap string V) (k : pyval)
  : py_result V :=
  match k with
  | PyStr s =>
      match d !! s with
      | Some v => inr v
      | None => inl (KeyError s)
      end
  | PyList _ => inl (TypeError "unhashable type: 'list'")
  | PyDict _ => inl (TypeError "unhashable type: 'dict'")
  | PyNum _ | PyBool _ | PyNone => inl (KeyError "")
  end.

(** [[d[k] for k in keys]] *)
Fixpoint py_getitems {V} (d : gmap string V) (keys : list string)
  : py_result (list V) :=
  match keys with
  | [] => inr []
  | k :: rest =>
      match d !! k with
      | Some v => py_bind (py_getitems d rest) (fun vs => inr (v :: vs))
      | None => inl (KeyError k)
      end
  end.

(** [a / b]: true division. *)
Definition py_truediv (a b : Q) : py_result Q :=
  if Qeq_bool b 0 then inl ZeroDivisionError else inr (a / b)%Q.

(** [int(x)] on a float: truncation toward zero. *)
Definition py_int (x : Q) : Z := Z.quot (Qnum x) (Zpos (Qden x)).

(** [round(x)]: nearest integer, ties to the even one. *)
Definition py_round (x : Q) : Z :=
  let f := Qfloor x in
  match Qcompare (x - inject_Z f) (1 # 2) with
  | Lt => f
  | Gt => f + 1
  | Eq => if Z.even f then f else f + 1
  end.

(** [round(x, ndigits)] for [ndigits >= 0]. *)
Definition py_round_ndigits (x : Q) (ndigits : nat) : Q :=
  let scale := inject_Z (10 ^ Z.of_nat ndigits) in
  (inject_Z (py_round (x * scale)) / scale)%Q.

(** [o or 0] for a nullable SQL integer. *)
Definition or_zero (o : option Z) : Z :=
  match o with
  | Some v => if v =? 0 then 0 else v
  | None => 0
  end.

Definition or_zeroQ (o : option Q) : Q :=
  match o with
  | Some v => if Qeq_bool v 0 then 0%Q else v
  | None => 0%Q
  end.

(** [repr] of a list of strings, as an f-string prints it. *)
Definition py_repr_list (l : list string) : string :=
  "[" ++ String.concat ", " (map (fun s => "'" ++ s ++ "'") l) ++ "]".

(* ===================================================================== *)
(** ** [app/models/schemas.py] *)
(* ===================================================================== *)

Module schemas.

Record SimplifiedAssessmentRequest : Type := {
  consent_given : bool;
  consent_data_processing : bool;
  consent_anonymous_analytics : bool;
  academic_year : string;
  attendance : string;
  overwhelm_frequency : string;
  study_hours : string;
  performance_satisfaction : Z;
  advisor_interaction : string;
  support_network_strength : Z;
  extracurricular_hours : Z;
  employment_status : string;
  financial_stress : string;
  career_alignment : Z;
  services_used : list pyval;
  withdrawal_considered : bool;
  withdrawal_reasons : list pyval
}.

Record RawFeaturesRequest : Type := {
  features : gmap string Q
}.

Record RiskFactor : Type := {
  category : string;
  factor : string;
  impact : string;
  rf_description : string
}.

Record Recommendation : Type := {
  type : string;
  title : string;
  description : string;
  urgency : string;
  contact : option string
}.

Record PredictionResponse : Type := {
  risk_level : string;
  risk_score : Z;
  dropout_probability : Q;
  predicted_class : option string;
  risk_factors : list RiskFactor;
  recommendations : list Recommendation;
  prediction_confidence : Q
}.

(** Validation of the [risk_score: int] field.  The models are pydantic
    models and [app/config.py] imports [pydantic_settings], which exists
    for pydantic 2 only; in its default (lax) mode an [int] passes, a
    [float] passes when it has no fractional part and is refused
    otherwise. *)
Definition validate_int (x : Q) : py_result Z :=
  let r := Qred x in
  if Pos.eqb (Qden r) 1 then inr (Qnum r)
  else inl (ValidationError
    "1 validation error for PredictionResponse: risk_score: Input should be a valid integer, got a number with a fractional part").

(** [PredictionResponse(risk_level=..., risk_score=..., ...)] *)
Definition PredictionResponse_init
    (risk_level : string) (risk_score : Q) (dropout_probability : Q)
    (predicted_class : option string)
    (risk_factors : list RiskFactor)
    (recommendations : list Recommendation)
    (prediction_confidence : Q) : py_result PredictionResponse :=
  py_bind (validate_int risk_score) (fun score =>
  inr {| risk_level := risk_level;
         risk_score := score;
         dropout_probability := dropout_probability;
         predicted_class := predicted_class;
         risk_factors := risk_factors;
         recommendations := recommendations;
         prediction_confidence := prediction_confidence |}).

End schemas.

(* ===================================================================== *)
(** ** [app/database.py]: tables and the session *)
(* ===================================================================== *)

Module database.

(** Timestamps ([datetime]) are seconds on the UTC time line. *)
Record Prediction : Type := {
  id : Z;
  created_at : Z;
  risk_level : string;
  risk_score : Z;
  dropout_probability : Q;
  predicted_class : option string;
  prediction_confidence : Q;
  endpoint : string
}.

(** [services_used] and [withdrawal_reasons] hold [json.dumps] of the
    list, or NULL. *)
Record AssessmentInput : Type := {
  ai_id : Z;
  ai_prediction_id : Z;
  consent_given : bool;
  consent_data_processing : bool;
  consent_anonymous_analytics : bool;
  academic_year : string;
  attendance : string;
  overwhelm_frequency : string;
  study_hours : string;
  performance_satisfaction : Z;
  advisor_interaction : string;
  support_network_strength : Z;
  extracurricular_hours : Z;
  employment_status : string;
  financial_stress : string;
  career_alignment : Z;
  services_used : option (list pyval);
  withdrawal_considered : bool;
  withdrawal_reasons : option (list pyval)
}.

Record RiskFactor : Type := {
  rf_id : Z;
  rf_prediction_id : Z;
  category : string;
  factor : string;
  impact : string;
  rf_description : string
}.

Record Recommendation : Type := {
  rec_id : Z;
  rec_prediction_id : Z;
  rec_type : string;
  title : string;
  description : string;
  urgency : string;
  contact : option string
}.

Record Tables : Type := {
  predictions : list Prediction;
  assessment_inputs : list AssessmentInput;
  risk_factors : list RiskFactor;
  recommendations : list Recommendation
}.

Definition empty_tables : Tables :=
  {| predictions := []; assessment_inputs := [];
     risk_factors := []; recommendations := [] |}.

(** An object handed to [db.add]; its primary key is given at flush. *)
Inductive orm_object : Type :=
  | OPrediction (r : Prediction)
  | OAssessmentInput (r : AssessmentInput)
  | ORiskFactor (r : RiskFactor)
  | ORecommendation (r : Recommendation).

(** The session as the repository sees it: the committed tables, the
    tables as the open transaction sees them, the objects added and not
    yet flushed, and the outcome of the coming flushes and commits
    ([Some msg]: that operation raises). *)
Record AsyncSession : Type := {
  committed : Tables;
  working : Tables;
  pending : list orm_object;
  faults : list (option string)
}.

(** [autoincrement]: one more than the largest key in use. *)
Definition next_key (keys : list Z) : Z := 1 + fold_right Z.max 0 keys.

(** Writes one pending object, giving it a fresh key. *)
Definition insert_object (t : Tables) (o : orm_object) : Tables * Z :=
  match o with
  | OPrediction r =>
      let k := next_key (map id (predictions t)) in
      ({| predictions := predictions t ++
            [{| id := k; created_at := created_at r;
                risk_level := risk_level r; risk_score := risk_score r;
                dropout_probability := dropout_probability r;
                predicted_class := predicted_class r;
                prediction_confidence := prediction_confidence r;
                endpoint := endpoint r |}];
          assessment_inputs := assessment_inputs t;
          risk_factors := risk_factors t;
          recommendations := recommendations t |}, k)
  | OAssessmentInput r =>
      let k := next_key (map ai_id (assessment_inputs t)) in
      ({| predictions := predictions t;
          assessment_inputs := assessment_inputs t ++
            [{| ai_id := k; ai_prediction_id := ai_prediction_id r;
                consent_given := consent_given r;
                consent_data_processing := consent_data_processing r;
                consent_anonymous_analytics := consent_anonymous_analytics r;
                academic_year := academic_year r;
                attendance := attendance r;
                overwhelm_frequency := overwhelm_frequency r;
                study_hours := study_hours r;
                performance_satisfaction := performance_satisfaction r;
                advisor_interaction := advisor_interaction r;
                support_network_strength := support_network_strength r;
                extracurricular_hours := extracurricular_hours r;
                employment_status := employment_status r;
                financial_stress := financial_stress r;
                career_alignment := career_alignment r;
                services_used := services_used r;
                withdrawal_considered := withdrawal_considered r;
                withdrawal_reasons := withdrawal_reasons r |}];
          risk_factors := risk_factors t;
          recommendations := recommendations t |}, k)
  | ORiskFactor r =>
      let k := next_key (map rf_id (risk_factors t)) in
      ({| predictions := predictions t;
          assessment_inputs := assessment_inputs t;
          risk_factors := risk_factors t ++
            [{| rf_id := k; rf_prediction_id := rf_prediction_id r;
                category := category r; factor := factor r;
                impact := impact r;
                rf_description := rf_description r |}];
          recommendations := recommendations t |}, k)
  | ORecommendation r =>
      let k := next_key (map rec_id (recommendations t)) in
      ({| predictions := predictions t;
          assessment_inputs := assessment_inputs t;
          risk_factors := risk_factors t;
          recommendations := recommendations t ++
            [{| rec_id := k; rec_prediction_id := rec_prediction_id r;
                rec_type := rec_type r; title := title r;
                description := description r; urgency := urgency r;
                contact := contact r |}] |}, k)
  end.

(** Writes the pending objects in the order they were added; returns the
    keys they received. *)
Fixpoint insert_all (t : Tables) (os : list orm_object) : Tables * list Z :=
  match os with
  | [] => (t, [])
  | o :: os' =>
      let '(t1, k) := insert_object t o in
      let '(t2, ks) := insert_all t1 os' in
      (t2, k :: ks)
  end.

Definition add (s : AsyncSession) (o : orm_object) : AsyncSession :=
  {| committed := committed s; working := working s;
     pending := pending s ++ [o]; faults := faults s |}.

Definition flush (s : AsyncSession) : py_result (list Z) * AsyncSession :=
  match faults s with
  | Some msg :: rest =>
      (inl (SQLAlchemyError msg),
       {| committed := committed s; working := working s;
          pending := pending s; faults := rest |})
  | _ =>
      let '(t, ks) := insert_all (working s) (pending s) in
      (inr ks,
       {| committed := committed s; working := t;
          pending := []; faults := tl (faults s) |})
  end.

Definition commit (s : AsyncSession) : py_result unit * AsyncSession :=
  match faults s with
  | Some msg :: rest =>
      (inl (SQLAlchemyError msg),
       {| committed := committed s; working := working s;
          pending := pending s; faults := rest |})
  | _ =>
      let '(t, _) := insert_all (working s) (pending s) in
      (inr tt,
       {| committed := t; working := t;
          pending := []; faults := tl (faults s) |})
  end.

Definition rollback (s : AsyncSession) : AsyncSession :=
  {| committed := committed s; working := committed s;
     pending := []; faults := faults s |}.

End database.

(* ===================================================================== *)
(** ** The effects of a request handler *)
(* ===================================================================== *)

(** What a handler can touch: the session it was given, standard output
    and the clock ([datetime.utcnow()]). *)
Record World : Type := {
  db : database.AsyncSession;
  stdout : list string;
  utcnow : Z
}.

Definition M (A : Type) : Type := World -> py_result A * World.

#[export] Instance M_ret : MRet M := fun A (a : A) w => (inr a, w).

#[export] Instance M_bind : MBind M := fun A B (f : A -> M B) (c : M A) w =>
  match c w with
  | (inl e, w') => (inl e, w')
  | (inr a, w') => f a w'
  end.

Definition raise {A} (e : exn) : M A := fun w => (inl e, w).

(** [try: body  except Exception as e: handler(e)] *)
Definition try_except {A} (body : M A) (handler : exn -> M A) : M A :=
  fun w =>
    match body w with
    | (inl e, w') => handler e w'
    | (inr a, w') => (inr a, w')
    end.

(** Runs a computation that cannot touch the world. *)
Definition lift {A} (x : py_result A) : M A := fun w => (x, w).

Definition print (line : string) : M unit := fun w =>
  (inr tt, {| db := db w; stdout := stdout w ++ [line]; utcnow := utcnow w |}).

Definition datetime_utcnow : M Z := fun w => (inr (utcnow w), w).

Definition db_add (o : database.orm_object) : M unit := fun w =>
  (inr tt, {| db := database.add (db w) o;
              stdout := stdout w; utcnow := utcnow w |}).

Definition db_flush : M (list Z) := fun w =>
  let '(r, s) := database.flush (db w) in
  (r, {| db := s; stdout := stdout w; utcnow := utcnow w |}).

Definition db_commit : M unit := fun w =>
  let '(r, s) := database.commit (db w) in
  (r, {| db := s; stdout := stdout w; utcnow := utcnow w |}).

Definition db_rollback : M unit := fun w =>
  (inr tt, {| db := database.rollback (db w);
              stdout := stdout w; utcnow := utcnow w |}).

(** [for x in l: body(x)] *)
Fixpoint for_each {A} (l : list A) (body : A -> M unit) : M unit :=
  match l with
  | [] => mret tt
  | x :: l' => body x ;; for_each l' body
  end.

(* ===================================================================== *)
(** ** [app/repositories/prediction_repository.py] *)
(* ===================================================================== *)

Module prediction_repository.

(** [x if x else None] on an optional string. *)
Definition str_or_none (o : option string) : option string :=
  match o with
  | Some s => if String.eqb s "" then None else Some s
  | None => None
  end.

(** [json.dumps(l) if l else None] *)
Definition json_or_none (l : list pyval) : option (list pyval) :=
  match l with
  | [] => None
  | _ => Some l
  end.

Definition save_prediction
    (prediction : schemas.PredictionResponse)
    (assessment_input : option schemas.SimplifiedAssessmentRequest)
    (endpoint : string) : M Z :=
  try_except
    ((* 1. Insert prediction *)
     now ← datetime_utcnow;
     db_add (database.OPrediction
       {| database.id := 0;
          database.created_at := now;
          database.risk_level := schemas.risk_level prediction;
          database.risk_score := schemas.risk_score prediction;
          database.dropout_probability :=
            schemas.dropout_probability prediction;
          database.predicted_class :=
            str_or_none (schemas.predicted_class prediction);
          database.prediction_confidence :=
            schemas.prediction_confidence prediction;
          database.endpoint := endpoint |});;
     keys ← db_flush;
     let prediction_id := hd 0 keys in
     (* 2. Insert assessment inputs (if provided) *)
     match assessment_input with
     | Some a =>
         db_add (database.OAssessmentInput
           {| database.ai_id := 0;
              database.ai_prediction_id := prediction_id;
              database.consent_given := schemas.consent_given a;
              database.consent_data_processing :=
                schemas.consent_data_processing a;
              database.consent_anonymous_analytics :=
                schemas.consent_anonymous_analytics a;
              database.academic_year := schemas.academic_year a;
              database.attendance := schemas.attendance a;
              database.overwhelm_frequency := schemas.overwhelm_frequency a;
              database.study_hours := schemas.study_hours a;
              database.performance_satisfaction :=
                schemas.performance_satisfaction a;
              database.advisor_interaction := schemas.advisor_interaction a;
              database.support_network_strength :=
                schemas.support_network_strength a;
              database.extracurricular_hours :=
                schemas.extracurricular_hours a;
              database.employment_status := schemas.employment_status a;
              database.financial_stress := schemas.financial_stress a;
              database.career_alignment := schemas.career_alignment a;
              database.services_used :=
                json_or_none (schemas.services_used a);
              database.withdrawal_considered :=
                schemas.withdrawal_considered a;
              database.withdrawal_reasons :=
                json_or_none (schemas.withdrawal_reasons a) |})
     | None => mret tt
     end;;
     (* 3. Insert risk factors *)
     for_each (schemas.risk_factors prediction) (fun risk_factor =>
       db_add (database.ORiskFactor
         {| database.rf_id := 0;
            database.rf_prediction_id := prediction_id;
            database.category := schemas.category risk_factor;
            database.factor := schemas.factor risk_factor;
            database.impact := schemas.impact risk_factor;
            database.rf_description :=
              schemas.rf_description risk_factor |}));;
     (* 4. Insert recommendations *)
     for_each (schemas.recommendations prediction) (fun recommendation =>
       db_add (database.ORecommendation
         {| database.rec_id := 0;
            database.rec_prediction_id := prediction_id;
            database.rec_type := schemas.type recommendation;
            database.title := schemas.title recommendation;
            database.description := schemas.description recommendation;
            database.urgency := schemas.urgency recommendation;
            database.contact :=
              str_or_none (schemas.contact recommendation) |}));;
     (* Commit transaction *)
     db_commit;;
     mret prediction_id)
    (fun e =>
       db_rollback;;
       print ("Error saving prediction: " ++ exn_str e)%string;;
       raise e).

(** *** Dashboard statistics *)

(** The one row the aggregate query returns.  [count] is never NULL;
    [sum] and [avg] over no rows are NULL. *)
Record stats_row : Type := {
  total : Z;
  high_count : option Z;
  medium_count : option Z;
  low_count : option Z;
  avg_score : option Q
}.

(** [func.sum(case((Prediction.risk_level == level, 1), else_=0))] *)
Definition sum_case (level : string) (rows : list database.Prediction)
  : option Z :=
  match rows with
  | [] => None
  | _ => Some (fold_right
                 (fun p acc =>
                    (if String.eqb (database.risk_level p) level
                     then 1 else 0) + acc) 0 rows)
  end.

(** [func.avg(Prediction.risk_score)] *)
Definition avg_risk_score (rows : list database.Prediction) : option Q :=
  match rows with
  | [] => None
  | _ =>
      let total := fold_right
                     (fun p acc => database.risk_score p + acc) 0 rows in
      Some (inject_Z total / inject_Z (Z.of_nat (length rows)))%Q
  end.

Definition stats_query (t : database.Tables) : stats_row :=
  let rows := database.predictions t in
  {| total := Z.of_nat (length rows);
     high_count := sum_case "high" rows;
     medium_count := sum_case "medium" rows;
     low_count := sum_case "low" rows;
     avg_score := avg_risk_score rows |}.

(** The dictionary [get_dashboard_stats] returns, key by key. *)
Record dashboard_stats : Type := {
  total_assessments : Z;
  high_risk_count : Z;
  medium_risk_count : Z;
  low_risk_count : Z;
  high_risk_percentage : Q;
  medium_risk_percentage : Q;
  low_risk_percentage : Q;
  average_risk_score : Q
}.

(** [(count / total * 100) if total > 0 else 0] *)
Definition percentage_of (count total : Z) : py_result Q :=
  if total >? 0
  then py_bind (py_truediv (inject_Z count) (inject_Z total))
         (fun q => inr (q * 100)%Q)
  else inr 0%Q.

Definition get_dashboard_stats (t : database.Tables)
  : py_result dashboard_stats :=
  let row := stats_query t in
  let total := or_zero (Some (total row)) in
  let high := or_zero (high_count row) in
  let medium := or_zero (medium_count row) in
  let low := or_zero (low_count row) in
  py_bind (percentage_of high total) (fun high_percentage =>
  py_bind (percentage_of medium total) (fun medium_percentage =>
  py_bind (percentage_of low total) (fun low_percentage =>
  inr {| total_assessments := total;
         high_risk_count := high;
         medium_risk_count := medium;
         low_risk_count := low;
         high_risk_percentage := py_round_ndigits high_percentage 2;
         medium_risk_percentage := py_round_ndigits medium_percentage 2;
         low_risk_percentage := py_round_ndigits low_percentage 2;
         average_risk_score :=
           py_round_ndigits (or_zeroQ (avg_score row)) 1 |}))).

(** *** Top risk factors *)

(** [GROUP BY category] with [count(id)]: one row per category, in the
    order the categories first occur. *)
Fixpoint bump (c : string) (groups : list (string * Z))
  : list (string * Z) :=
  match groups with
  | [] => [(c, 1)]
  | (c', n) :: rest =>
      if String.eqb c' c then (c', n + 1) :: rest
      else (c', n) :: bump c rest
  end.

Definition group_by_category (rows : list database.RiskFactor)
  : list (string * Z) :=
  fold_left (fun groups r => bump (database.category r) groups) rows [].

(** [ORDER BY count DESC].  SQL leaves the order of rows of equal count
    open; here they keep the order of the grouping. *)
Fixpoint insert_desc (g : string * Z) (sorted : list (string * Z))
  : list (string * Z) :=
  match sorted with
  | [] => [g]
  | h :: rest =>
      if snd h <=? snd g then g :: h :: rest
      else h :: insert_desc g rest
  end.

Definition order_by_count_desc (groups : list (string * Z))
  : list (string * Z) :=
  fold_right insert_desc [] groups.

(** [LIMIT n]; SQLite reads a negative limit as no limit. *)
Definition sql_limit {A} (n : Z) (rows : list A) : list A :=
  if n <? 0 then rows else firstn (Z.to_nat n) rows.

Definition top_categories_query (t : database.Tables) (limit : Z)
  : list (string * Z) :=
  sql_limit limit
    (order_by_count_desc (group_by_category (database.risk_factors t))).

(** [timedelta(days=n)] in seconds. *)
Definition timedelta_days (n : Z) : Z := n * 86400.

(** [select(RiskFactor.id).join(Prediction).where(cond)] *)
Definition joined_factor_ids (t : database.Tables)
    (cond : database.Prediction -> bool) : list Z :=
  flat_map (fun r : database.RiskFactor =>
    flat_map (fun p : database.Prediction =>
      if (database.rf_prediction_id r =? database.id p) && cond p
      then [database.rf_id r] else [])
      (database.predictions t))
    (database.risk_factors t).

(** [select(func.count(RiskFactor.id)).where(and_(category == c,
    id.in_(ids)))] *)
Definition count_category_in (t : database.Tables) (c : string)
    (ids : list Z) : Z :=
  Z.of_nat (length (List.filter (fun r : database.RiskFactor =>
    String.eqb (database.category r) c
    && existsb (Z.eqb (database.rf_id r)) ids)
    (database.risk_factors t))).

Definition calculate_trend (t : database.Tables) (now : Z)
    (category : string) : string :=
  let week_ago := now - timedelta_days 7 in
  let two_weeks_ago := now - timedelta_days 14 in
  let current_count :=
    or_zero (Some (count_category_in t category
      (joined_factor_ids t (fun p => week_ago <=? database.created_at p))))
  in
  let prev_count :=
    or_zero (Some (count_category_in t category
      (joined_factor_ids t (fun p =>
         (two_weeks_ago <=? database.created_at p)
         && (database.created_at p <? week_ago)))))
  in
  if current_count >? prev_count then "up"
  else if current_count <? prev_count then "down"
  else "stable".

(** One entry of the list [get_top_risk_factors] returns. *)
Record factor_summary : Type := {
  name : string;
  percentage : Q;
  trend : string
}.

(** [sum(r.count for r in rows)] *)
Definition sum_counts (rows : list (string * Z)) : Z :=
  fold_right (fun r acc => snd r + acc) 0 rows.

(** The loop of [get_top_risk_factors] over the rows left to visit. *)
Fixpoint summarize (t : database.Tables) (now : Z) (total_factors : Z)
    (rows : list (string * Z)) : py_result (list factor_summary) :=
  match rows with
  | [] => inr []
  | row :: rest =>
      py_bind (percentage_of (snd row) total_factors) (fun percentage =>
      let trend := calculate_trend t now (fst row) in
      py_bind (summarize t now total_factors rest) (fun factors =>
      inr ({| name := fst row;
              percentage := py_round_ndigits percentage 1;
              trend := trend |} :: factors)))
  end.

Definition get_top_risk_factors (t : database.Tables) (now : Z)
    (limit : Z) : py_result (list factor_summary) :=
  let rows := top_categories_query t limit in
  let total_factors := sum_counts rows in
  summarize t now total_factors rows.

(** *** Risk distribution *)

(** [GROUP BY risk_level] with [count(id)]: one row per tier in store. *)
Definition group_by_risk_level (rows : list database.Prediction)
  : list (string * Z) :=
  fold_left (fun groups p => bump (database.risk_level p) groups) rows [].

Definition get_risk_distribution (t : database.Tables) : gmap string Z :=
  let rows := group_by_risk_level (database.predictions t) in
  let distribution : gmap string Z :=
    list_to_map [("high", 0); ("medium", 0); ("low", 0)] in
  fold_left (fun distribution row => <[fst row := snd row]> distribution)
    rows distribution.

(** *** Dates

    A [datetime] is a number of seconds since 1970-01-01 00:00:00 UTC
    (see [database.Prediction]); the calendar is the proleptic Gregorian
    one of Python and SQLite. *)

Record civil : Type := {
  year : Z;
  month : Z;        (* 1 .. 12 *)
  day : Z;          (* 1 .. 31 *)
  yday : Z;         (* day of the year, from 0 *)
  weekday : Z;      (* Monday is 0 *)
  hour : Z;
  minute : Z
}.

(** The days from 1970-01-01 to the first of January of a year. *)
Definition days_before_year (y : Z) : Z :=
  let p := y - 1 in
  365 * p + p / 4 - p / 100 + p / 400 - 719162.

Definition civil_of (datetime : Z) : civil :=
  let days := datetime / 86400 in
  let seconds := datetime mod 86400 in
  (* the years are counted from the first of March, in eras of 400 *)
  let z := days + 719468 in
  let era := z / 146097 in
  let doe := z mod 146097 in
  let yoe := (doe - doe / 1460 + doe / 36524 - doe / 146096) / 365 in
  let doy := doe - (365 * yoe + yoe / 4 - yoe / 100) in
  let mp := (5 * doy + 2) / 153 in
  let m := if mp <? 10 then mp + 3 else mp - 9 in
  let y := yoe + era * 400 + (if m <=? 2 then 1 else 0) in
  {| year := y; month := m;
     day := doy - (153 * mp + 2) / 5 + 1;
     yday := days - days_before_year y;
     weekday := (days + 3) mod 7;
     hour := seconds / 3600;
     minute := seconds mod 3600 / 60 |}.

(** A number in at least [width] digits, zero-padded. *)
Definition zero_padded (width : nat) (n : Z) : string :=
  let digits := pretty n in
  String.concat ""
    (repeat "0" (width - String.length digits)) ++ digits.

(** [%W]: the week of the year, weeks starting on Monday; the days
    before the first Monday are in week 0. *)
Definition week_of_year (c : civil) : Z :=
  (yday c + 7 - weekday c) / 7.

(** [func.strftime('%Y-%W', created_at)], as the year and the week the
    text [YYYY-WW] is made of. *)
Definition strftime_Y_W (datetime : Z) : string * string :=
  let c := civil_of datetime in
  (zero_padded 4 (year c), zero_padded 2 (week_of_year c)).

(** [created_at.strftime('%a, %d %b')] *)
Definition strftime_a_d_b (datetime : Z) : string :=
  let c := civil_of datetime in
  nth (Z.to_nat (weekday c))
    ["Mon"; "Tue"; "Wed"; "Thu"; "Fri"; "Sat"; "Sun"] ""
  ++ ", " ++ zero_padded 2 (day c) ++ " "
  ++ nth (Z.to_nat (month c - 1))
       ["Jan"; "Feb"; "Mar"; "Apr"; "May"; "Jun";
        "Jul"; "Aug"; "Sep"; "Oct"; "Nov"; "Dec"] "".

(** [created_at.strftime('%I:%M %p')] *)
Definition strftime_I_M_p (datetime : Z) : string :=
  let c := civil_of datetime in
  let h := hour c mod 12 in
  zero_padded 2 (if h =? 0 then 12 else h) ++ ":"
  ++ zero_padded 2 (minute c) ++ " "
  ++ (if hour c <? 12 then "AM" else "PM").

(** *** Risk trends *)

(** [timedelta(weeks=n)] in seconds. *)
Definition timedelta_weeks (n : Z) : Z := n * 604800.

(** A row of the trends query.  [week_num] is the text [YYYY-WW], kept
    as its year and its week. *)
Record trend_row : Type := {
  week_num : string * string;
  tr_risk_level : string;
  tr_count : Z
}.

(** The text of a [week_num]. *)
Definition week_num_text (w : string * string) : string :=
  fst w ++ "-" ++ snd w.

(** [GROUP BY week_num, risk_level] with [count(id)]. *)
Fixpoint bump_trend (w : string * string) (level : string)
    (groups : list trend_row) : list trend_row :=
  match groups with
  | [] => [{| week_num := w; tr_risk_level := level; tr_count := 1 |}]
  | g :: rest =>
      if String.eqb (week_num_text (week_num g)) (week_num_text w)
         && String.eqb (tr_risk_level g) level
      then {| week_num := week_num g; tr_risk_level := tr_risk_level g;
              tr_count := tr_count g + 1 |} :: rest
      else g :: bump_trend w level rest
  end.

(** [ORDER BY week_num]: the order of texts.  Rows of one week keep the
    order of the grouping; SQL leaves it open. *)
Fixpoint insert_week (g : trend_row) (sorted : list trend_row)
  : list trend_row :=
  match sorted with
  | [] => [g]
  | h :: rest =>
      if String.ltb (week_num_text (week_num g))
                    (week_num_text (week_num h))
      then g :: h :: rest
      else h :: insert_week g rest
  end.

Definition trends_query (t : database.Tables) (start_date : Z)
  : list trend_row :=
  let rows := List.filter
    (fun p => start_date <=? database.created_at p)
    (database.predictions t) in
  let groups := fold_left
    (fun groups p =>
       bump_trend (strftime_Y_W (database.created_at p))
         (database.risk_level p) groups)
    rows [] in
  fold_right insert_week [] groups.

(** One point of the chart. *)
Record trend_point : Type := {
  week : string;
  high_risk : Z;
  medium_risk : Z;
  low_risk : Z
}.

(** The [if]/[elif]/[else] that stores a row's count in its point. *)
Definition set_count (level : string) (count : Z) (d : trend_point)
  : trend_point :=
  if String.eqb level "high" then
    {| week := week d; high_risk := count;
       medium_risk := medium_risk d; low_risk := low_risk d |}
  else if String.eqb level "medium" then
    {| week := week d; high_risk := high_risk d;
       medium_risk := count; low_risk := low_risk d |}
  else
    {| week := week d; high_risk := high_risk d;
       medium_risk := medium_risk d; low_risk := count |}.

(** One turn of the loop over the rows.  [weekly_data] is a dict in
    insertion order: a list of keys and points; a key that is not there
    is added at the end with a point of zeros. *)
Fixpoint update_week (week_key level : string) (count : Z)
    (weekly_data : list (string * trend_point))
  : list (string * trend_point) :=
  match weekly_data with
  | [] =>
      [(week_key,
        set_count level count
          {| week := week_key; high_risk := 0;
             medium_risk := 0; low_risk := 0 |})]
  | (k, d) :: rest =>
      if String.eqb k week_key
      then (k, set_count level count d) :: rest
      else (k, d) :: update_week week_key level count rest
  end.

(** [row.week_num.split('-')[1]]: the week, the year holding no dash. *)
Definition week_key_of (row : trend_row) : string :=
  "W" ++ snd (week_num row).

Definition get_risk_trends (t : database.Tables) (now : Z) (weeks : Z)
  : list trend_point :=
  let start_date := now - timedelta_weeks weeks in
  let rows := trends_query t start_date in
  let weekly_data := fold_left
    (fun weekly_data row =>
       update_week (week_key_of row) (tr_risk_level row) (tr_count row)
         weekly_data)
    rows [] in
  map snd weekly_data.

(** *** Recent assessments *)

(** A row of the join: a prediction and the academic year of one of its
    assessment inputs, NULL when it has none. *)
Record recent_row : Type := {
  row_id : Z;
  row_created_at : Z;
  row_risk_level : string;
  row_academic_year : option string
}.

(** [Prediction LEFT OUTER JOIN AssessmentInput
     ON Prediction.id = AssessmentInput.prediction_id] *)
Definition outerjoin_assessment_inputs (t : database.Tables)
  : list recent_row :=
  flat_map (fun p : database.Prediction =>
    let row y := {| row_id := database.id p;
                    row_created_at := database.created_at p;
                    row_risk_level := database.risk_level p;
                    row_academic_year := y |} in
    match List.filter
            (fun a => database.ai_prediction_id a =? database.id p)
            (database.assessment_inputs t) with
    | [] => [row None]
    | inputs => map (fun a => row (Some (database.academic_year a))) inputs
    end)
    (database.predictions t).

(** [ORDER BY created_at DESC]; rows of one instant keep the order of
    the join. *)
Fixpoint insert_recent (r : recent_row) (sorted : list recent_row)
  : list recent_row :=
  match sorted with
  | [] => [r]
  | h :: rest =>
      if row_created_at h <=? row_created_at r then r :: h :: rest
      else h :: insert_recent r rest
  end.

Definition recent_query (t : database.Tables) (limit : Z)
  : list recent_row :=
  sql_limit limit
    (fold_right insert_recent [] (outerjoin_assessment_inputs t)).

(** One entry of the list [get_recent_assessments] returns. *)
Record assessment_summary : Type := {
  as_id : Z;
  as_name : string;
  as_date : string;
  as_time : string;
  as_risk : string;
  as_type : string
}.

(** [s or 'N/A'] on a nullable text. *)
Definition or_na (o : option string) : string :=
  match o with
  | Some s => if String.eqb s "" then "N/A" else s
  | None => "N/A"
  end.

Definition get_recent_assessments (t : database.Tables) (limit : Z)
  : list assessment_summary :=
  let rows := recent_query t limit in
  map (fun row =>
         {| as_id := row_id row;
            as_name := "Student Assessment";
            as_date := strftime_a_d_b (row_created_at row);
            as_time := strftime_I_M_p (row_created_at row);
            as_risk := row_risk_level row;
            as_type := "Year " ++ or_na (row_academic_year row)
                       ++ " Review" |})
    rows.

End prediction_repository.

(* ===================================================================== *)
(** ** [app.models.ml_model]: the model capability *)
(* ===================================================================== *)

Module ml_model.

(** Modelled from the spec: the module [app/models/ml_model.py] is not
    part of the sources at hand.  Section 6 gives its contract: a
    ready flag that can be asked before a call, and
    [predict(FeatureVector) -> {probability, class label (optional),
    confidence} | unavailable].  Every definition below takes the model
    as a parameter of this type. *)
Record prediction : Type := {
  dropout_probability : Q;
  predicted_class : option string;
  model_confidence : Q
}.

Record MLModel : Type := {
  is_loaded : bool;
  predict : list Q -> option prediction
}.

End ml_model.

(* ===================================================================== *)
(** ** [app/routers/prediction.py] *)
(* ===================================================================== *)

Module prediction.

Definition FEATURE_ORDER : list string :=
  [ "Curricular units 2nd sem (approved)";
    "Curricular units 1st sem (approved)";
    "Tuition fees up to date";
    "Scholarship holder";
    "Age at enrollment";
    "Debtor";
    "Gender";
    "Application mode" ].

(** *** [map_form_to_ml_features] *)

Definition attendance_to_units : gmap string Z :=
  list_to_map [("always", 50); ("often", 45); ("sometimes", 30);
               ("rarely", 15); ("never", 5)].

Definition financial_stress_map : gmap string Z :=
  list_to_map [("none", 1); ("low", 1); ("moderate", 0); ("high", 0);
               ("very-high", 0)].

Definition scholarship_scores : gmap string Z :=
  list_to_map [("none", 1); ("low", 1); ("moderate", 0); ("high", 0);
               ("very-high", 0)].

Definition academic_year_map : gmap string Z :=
  list_to_map [("1st", 18); ("2nd", 19); ("3rd", 20); ("4th", 21)].

Definition employment_age_adjustment : gmap string Z :=
  list_to_map [("not-employed", 0); ("part-time", 1); ("full-time", 2)].

Definition debtor_map : gmap string Z :=
  list_to_map [("none", 0); ("low", 0); ("moderate", 1); ("high", 1);
               ("very-high", 1)].

Definition application_mode_of
    (data : schemas.SimplifiedAssessmentRequest) : Z :=
  if String.eqb (schemas.employment_status data) "full-time"
     && (schemas.career_alignment data <? 5)
  then 2  (* Alternative entry *)
  else if schemas.career_alignment data >=? 8
  then 1  (* Regular entry *)
  else 1.

Definition map_form_to_ml_features
    (data : schemas.SimplifiedAssessmentRequest) : list Q :=
  (* Attendance maps to curricular units approved *)
  let curricular_2nd_sem :=
    dict_get attendance_to_units (schemas.attendance data) 30 in
  let curricular_1st_sem :=
    dict_get attendance_to_units (schemas.attendance data) 30 in
  (* Performance satisfaction affects study units *)
  let performance_factor :=
    (inject_Z (schemas.performance_satisfaction data) / 10)%Q in
  let curricular_2nd_sem :=
    py_int (inject_Z curricular_2nd_sem * performance_factor) in
  let curricular_1st_sem :=
    py_int (inject_Z curricular_1st_sem * performance_factor) in
  (* Tuition fees based on financial stress *)
  let tuition_fees_up_to_date :=
    inject_Z (dict_get financial_stress_map
                (schemas.financial_stress data) 0) in
  (* Scholarship holder based on financial stress *)
  let scholarship_holder :=
    inject_Z (dict_get scholarship_scores
                (schemas.financial_stress data) 0) in
  (* Age proxy based on academic year *)
  let age_base :=
    dict_get academic_year_map (schemas.academic_year data) 19 in
  (* Adjust age based on employment *)
  let age_at_enrollment :=
    inject_Z (age_base + dict_get employment_age_adjustment
                           (schemas.employment_status data) 0) in
  (* Debtor status based on financial stress *)
  let debtor :=
    inject_Z (dict_get debtor_map (schemas.financial_stress data) 0) in
  (* Gender: study hours as proxy *)
  let gender :=
    if py_in (schemas.study_hours data) ["8+"; "5-8"] then 0 else 1 in
  (* Application mode based on employment and career alignment *)
  let application_mode := application_mode_of data in
  [ inject_Z curricular_2nd_sem;
    inject_Z curricular_1st_sem;
    tuition_fees_up_to_date;
    scholarship_holder;
    age_at_enrollment;
    debtor;
    inject_Z gender;
    inject_Z application_mode ].

(** *** The heuristic scorer of [calculate_fallback_risk] *)

Definition attendance_scores : gmap string Z :=
  list_to_map [("always", 0); ("often", 5); ("sometimes", 15);
               ("rarely", 25); ("never", 35)].

Definition overwhelm_scores : gmap string Z :=
  list_to_map [("never", 0); ("rarely", 5); ("sometimes", 10);
               ("often", 20); ("always", 30)].

Definition financial_scores : gmap string Z :=
  list_to_map [("none", 0); ("low", 5); ("moderate", 10); ("high", 20);
               ("very-high", 25)].

Definition advisor_scores : gmap string Z :=
  list_to_map [("never", 10); ("once-semester", 5); ("2-3-semester", 2);
               ("monthly", 0)].

(** Lines 91 to 141: the additive score and its clamp.  The score is an
    [int] up to the career-alignment term, whose factor [1.5] turns it
    into a [float]. *)
Definition fallback_risk_score
    (data : schemas.SimplifiedAssessmentRequest) : Q :=
  let risk_score := 0 in
  (* Attendance scoring *)
  let risk_score :=
    risk_score + dict_get attendance_scores (schemas.attendance data) 0 in
  (* Overwhelm scoring *)
  let risk_score :=
    risk_score
    + dict_get overwhelm_scores (schemas.overwhelm_frequency data) 0 in
  (* Financial stress scoring *)
  let risk_score :=
    risk_score
    + dict_get financial_scores (schemas.financial_stress data) 0 in
  (* Withdrawal consideration *)
  let risk_score :=
    if schemas.withdrawal_considered data
    then risk_score + 15 else risk_score in
  (* Performance satisfaction (inverse) *)
  let risk_score :=
    risk_score
    + Z.max 0 (10 - schemas.performance_satisfaction data) * 2 in
  (* Advisor interaction (inverse) *)
  let risk_score :=
    risk_score
    + dict_get advisor_scores (schemas.advisor_interaction data) 0 in
  (* Support network strength (inverse) *)
  let risk_score :=
    risk_score + Z.max 0 (10 - schemas.support_network_strength data) in
  (* Extracurricular hours (too much or too little is risky) *)
  let risk_score :=
    if (schemas.extracurricular_hours data <? 1)
       || (schemas.extracurricular_hours data >? 15)
    then risk_score + 5 else risk_score in
  (* Career alignment (poor alignment = higher risk) *)
  let risk_score : Q :=
    (inject_Z risk_score
     + inject_Z (Z.max 0 (10 - schemas.career_alignment data)) * 1.5)%Q in
  (* Employment status *)
  let risk_score : Q :=
    if String.eqb (schemas.employment_status data) "full-time"
    then (risk_score + 10)%Q
    else if String.eqb (schemas.employment_status data) "part-time"
    then (risk_score + 5)%Q
    else risk_score in
  (* Normalize to 0-100 *)
  Qmin 100 (Qmax 0 risk_score).

(** Lines 144 to 149. *)
Definition score_risk_level (risk_score : Q) : string :=
  if Qle_bool 60 risk_score then "high"
  else if Qle_bool 35 risk_score then "medium"
  else "low".

(** Lines 262 to 267 and 546 to 551. *)
Definition probability_risk_level (dropout_probability : Q) : string :=
  if Qle_bool 0.6 dropout_probability then "high"
  else if Qle_bool 0.35 dropout_probability then "medium"
  else "low".

(** *** The annotations the rules emit *)

Definition low_class_attendance : schemas.RiskFactor :=
  {| schemas.category := "Academic";
     schemas.factor := "Low Class Attendance";
     schemas.impact := "high";
     schemas.rf_description :=
       "Inconsistent class attendance is strongly correlated with dropout risk" |}.

Definition academic_overwhelm : schemas.RiskFactor :=
  {| schemas.category := "Mental Health";
     schemas.factor := "Academic Overwhelm";
     schemas.impact := "high";
     schemas.rf_description :=
       "Feeling frequently overwhelmed can lead to burnout and withdrawal" |}.

Definition financial_stress_factor : schemas.RiskFactor :=
  {| schemas.category := "Financial";
     schemas.factor := "Financial Stress";
     schemas.impact := "high";
     schemas.rf_description :=
       "Financial difficulties are a leading cause of student withdrawal" |}.

Definition withdrawal_consideration : schemas.RiskFactor :=
  {| schemas.category := "Behavioral";
     schemas.factor := "Withdrawal Consideration";
     schemas.impact := "high";
     schemas.rf_description :=
       "Active consideration of withdrawal indicates elevated risk" |}.

Definition weak_support_network : schemas.RiskFactor :=
  {| schemas.category := "Social";
     schemas.factor := "Weak Support Network";
     schemas.impact := "medium";
     schemas.rf_description :=
       "Limited social support increases vulnerability during challenges" |}.

Definition full_time_employment : schemas.RiskFactor :=
  {| schemas.category := "Personal";
     schemas.factor := "Full-time Employment";
     schemas.impact := "medium";
     schemas.rf_description :=
       "Working full-time while studying significantly increases time pressure" |}.

Definition mental_health_support : schemas.Recommendation :=
  {| schemas.type := "counseling";
     schemas.title := "Mental Health Support";
     schemas.description :=
       "Schedule an urgent appointment with a counselor to discuss your concerns and develop a support plan";
     schemas.urgency := "immediate";
     schemas.contact := Some "counseling@rvce.edu.in" |}.

Definition financial_aid_office : schemas.Recommendation :=
  {| schemas.type := "financial";
     schemas.title := "Financial Aid Office";
     schemas.description :=
       "Connect with financial aid office to explore scholarships, grants, and emergency funding options";
     schemas.urgency := "soon";
     schemas.contact := Some "financialaid@rvce.edu.in" |}.

Definition academic_tutoring : schemas.Recommendation :=
  {| schemas.type := "academic";
     schemas.title := "Academic Tutoring";
     schemas.description :=
       "Access tutoring services and study groups to improve academic performance";
     schemas.urgency := "soon";
     schemas.contact := Some "tutoring@rvce.edu.in" |}.

Definition schedule_advisor_meeting : schemas.Recommendation :=
  {| schemas.type := "academic";
     schemas.title := "Schedule Advisor Meeting";
     schemas.description :=
       "Regular meetings with your academic advisor can help with course planning and early problem detection";
     schemas.urgency := "soon";
     schemas.contact := Some "advising@rvce.edu.in" |}.

Definition time_management_support : schemas.Recommendation :=
  {| schemas.type := "peer";
     schemas.title := "Time Management Support";
     schemas.description :=
       "Consider reducing work hours or exploring flexible work arrangements to prioritize your studies";
     schemas.urgency := "soon";
     schemas.contact := None |}.

Definition explore_campus_support_services : schemas.Recommendation :=
  {| schemas.type := "support";
     schemas.title := "Explore Campus Support Services";
     schemas.description :=
       "You haven't indicated using any support services yet. Visit the student center to learn about available resources including academic advising, counseling, and health services.";
     schemas.urgency := "soon";
     schemas.contact := Some "studentcenter@rvce.edu.in" |}.

Definition stay_connected : schemas.Recommendation :=
  {| schemas.type := "peer";
     schemas.title := "Stay Connected";
     schemas.description :=
       "Continue engaging with campus resources and maintain your support network";
     schemas.urgency := "when-needed";
     schemas.contact := None |}.

(** [if cond: l.append(x)] *)
Definition append_if {A} (cond : bool) (x : A) (l : list A) : list A :=
  if cond then l ++ [x] else l.

(** [not data.services_used or len(data.services_used) == 0] *)
Definition no_services_used
    (data : schemas.SimplifiedAssessmentRequest) : bool :=
  match schemas.services_used data with
  | [] => true
  | _ :: _ => false
  end.

(** [if not recommendations: recommendations.append(Stay Connected)] *)
Definition stay_connected_if_empty
    (recommendations : list schemas.Recommendation)
  : list schemas.Recommendation :=
  match recommendations with
  | [] => recommendations ++ [stay_connected]
  | _ :: _ => recommendations
  end.

(** *** [calculate_fallback_risk]: the leaner rule set *)

(** Lines 152 to 183. *)
Definition fallback_risk_factors
    (data : schemas.SimplifiedAssessmentRequest)
  : list schemas.RiskFactor :=
  let risk_factors := [] in
  let risk_factors :=
    append_if (py_in (schemas.attendance data) ["rarely"; "never"])
      low_class_attendance risk_factors in
  let risk_factors :=
    append_if (py_in (schemas.overwhelm_frequency data) ["often"; "always"])
      academic_overwhelm risk_factors in
  let risk_factors :=
    append_if (py_in (schemas.financial_stress data) ["high"; "very-high"])
      financial_stress_factor risk_factors in
  let risk_factors :=
    append_if (schemas.withdrawal_considered data)
      withdrawal_consideration risk_factors in
  risk_factors.

(** Lines 186 to 222: the recommendations before the last-resort rule. *)
Definition fallback_rule_recommendations
    (data : schemas.SimplifiedAssessmentRequest) (risk_level : string)
  : list schemas.Recommendation :=
  let recommendations := [] in
  let recommendations :=
    append_if (String.eqb risk_level "high")
      mental_health_support recommendations in
  let recommendations :=
    append_if (py_in (schemas.financial_stress data) ["high"; "very-high"])
      financial_aid_office recommendations in
  let recommendations :=
    append_if (schemas.performance_satisfaction data <=? 4)
      academic_tutoring recommendations in
  let recommendations :=
    append_if (no_services_used data)
      explore_campus_support_services recommendations in
  recommendations.

Definition calculate_fallback_risk
    (data : schemas.SimplifiedAssessmentRequest)
  : py_result schemas.PredictionResponse :=
  let risk_score := fallback_risk_score data in
  let risk_level := score_risk_level risk_score in
  let risk_factors := fallback_risk_factors data in
  let recommendations :=
    stay_connected_if_empty
      (fallback_rule_recommendations data risk_level) in
  schemas.PredictionResponse_init
    risk_level
    risk_score
    (risk_score / 100)%Q
    None
    risk_factors
    recommendations
    0.75%Q.

(** *** The richer rule set of the model path *)

Record reason_entry : Type := {
  recommendation : schemas.Recommendation;
  risk_factor : schemas.RiskFactor
}.

Definition withdrawal_reason_map : gmap string reason_entry :=
  list_to_map [
    ("Academic difficulty",
     {| recommendation :=
          {| schemas.type := "academic";
             schemas.title := "Academic Support Program";
             schemas.description :=
               "Enroll in our comprehensive academic support program with tutoring, study groups, and study skills workshops";
             schemas.urgency := "immediate";
             schemas.contact := Some "academicsupport@rvce.edu.in" |};
        risk_factor :=
          {| schemas.category := "Academic";
             schemas.factor := "Academic Difficulty";
             schemas.impact := "high";
             schemas.rf_description :=
               "Struggling with academic material can lead to course failure and withdrawal" |} |});
    ("Financial challenges",
     {| recommendation :=
          {| schemas.type := "financial";
             schemas.title := "Emergency Financial Assistance";
             schemas.description :=
               "Apply for emergency grants or loans. Meet with financial counselor to create a sustainable plan";
             schemas.urgency := "immediate";
             schemas.contact := Some "financialaid@rvce.edu.in" |};
        risk_factor :=
          {| schemas.category := "Financial";
             schemas.factor := "Financial Crisis";
             schemas.impact := "high";
             schemas.rf_description :=
               "Severe financial issues are a primary driver of student withdrawal" |} |});
    ("Mental health",
     {| recommendation :=
          {| schemas.type := "counseling";
             schemas.title := "Mental Health Crisis Support";
             schemas.description :=
               "Contact counseling center immediately. We also have peer support groups and crisis resources available";
             schemas.urgency := "immediate";
             schemas.contact := Some "counseling@rvce.edu.in" |};
        risk_factor :=
          {| schemas.category := "Mental Health";
             schemas.factor := "Mental Health Crisis";
             schemas.impact := "high";
             schemas.rf_description :=
               "Mental health challenges require immediate professional support and intervention" |} |});
    ("Personal/family issues",
     {| recommendation :=
          {| schemas.type := "support";
             schemas.title := "Personal Counseling & Family Support";
             schemas.description :=
               "Our counselors can help you navigate personal and family challenges while maintaining your academic progress";
             schemas.urgency := "soon";
             schemas.contact := Some "counseling@rvce.edu.in" |};
        risk_factor :=
          {| schemas.category := "Personal";
             schemas.factor := "Personal/Family Crisis";
             schemas.impact := "high";
             schemas.rf_description :=
               "Personal and family issues can significantly impact academic focus and commitment" |} |});
    ("Lack of interest",
     {| recommendation :=
          {| schemas.type := "academic";
             schemas.title := "Academic Advising & Program Exploration";
             schemas.description :=
               "Meet with academic advisor to explore program alternatives, course selections, or potential major changes";
             schemas.urgency := "soon";
             schemas.contact := Some "advising@rvce.edu.in" |};
        risk_factor :=
          {| schemas.category := "Academic";
             schemas.factor := "Loss of Academic Interest";
             schemas.impact := "high";
             schemas.rf_description :=
               "Declining interest in studies suggests misalignment with chosen program or career path" |} |});
    ("Career opportunities",
     {| recommendation :=
          {| schemas.type := "career";
             schemas.title := "Career Planning & Education Strategy";
             schemas.description :=
               "Explore how to balance career opportunities with completing your degree. Many students pursue internships while studying";
             schemas.urgency := "soon";
             schemas.contact := Some "career@rvce.edu.in" |};
        risk_factor :=
          {| schemas.category := "Career";
             schemas.factor := "Career Path Conflict";
             schemas.impact := "medium";
             schemas.rf_description :=
               "External career opportunities may be pulling focus away from academic commitments" |} |})
  ].

(** Lines 270 to 317. *)
Definition model_risk_factors
    (data : schemas.SimplifiedAssessmentRequest)
  : list schemas.RiskFactor :=
  let risk_factors := [] in
  let risk_factors :=
    append_if (py_in (schemas.attendance data) ["rarely"; "never"])
      low_class_attendance risk_factors in
  let risk_factors :=
    append_if (py_in (schemas.overwhelm_frequency data) ["often"; "always"])
      academic_overwhelm risk_factors in
  let risk_factors :=
    append_if (py_in (schemas.financial_stress data) ["high"; "very-high"])
      financial_stress_factor risk_factors in
  let risk_factors :=
    append_if (schemas.withdrawal_considered data)
      withdrawal_consideration risk_factors in
  let risk_factors :=
    append_if (schemas.support_network_strength data <=? 3)
      weak_support_network risk_factors in
  let risk_factors :=
    append_if (String.eqb (schemas.employment_status data) "full-time")
      full_time_employment risk_factors in
  risk_factors.

(** Lines 320 to 363. *)
Definition model_rule_recommendations
    (data : schemas.SimplifiedAssessmentRequest) (risk_level : string)
  : list schemas.Recommendation :=
  let recommendations := [] in
  let recommendations :=
    append_if (String.eqb risk_level "high")
      mental_health_support recommendations in
  let recommendations :=
    append_if (py_in (schemas.financial_stress data) ["high"; "very-high"])
      financial_aid_office recommendations in
  let recommendations :=
    append_if (schemas.performance_satisfaction data <=? 4)
      academic_tutoring recommendations in
  let recommendations :=
    append_if (py_in (schemas.advisor_interaction data)
                 ["never"; "once-semester"])
      schedule_advisor_meeting recommendations in
  let recommendations :=
    append_if (String.eqb (schemas.employment_status data) "full-time")
      time_management_support recommendations in
  recommendations.

(** Lines 460 to 463: the loop over the listed reasons.  Membership in
    the map hashes the reason, which raises on a list or a dict. *)
Fixpoint withdrawal_reasons_loop (reasons : list pyval)
    (recommendations : list schemas.Recommendation)
    (risk_factors : list schemas.RiskFactor)
  : py_result (list schemas.Recommendation * list schemas.RiskFactor) :=
  match reasons with
  | [] => inr (recommendations, risk_factors)
  | reason :: rest =>
      py_bind (py_dict_contains withdrawal_reason_map reason)
        (fun present =>
           if present
           then
             py_bind (py_dict_getitem withdrawal_reason_map reason)
               (fun entry =>
                  withdrawal_reasons_loop rest
                    (recommendations ++ [recommendation entry])
                    (risk_factors ++ [risk_factor entry]))
           else withdrawal_reasons_loop rest recommendations risk_factors)
  end.

(** Lines 366 to 463. *)
Definition handle_withdrawal_reasons
    (data : schemas.SimplifiedAssessmentRequest)
    (recommendations : list schemas.Recommendation)
    (risk_factors : list schemas.RiskFactor)
  : py_result (list schemas.Recommendation * list schemas.RiskFactor) :=
  if schemas.withdrawal_considered data
     && negb (bool_decide (schemas.withdrawal_reasons data = []))
  then withdrawal_reasons_loop (schemas.withdrawal_reasons data)
         recommendations risk_factors
  else inr (recommendations, risk_factors).

(** Lines 256 to 491 of [predict_simplified]: the response built from a
    prediction of the model. *)
Definition model_response
    (data : schemas.SimplifiedAssessmentRequest)
    (pred : ml_model.prediction)
  : py_result schemas.PredictionResponse :=
  let dropout_probability := ml_model.dropout_probability pred in
  let predicted_class := ml_model.predicted_class pred in
  let prediction_confidence := ml_model.model_confidence pred in
  (* Determine risk level based on probability *)
  let risk_score := py_round (dropout_probability * 100) in
  let risk_level := probability_risk_level dropout_probability in
  let risk_factors := model_risk_factors data in
  let recommendations := model_rule_recommendations data risk_level in
  py_bind (handle_withdrawal_reasons data recommendations risk_factors)
    (fun '(recommendations, risk_factors) =>
       let recommendations :=
         append_if (no_services_used data)
           explore_campus_support_services recommendations in
       let recommendations := stay_connected_if_empty recommendations in
       schemas.PredictionResponse_init
         risk_level
         (inject_Z risk_score)
         dropout_probability
         predicted_class
         risk_factors
         recommendations
         prediction_confidence).

(** Lines 545 to 562 of [predict_raw]. *)
Definition raw_response (pred : ml_model.prediction)
  : py_result schemas.PredictionResponse :=
  let dropout_probability := ml_model.dropout_probability pred in
  let predicted_class := ml_model.predicted_class pred in
  let model_confidence := ml_model.model_confidence pred in
  let risk_score := py_round (dropout_probability * 100) in
  let risk_level := probability_risk_level dropout_probability in
  schemas.PredictionResponse_init
    risk_level
    (inject_Z risk_score)
    dropout_probability
    predicted_class
    []
    []
    model_confidence.

(** *** The two entry points *)

Section endpoints.

Variable model : ml_model.MLModel.

(** [try: await save_prediction(...)  except Exception as db_error:
    print(...)] *)
Definition save_and_log (result : schemas.PredictionResponse)
    (assessment_input : option schemas.SimplifiedAssessmentRequest)
    (endpoint : string) : M unit :=
  try_except
    (prediction_repository.save_prediction result assessment_input
       endpoint ;; mret tt)
    (fun db_error =>
       print ("Database save failed: " ++ exn_str db_error)%string).

Definition predict_simplified
    (data : schemas.SimplifiedAssessmentRequest)
  : M schemas.PredictionResponse :=
  let fall_back : M schemas.PredictionResponse :=
    (* Fall back to heuristic if ML model not available *)
    result ← lift (calculate_fallback_risk data);
    save_and_log result (Some data) "simplified";;
    mret result in
  try_except
    ((* Map all form inputs to ML features *)
     let ml_features := map_form_to_ml_features data in
     (* Try to use ML model first *)
     if ml_model.is_loaded model then
       match ml_model.predict model ml_features with
       | Some pred =>
           result ← lift (model_response data pred);
           save_and_log result (Some data) "simplified";;
           mret result
       | None => fall_back
       end
     else fall_back)
    (fun e =>
       raise (HTTPException 500
                ("Prediction failed: " ++ exn_str e)%string)).

Definition predict_raw (request : schemas.RawFeaturesRequest)
  : M schemas.PredictionResponse :=
  try_except
    (if negb (ml_model.is_loaded model) then
       raise (HTTPException 503 "ML model not loaded")
     else
       let features_dict := schemas.features request in
       (* Validate presence of all required features *)
       let missing :=
         List.filter
           (fun f => negb (bool_decide (is_Some (features_dict !! f))))
           FEATURE_ORDER in
       match missing with
       | _ :: _ =>
           raise (HTTPException 400
                    ("Missing feature keys: " ++ py_repr_list missing)%string)
       | [] =>
           (* Build feature vector in the correct order *)
           feature_vector ← lift (py_getitems features_dict FEATURE_ORDER);
           match ml_model.predict model feature_vector with
           | None => raise (HTTPException 500 "Model prediction failed")
           | Some pred =>
               result ← lift (raw_response pred);
               save_and_log result None "raw";;
               mret result
           end
       end)
    (fun e =>
       match e with
       | HTTPException _ _ => raise e
       | _ => raise (HTTPException 500
                       ("Prediction failed: " ++ exn_str e)%string)
       end).

End endpoints.

End prediction.

(* ===================================================================== *)
(** ** [app/routers/admin.py] *)
(* ===================================================================== *)

Module admin.

(** [await db.execute(query)].  The session flushes what is pending
    (autoflush), then the query is answered from the tables the
    transaction sees; a fault of the session makes the call raise. *)
Definition db_execute : M database.Tables := fun w =>
  let '(r, s) := database.flush (db w) in
  (py_bind r (fun _ => inr (database.working s)),
   {| db := s; stdout := stdout w; utcnow := utcnow w |}).

(** *** The repository functions, as the endpoints await them

    The repository only reads: the queries of one call are answered
    from the same tables, and what is computed from the rows is what
    [prediction_repository] computes. *)

Definition get_dashboard_stats : M prediction_repository.dashboard_stats :=
  t ← db_execute;
  lift (prediction_repository.get_dashboard_stats t).

Definition get_risk_trends (weeks : Z)
  : M (list prediction_repository.trend_point) :=
  now ← datetime_utcnow;
  t ← db_execute;
  mret (prediction_repository.get_risk_trends t now weeks).

Definition get_recent_assessments (limit : Z)
  : M (list prediction_repository.assessment_summary) :=
  t ← db_execute;
  mret (prediction_repository.get_recent_assessments t limit).

(** Two queries: the count of this week, then the count of the week
    before. *)
Definition calculate_trend (category : string) : M string :=
  now ← datetime_utcnow;
  t ← db_execute;
  db_execute;;
  mret (prediction_repository.calculate_trend t now category).

(** The loop of [get_top_risk_factors] over the rows left to visit. *)
Fixpoint summarize (total_factors : Z) (rows : list (string * Z))
  : M (list prediction_repository.factor_summary) :=
  match rows with
  | [] => mret []
  | row :: rest =>
      percentage ←
        lift (prediction_repository.percentage_of (snd row) total_factors);
      trend ← calculate_trend (fst row);
      factors ← summarize total_factors rest;
      mret ({| prediction_repository.name := fst row;
               prediction_repository.percentage :=
                 py_round_ndigits percentage 1;
               prediction_repository.trend := trend |} :: factors)
  end.

Definition get_top_risk_factors (limit : Z)
  : M (list prediction_repository.factor_summary) :=
  t ← db_execute;
  let rows := prediction_repository.top_categories_query t limit in
  let total_factors := prediction_repository.sum_counts rows in
  summarize total_factors rows.

Definition get_risk_distribution : M (gmap string Z) :=
  t ← db_execute;
  mret (prediction_repository.get_risk_distribution t).

(** *** The response models

    [DashboardStatsResponse], [TrendDataPoint], [RiskFactorSummary] and
    [AssessmentSummary] declare the keys of the dictionaries the
    repository returns, each with the type its value has: validation
    keeps the values, and the records of [prediction_repository] stand
    for the models. *)

Record RiskDistributionResponse : Type := {
  high : Z;
  medium : Z;
  low : Z
}.

(** [RiskDistributionResponse] built from the entries of the
    dictionary: the three fields are required, other keys are ignored. *)
Definition RiskDistributionResponse_init (distribution : gmap string Z)
  : py_result RiskDistributionResponse :=
  match distribution !! "high", distribution !! "medium",
        distribution !! "low" with
  | Some h, Some m, Some l => inr {| high := h; medium := m; low := l |}
  | _, _, _ => inl (ValidationError "Field required")
  end.

(** *** The endpoints *)

Definition dashboard_stats : M prediction_repository.dashboard_stats :=
  try_except
    (stats ← get_dashboard_stats;
     mret stats)
    (fun e =>
       print ("Error fetching dashboard stats: " ++ exn_str e)%string;;
       (* Return empty stats on error *)
       mret {| prediction_repository.total_assessments := 0;
               prediction_repository.high_risk_count := 0;
               prediction_repository.medium_risk_count := 0;
               prediction_repository.low_risk_count := 0;
               prediction_repository.high_risk_percentage := 0.0;
               prediction_repository.medium_risk_percentage := 0.0;
               prediction_repository.low_risk_percentage := 0.0;
               prediction_repository.average_risk_score := 0.0 |}).

Definition dashboard_trends (period : string)
  : M (list prediction_repository.trend_point) :=
  try_except
    (trends_data ← get_risk_trends 8;
     mret trends_data)
    (fun e =>
       print ("Error fetching trends: " ++ exn_str e)%string;;
       mret []).

Definition top_risk_factors (limit : Z)
  : M (list prediction_repository.factor_summary) :=
  try_except
    (factors ← get_top_risk_factors limit;
     mret factors)
    (fun e =>
       print ("Error fetching risk factors: " ++ exn_str e)%string;;
       mret []).

Definition recent_assessments (limit : Z)
  : M (list prediction_repository.assessment_summary) :=
  try_except
    (assessments ← get_recent_assessments limit;
     mret assessments)
    (fun e =>
       print ("Error fetching recent assessments: " ++ exn_str e)%string;;
       mret []).

Definition risk_distribution : M RiskDistributionResponse :=
  try_except
    (distribution ← get_risk_distribution;
     lift (RiskDistributionResponse_init distribution))
    (fun e =>
       print ("Error fetching risk distribution: " ++ exn_str e)%string;;
       mret {| high := 0; medium := 0; low := 0 |}).

End admin.

(* ===================================================================== *)
(** ** Vocabulary of the statements *)
(* ===================================================================== *)

(** A value Python can hash: everything but a list or a dict. *)
Definition hashable (v : pyval) : bool :=
  match v with
  | PyList _ | PyDict _ => false
  | _ => true
  end.

(** The entry the reason map holds for a listed reason, if any. *)
Definition reason_lookup (reason : pyval) : option prediction.reason_entry :=
  match reason with
  | PyStr s => prediction.withdrawal_reason_map !! s
  | _ => None
  end.

(** The entries of the listed reasons that belong to the map, in the
    order the reasons are listed. *)
Definition reason_entries (reasons : list pyval)
  : list prediction.reason_entry :=
  omap reason_lookup reasons.

(** The entries the loop over the reasons appends: those of the listed
    reasons when withdrawal was considered, none otherwise. *)
Definition appended_entries (data : schemas.SimplifiedAssessmentRequest)
  : list prediction.reason_entry :=
  if schemas.withdrawal_considered data
  then reason_entries (schemas.withdrawal_reasons data)
  else [].

(** The same request with another list of withdrawal reasons. *)
Definition with_withdrawal_reasons
    (data : schemas.SimplifiedAssessmentRequest) (reasons : list pyval)
  : schemas.SimplifiedAssessmentRequest :=
  {| schemas.consent_given := schemas.consent_given data;
     schemas.consent_data_processing := schemas.consent_data_processing data;
     schemas.consent_anonymous_analytics :=
       schemas.consent_anonymous_analytics data;
     schemas.academic_year := schemas.academic_year data;
     schemas.attendance := schemas.attendance data;
     schemas.overwhelm_frequency := schemas.overwhelm_frequency data;
     schemas.study_hours := schemas.study_hours data;
     schemas.performance_satisfaction := schemas.performance_satisfaction data;
     schemas.advisor_interaction := schemas.advisor_interaction data;
     schemas.support_network_strength := schemas.support_network_strength data;
     schemas.extracurricular_hours := schemas.extracurricular_hours data;
     schemas.employment_status := schemas.employment_status data;
     schemas.financial_stress := schemas.financial_stress data;
     schemas.career_alignment := schemas.career_alignment data;
     schemas.services_used := schemas.services_used data;
     schemas.withdrawal_considered := schemas.withdrawal_considered data;
     schemas.withdrawal_reasons := reasons |}.


(** Every group holds at least one row. *)
Definition counted (groups : list (string * Z)) : Prop :=
  Forall (fun g => 1 <= snd g) groups.

(** The entry built for one row, against a positive total. *)
Definition summary_of (t : database.Tables) (now total_factors : Z)
    (row : string * Z) : prediction_repository.factor_summary :=
  {| prediction_repository.name := fst row;
     prediction_repository.percentage :=
       py_round_ndigits
         (inject_Z (snd row) / inject_Z total_factors * 100) 1;
     prediction_repository.trend := prediction_repository.calculate_trend t now (fst row) |}.



(** What [predict_simplified] raises for an exception [e] of its body. *)
Definition internal_error (e : exn) : exn :=
  HTTPException 500 ("Prediction failed: " ++ exn_str e)%string.

(** A session with nothing stored and the given schedule of faults. *)
Definition fresh_world (faults : list (option string)) (now : Z) : World :=
  {| db := {| database.committed := database.empty_tables;
              database.working := database.empty_tables;
              database.pending := [];
              database.faults := faults |};
     stdout := [];
     utcnow := now |}.

(* ===================================================================== *)
(** ** Inputs the statements are tried on *)
(* ===================================================================== *)

(** Every contribution of the heuristic scorer is zero on this answer
    set, and no rule of either rule set fires. *)
Definition calm_student : schemas.SimplifiedAssessmentRequest :=
  {| schemas.consent_given := true;
     schemas.consent_data_processing := true;
     schemas.consent_anonymous_analytics := true;
     schemas.academic_year := "1st";
     schemas.attendance := "always";
     schemas.overwhelm_frequency := "never";
     schemas.study_hours := "1-3";
     schemas.performance_satisfaction := 10;
     schemas.advisor_interaction := "monthly";
     schemas.support_network_strength := 10;
     schemas.extracurricular_hours := 5;
     schemas.employment_status := "not-employed";
     schemas.financial_stress := "none";
     schemas.career_alignment := 10;
     schemas.services_used := [PyStr "Academic advising"];
     schemas.withdrawal_considered := false;
     schemas.withdrawal_reasons := [] |}.

(** The same request with another career alignment. *)
Definition with_career_alignment
    (data : schemas.SimplifiedAssessmentRequest) (career_alignment : Z)
  : schemas.SimplifiedAssessmentRequest :=
  {| schemas.consent_given := schemas.consent_given data;
     schemas.consent_data_processing := schemas.consent_data_processing data;
     schemas.consent_anonymous_analytics :=
       schemas.consent_anonymous_analytics data;
     schemas.academic_year := schemas.academic_year data;
     schemas.attendance := schemas.attendance data;
     schemas.overwhelm_frequency := schemas.overwhelm_frequency data;
     schemas.study_hours := schemas.study_hours data;
     schemas.performance_satisfaction := schemas.performance_satisfaction data;
     schemas.advisor_interaction := schemas.advisor_interaction data;
     schemas.support_network_strength := schemas.support_network_strength data;
     schemas.extracurricular_hours := schemas.extracurricular_hours data;
     schemas.employment_status := schemas.employment_status data;
     schemas.financial_stress := schemas.financial_stress data;
     schemas.career_alignment := career_alignment;
     schemas.services_used := schemas.services_used data;
     schemas.withdrawal_considered := schemas.withdrawal_considered data;
     schemas.withdrawal_reasons := schemas.withdrawal_reasons data |}.

(** Every adverse contribution of the heuristic scorer fires. *)
Definition worst_case_student : schemas.SimplifiedAssessmentRequest :=
  {| schemas.consent_given := true;
     schemas.consent_data_processing := true;
     schemas.consent_anonymous_analytics := true;
     schemas.academic_year := "2nd";
     schemas.attendance := "never";
     schemas.overwhelm_frequency := "always";
     schemas.study_hours := "0-1";
     schemas.performance_satisfaction := 0;
     schemas.advisor_interaction := "never";
     schemas.support_network_strength := 0;
     schemas.extracurricular_hours := 0;
     schemas.employment_status := "full-time";
     schemas.financial_stress := "very-high";
     schemas.career_alignment := 0;
     schemas.services_used := [];
     schemas.withdrawal_considered := true;
     schemas.withdrawal_reasons := [] |}.

(** No model was loaded. *)
Definition unready_model : ml_model.MLModel :=
  {| ml_model.is_loaded := false; ml_model.predict := fun _ => None |}.

(** Attendance and overwhelm put this answer set at a score of 45. *)
Definition struggling_student : schemas.SimplifiedAssessmentRequest :=
  {| schemas.consent_given := true;
     schemas.consent_data_processing := true;
     schemas.consent_anonymous_analytics := false;
     schemas.academic_year := "3rd";
     schemas.attendance := "rarely";
     schemas.overwhelm_frequency := "often";
     schemas.study_hours := "5-8";
     schemas.performance_satisfaction := 10;
     schemas.advisor_interaction := "monthly";
     schemas.support_network_strength := 10;
     schemas.extracurricular_hours := 5;
     schemas.employment_status := "not-employed";
     schemas.financial_stress := "none";
     schemas.career_alignment := 10;
     schemas.services_used := [];
     schemas.withdrawal_considered := false;
     schemas.withdrawal_reasons := [] |}.

(** The scenario of the specification: two listed reasons, both in the
    map, and a third label the map does not know. *)
Definition withdrawing_student : schemas.SimplifiedAssessmentRequest :=
  with_withdrawal_reasons
    {| schemas.consent_given := true;
       schemas.consent_data_processing := true;
       schemas.consent_anonymous_analytics := true;
       schemas.academic_year := "2nd";
       schemas.attendance := "often";
       schemas.overwhelm_frequency := "sometimes";
       schemas.study_hours := "3-5";
       schemas.performance_satisfaction := 6;
       schemas.advisor_interaction := "monthly";
       schemas.support_network_strength := 7;
       schemas.extracurricular_hours := 3;
       schemas.employment_status := "part-time";
       schemas.financial_stress := "moderate";
       schemas.career_alignment := 6;
       schemas.services_used := [PyStr "Counseling"];
       schemas.withdrawal_considered := true;
       schemas.withdrawal_reasons := [] |}
    [PyStr "Financial challenges"; PyStr "Relocation"; PyStr "Mental health"].

(** A model that is ready and answers every vector with probability [p]. *)
Definition constant_model (p : Q) : ml_model.MLModel :=
  {| ml_model.is_loaded := true;
     ml_model.predict := fun _ =>
       Some {| ml_model.dropout_probability := p;
               ml_model.predicted_class := Some "Dropout";
               ml_model.model_confidence := 0.9%Q |} |}.

(** A raw request that names every feature of [FEATURE_ORDER]. *)
Definition full_raw_request : schemas.RawFeaturesRequest :=
  {| schemas.features :=
       list_to_map [("Curricular units 2nd sem (approved)", 3%Q);
                    ("Curricular units 1st sem (approved)", 4%Q);
                    ("Tuition fees up to date", 1%Q);
                    ("Scholarship holder", 0%Q);
                    ("Age at enrollment", 19%Q);
                    ("Debtor", 0%Q);
                    ("Gender", 1%Q);
                    ("Application mode", 1%Q)] |}.

(** Five stored risk factors in three categories. *)
Definition sample_tables : database.Tables :=
  let factor_row k c :=
    {| database.rf_id := k; database.rf_prediction_id := 1;
       database.category := c; database.factor := "";
       database.impact := "high"; database.rf_description := "" |} in
  {| database.predictions :=
       [{| database.id := 1; database.created_at := 1700000000;
           database.risk_level := "high"; database.risk_score := 72;
           database.dropout_probability := 0.72%Q;
           database.predicted_class := Some "Dropout";
           database.prediction_confidence := 0.9%Q;
           database.endpoint := "simplified" |}];
     database.assessment_inputs := [];
     database.risk_factors :=
       [factor_row 1 "Academic"; factor_row 2 "Financial";
        factor_row 3 "Academic"; factor_row 4 "Social";
        factor_row 5 "Academic"];
     database.recommendations := [] |}.

(** The required feature keys a raw request does not have, in the order
    of [FEATURE_ORDER]. *)
Definition missing_keys (request : schemas.RawFeaturesRequest)
  : list string :=
  List.filter
    (fun f => negb (bool_decide (is_Some (schemas.features request !! f))))
    prediction.FEATURE_ORDER.

(** The row of the predictions table [save_prediction] writes for a
    response, under the key [k]. *)
Definition prediction_row (k now : Z) (prediction : schemas.PredictionResponse)
    (endpoint : string) : database.Prediction :=
  {| database.id := k;
     database.created_at := now;
     database.risk_level := schemas.risk_level prediction;
     database.risk_score := schemas.risk_score prediction;
     database.dropout_probability := schemas.dropout_probability prediction;
     database.predicted_class :=
       prediction_repository.str_or_none (schemas.predicted_class prediction);
     database.prediction_confidence :=
       schemas.prediction_confidence prediction;
     database.endpoint := endpoint |}.

(** The row written for the answers, under the key [i], for the
    prediction [k]. *)
Definition assessment_row (i k : Z) (a : schemas.SimplifiedAssessmentRequest)
  : database.AssessmentInput :=
  {| database.ai_id := i;
     database.ai_prediction_id := k;
     database.consent_given := schemas.consent_given a;
     database.consent_data_processing := schemas.consent_data_processing a;
     database.consent_anonymous_analytics :=
       schemas.consent_anonymous_analytics a;
     database.academic_year := schemas.academic_year a;
     database.attendance := schemas.attendance a;
     database.overwhelm_frequency := schemas.overwhelm_frequency a;
     database.study_hours := schemas.study_hours a;
     database.performance_satisfaction := schemas.performance_satisfaction a;
     database.advisor_interaction := schemas.advisor_interaction a;
     database.support_network_strength := schemas.support_network_strength a;
     database.extracurricular_hours := schemas.extracurricular_hours a;
     database.employment_status := schemas.employment_status a;
     database.financial_stress := schemas.financial_stress a;
     database.career_alignment := schemas.career_alignment a;
     database.services_used :=
       prediction_repository.json_or_none (schemas.services_used a);
     database.withdrawal_considered := schemas.withdrawal_considered a;
     database.withdrawal_reasons :=
       prediction_repository.json_or_none (schemas.withdrawal_reasons a) |}.

(** The row written for one risk factor. *)
Definition factor_row (i k : Z) (risk_factor : schemas.RiskFactor)
  : database.RiskFactor :=
  {| database.rf_id := i;
     database.rf_prediction_id := k;
     database.category := schemas.category risk_factor;
     database.factor := schemas.factor risk_factor;
     database.impact := schemas.impact risk_factor;
     database.rf_description := schemas.rf_description risk_factor |}.

(** The row written for one recommendation. *)
Definition recommendation_row (i k : Z)
    (recommendation : schemas.Recommendation) : database.Recommendation :=
  {| database.rec_id := i;
     database.rec_prediction_id := k;
     database.rec_type := schemas.type recommendation;
     database.title := schemas.title recommendation;
     database.description := schemas.description recommendation;
     database.urgency := schemas.urgency recommendation;
     database.contact :=
       prediction_repository.str_or_none (schemas.contact recommendation) |}.

(** The objects [save_prediction] adds after the flush, in order. *)
Definition child_objects (k : Z) (prediction : schemas.PredictionResponse)
    (assessment_input : option schemas.SimplifiedAssessmentRequest)
  : list database.orm_object :=
  match assessment_input with
  | Some a => [database.OAssessmentInput (assessment_row 0 k a)]
  | None => []
  end
  ++ map (fun rf => database.ORiskFactor (factor_row 0 k rf))
       (schemas.risk_factors prediction)
  ++ map (fun rec => database.ORecommendation (recommendation_row 0 k rec))
       (schemas.recommendations prediction).

(** The world a failed save leaves: the transaction rolled back, one line
    printed. *)
Definition after_failed_save (c : database.Tables)
    (rest : list (option string)) (out : list string) (now : Z)
    (msg : string) : World :=
  {| db := {| database.committed := c; database.working := c;
              database.pending := []; database.faults := rest |};
     stdout := out ++ [("Error saving prediction: " ++ msg)%string];
     utcnow := now |}.

(** The coming [n] flushes and commits of a session go through. *)
Definition fault_free (n : nat) (s : database.AsyncSession) : Prop :=
  Forall (fun outcome => outcome = None) (firstn n (database.faults s)).

(** The tables after the first flush of a save. *)
Definition flushed_tables (wk : database.Tables) (now : Z)
    (prediction : schemas.PredictionResponse) (endpoint : string)
  : database.Tables :=
  {| database.predictions :=
       database.predictions wk
       ++ [prediction_row
             (database.next_key
                (map database.id (database.predictions wk)))
             now prediction endpoint];
     database.assessment_inputs := database.assessment_inputs wk;
     database.risk_factors := database.risk_factors wk;
     database.recommendations := database.recommendations wk |}.

(** A response with two risk factors and one recommendation. *)
Definition sample_response : schemas.PredictionResponse :=
  {| schemas.risk_level := "medium";
     schemas.risk_score := 45;
     schemas.dropout_probability := 0.45%Q;
     schemas.predicted_class := Some "";
     schemas.risk_factors :=
       [prediction.low_class_attendance; prediction.academic_overwhelm];
     schemas.recommendations := [prediction.explore_campus_support_services];
     schemas.prediction_confidence := 0.75%Q |}.

(** The number of stored predictions of a tier. *)
Definition count_level (level : string) (rows : list database.Prediction)
  : Z :=
  Z.of_nat (length (List.filter
    (fun p => String.eqb (database.risk_level p) level) rows)).

(** The number of stored risk factors of a category. *)
Definition count_category (c : string) (rows : list database.RiskFactor)
  : Z :=
  Z.of_nat (length (List.filter
    (fun r => String.eqb (database.category r) c) rows)).

(** The count the grouped rows hold for a category. *)
Definition count_of (c : string) (groups : list (string * Z)) : Z :=
  fold_right
    (fun g acc => if String.eqb (fst g) c then snd g + acc else acc)
    0 groups.

(** Counts come in falling order. *)
Definition descending (groups : list (string * Z)) : Prop :=
  StronglySorted (fun a b => snd b <= snd a) groups.




(** Every stored risk factor belongs to a stored prediction. *)
Definition factors_have_predictions (t : database.Tables) : Prop :=
  forall r, In r (database.risk_factors t) ->
    exists p, In p (database.predictions t) /\
              database.id p = database.rf_prediction_id r.

(** [sample_tables] a week and a half, and a day, after its one
    prediction. *)
Definition sample_now_late : Z := 1700000000 + 15 * 86400.

Definition sample_now_soon : Z := 1700000000 + 86400.

(** A row of the join comes from a prediction. *)
Definition row_of (p : database.Prediction)
    (r : prediction_repository.recent_row) : Prop :=
  prediction_repository.row_id r = database.id p /\
  prediction_repository.row_created_at r = database.created_at p /\
  prediction_repository.row_risk_level r = database.risk_level p.

(** An entry of the recent assessments describes a prediction. *)
Definition describes (e : prediction_repository.assessment_summary)
    (p : database.Prediction) : Prop :=
  prediction_repository.as_id e = database.id p /\
  prediction_repository.as_name e = "Student Assessment" /\
  prediction_repository.as_date e
    = prediction_repository.strftime_a_d_b (database.created_at p) /\
  prediction_repository.as_time e
    = prediction_repository.strftime_I_M_p (database.created_at p) /\
  prediction_repository.as_risk e = database.risk_level p.

(** Predictions in the order of their creation, the latest first. *)
Definition newest_first (ps : list database.Prediction) : Prop :=
  StronglySorted
    (fun p q => database.created_at q <= database.created_at p) ps.

(** The entry [get_recent_assessments] builds for a row. *)
Definition entry_of (row : prediction_repository.recent_row)
  : prediction_repository.assessment_summary :=
  {| prediction_repository.as_id := prediction_repository.row_id row;
     prediction_repository.as_name := "Student Assessment";
     prediction_repository.as_date :=
       prediction_repository.strftime_a_d_b
         (prediction_repository.row_created_at row);
     prediction_repository.as_time :=
       prediction_repository.strftime_I_M_p
         (prediction_repository.row_created_at row);
     prediction_repository.as_risk :=
       prediction_repository.row_risk_level row;
     prediction_repository.as_type :=
       "Year "
       ++ prediction_repository.or_na
            (prediction_repository.row_academic_year row)
       ++ " Review" |}.

(** The academic years the assessment inputs of a prediction give. *)
Definition academic_years (t : database.Tables) (k : Z) : list string :=
  map database.academic_year
    (List.filter (fun a => database.ai_prediction_id a =? k)
       (database.assessment_inputs t)).

(** Rows in the order of their creation, the latest first. *)
Definition recent_first (rows : list prediction_repository.recent_row)
  : Prop :=
  StronglySorted
    (fun a b => prediction_repository.row_created_at b
                <= prediction_repository.row_created_at a)
    rows.

(** How [get_recent_assessments] labels an academic year. *)
Definition year_label (y : string) : string :=
  "Year " ++ (if String.eqb y "" then "N/A" else y) ++ " Review".

(** Three predictions of three weeks, the second of the simplified
    endpoint with its assessment input, the others of the raw one. *)
Definition history_tables : database.Tables :=
  let prediction_row k at_ level score :=
    {| database.id := k; database.created_at := at_;
       database.risk_level := level; database.risk_score := score;
       database.dropout_probability := inject_Z score / 100;
       database.predicted_class := None;
       database.prediction_confidence := 0.8%Q;
       database.endpoint := if k =? 2 then "simplified" else "raw" |} in
  {| database.predictions :=
       [prediction_row 1 1700000000 "high" 72;
        prediction_row 2 1701300000 "low" 20;
        prediction_row 3 1700700000 "high" 81];
     database.assessment_inputs :=
       [{| database.ai_id := 1; database.ai_prediction_id := 2;
           database.consent_given := true;
           database.consent_data_processing := true;
           database.consent_anonymous_analytics := true;
           database.academic_year := "2";
           database.attendance := "always";
           database.overwhelm_frequency := "rarely";
           database.study_hours := "10-20";
           database.performance_satisfaction := 8;
           database.advisor_interaction := "monthly";
           database.support_network_strength := 8;
           database.extracurricular_hours := 3;
           database.employment_status := "none";
           database.financial_stress := "none";
           database.career_alignment := 8;
           database.services_used := None;
           database.withdrawal_considered := false;
           database.withdrawal_reasons := None |}];
     database.risk_factors := [];
     database.recommendations := [] |}.

(** The predictions the trends query reads: those created at
    [start_date] or later. *)
Definition in_window (t : database.Tables) (start_date : Z)
  : list database.Prediction :=
  List.filter (fun p => start_date <=? database.created_at p)
    (database.predictions t).

(** The label of the week a prediction was created in. *)
Definition week_label (p : database.Prediction) : string :=
  ("W" ++ snd (prediction_repository.strftime_Y_W (database.created_at p)))
  %string.

(** The year a prediction was created in, as the query writes it. *)
Definition year_text (p : database.Prediction) : string :=
  fst (prediction_repository.strftime_Y_W (database.created_at p)).

(** The number of predictions of a week and a tier. *)
Definition tally_week (rows : list database.Prediction)
    (label level : string) : Z :=
  Z.of_nat (length (List.filter
    (fun p => String.eqb (week_label p) label
              && String.eqb (database.risk_level p) level) rows)).

(** The week and the tier a row of the trends query stands for. *)
Definition trend_key (g : prediction_repository.trend_row)
  : string * string :=
  (snd (prediction_repository.week_num g),
   prediction_repository.tr_risk_level g).

(** The counts of the rows a selection of weeks and tiers picks. *)
Definition weigh (sel : string -> string -> bool)
    (groups : list prediction_repository.trend_row) : Z :=
  fold_right
    (fun g acc =>
       (if sel (fst (trend_key g)) (snd (trend_key g))
        then prediction_repository.tr_count g else 0) + acc)
    0 groups.

(** The predictions a selection of weeks and tiers picks. *)
Definition tally (sel : string -> string -> bool)
    (rows : list database.Prediction) : Z :=
  Z.of_nat (length (List.filter
    (fun p => sel (snd (prediction_repository.strftime_Y_W
                          (database.created_at p)))
                  (database.risk_level p)) rows)).

(** Two tiers are stored in the same field of a point. *)
Definition same_slot (l l' : string) : bool :=
  if String.eqb l "high" then String.eqb l' "high"
  else if String.eqb l "medium" then String.eqb l' "medium"
  else negb (String.eqb l' "high") && negb (String.eqb l' "medium").

(** The field of a point a tier is stored in. *)
Definition get_count (level : string)
    (d : prediction_repository.trend_point) : Z :=
  if String.eqb level "high" then prediction_repository.high_risk d
  else if String.eqb level "medium" then prediction_repository.medium_risk d
  else prediction_repository.low_risk d.

(** [weekly_data.get(key)] *)
Definition lookup_week (key : string)
    (weekly_data : list (string * prediction_repository.trend_point))
  : option prediction_repository.trend_point :=
  option_map snd
    (List.find (fun kd => String.eqb (fst kd) key) weekly_data).

(** The loop of [get_risk_trends]. *)
Definition trends_loop (rows : list prediction_repository.trend_row)
    (weekly_data : list (string * prediction_repository.trend_point))
  : list (string * prediction_repository.trend_point) :=
  fold_left
    (fun weekly_data row =>
       prediction_repository.update_week
         (prediction_repository.week_key_of row)
         (prediction_repository.tr_risk_level row)
         (prediction_repository.tr_count row) weekly_data)
    rows weekly_data.

(** What the loop leaves in the field of [level] of the point of
    [key], from what was there: the count of the last row written
    there, zero for a point a row of another field creates. *)
Definition written (key level : string)
    (rows : list prediction_repository.trend_row) (before : option Z)
  : option Z :=
  fold_left
    (fun v row =>
       if String.eqb (prediction_repository.week_key_of row) key
       then Some (if same_slot level (prediction_repository.tr_risk_level row)
                  then prediction_repository.tr_count row
                  else default 0 v)
       else v)
    rows before.

(** The tiers the service assigns. *)
Definition known_tier (level : string) : Prop :=
  level = "high" \/ level = "medium" \/ level = "low".

(** Two statistics are the same numbers. *)
Definition same_stats (a b : prediction_repository.dashboard_stats) : Prop :=
  prediction_repository.total_assessments a
    = prediction_repository.total_assessments b /\
  prediction_repository.high_risk_count a
    = prediction_repository.high_risk_count b /\
  prediction_repository.medium_risk_count a
    = prediction_repository.medium_risk_count b /\
  prediction_repository.low_risk_count a
    = prediction_repository.low_risk_count b /\
  (prediction_repository.high_risk_percentage a
     == prediction_repository.high_risk_percentage b)%Q /\
  (prediction_repository.medium_risk_percentage a
     == prediction_repository.medium_risk_percentage b)%Q /\
  (prediction_repository.low_risk_percentage a
     == prediction_repository.low_risk_percentage b)%Q /\
  (prediction_repository.average_risk_score a
     == prediction_repository.average_risk_score b)%Q.

(** A session that has nothing pending and sees the tables [t], in a
    world. *)
Definition reading_world (c t : database.Tables)
    (faults : list (option string)) (out : list string) (now : Z) : World :=
  {| db := {| database.committed := c; database.working := t;
              database.pending := []; database.faults := faults |};
     stdout := out; utcnow := now |}.

(** The first fault among the coming [n] outcomes of a session, with
    the outcomes after it. *)
Fixpoint first_fault (n : nat) (faults : list (option string))
  : option (string * list (option string)) :=
  match n with
  | O => None
  | S n' =>
      match faults with
      | Some msg :: rest => Some (msg, rest)
      | _ => first_fault n' (tl faults)
      end
  end.

(** The reads [get_top_risk_factors] makes for its rows: one for the
    rows, two for the trend of each. *)
Definition top_factor_reads (t : database.Tables) (limit : Z) : nat :=
  1 + 2 * length (prediction_repository.top_categories_query t limit).

(** The world after an endpoint has reported a failed read. *)
Definition after_report (w : World) (line : string) : World :=
  {| db := db w; stdout := stdout w ++ [line]; utcnow := utcnow w |}.

(** What the endpoints answer when a read fails. *)
Definition no_stats : prediction_repository.dashboard_stats :=
  {| prediction_repository.total_assessments := 0;
     prediction_repository.high_risk_count := 0;
     prediction_repository.medium_risk_count := 0;
     prediction_repository.low_risk_count := 0;
     prediction_repository.high_risk_percentage := 0.0;
     prediction_repository.medium_risk_percentage := 0.0;
     prediction_repository.low_risk_percentage := 0.0;
     prediction_repository.average_risk_score := 0.0 |}.

Definition no_distribution : admin.RiskDistributionResponse :=
  {| admin.high := 0; admin.medium := 0; admin.low := 0 |}.

(** The distribution of the tiers of stored predictions. *)
Definition distribution_of (t : database.Tables)
  : admin.RiskDistributionResponse :=
  {| admin.high := count_level "high" (database.predictions t);
     admin.medium := count_level "medium" (database.predictions t);
     admin.low := count_level "low" (database.predictions t) |}.

(* ===================================================================== *)
(** ** Facts about the Python built-ins *)
(* ===================================================================== *)

Section builtins.

Lemma Qfloor_bounds (x : Q) :
  (inject_Z (Qfloor x) <= x /\ x < inject_Z (Qfloor x) + 1)%Q.
Proof.
  split; [apply Qfloor_le|].
  pose proof (Qlt_floor x) as H.
  rewrite inject_Z_plus in H. exact H.
Qed.

Lemma inject_Z_succ (z : Z) : inject_Z (z + 1) = (inject_Z z + 1)%Q.
Proof. apply inject_Z_plus. Qed.


(** A tie goes to the even neighbour. *)
Lemma py_round_tie_even (x : Q) :
  (Qabs (x - inject_Z (py_round x)) == 1 # 2)%Q ->
  Z.even (py_round x) = true.
Proof.
  unfold py_round.
  destruct (Qfloor_bounds x) as [Hlo Hhi].
  destruct (Qcompare_spec (x - inject_Z (Qfloor x)) (1 # 2)) as [He|Hl|Hg].
  - intros _. destruct (Z.even (Qfloor x)) eqn:E; [exact E|].
    rewrite Z.even_add, E. reflexivity.
  - intros H. exfalso.
    rewrite Qabs_pos in H by lra. lra.
  - intros H. exfalso. rewrite inject_Z_succ in H.
    rewrite Qabs_neg in H by lra. lra.
Qed.

Lemma py_round_inject_Z (z : Z) : py_round (inject_Z z) = z.
Proof.
  unfold py_round. rewrite Qfloor_Z.
  destruct (Qcompare_spec (inject_Z z - inject_Z z) (1 # 2)); try lra.
  reflexivity.
Qed.


Lemma py_round_ndigits_zero (n : nat) : (py_round_ndigits 0 n == 0)%Q.
Proof.
  unfold py_round_ndigits.
  assert (H : py_round (0 * inject_Z (10 ^ Z.of_nat n)) = 0).
  { unfold py_round.
    assert (E : (0 * inject_Z (10 ^ Z.of_nat n) == inject_Z 0)%Q)
      by (change (inject_Z 0) with 0%Q; ring).
    assert (F : Qfloor (0 * inject_Z (10 ^ Z.of_nat n)) = 0).
    { rewrite (Qfloor_comp _ _ E). apply Qfloor_Z. }
    rewrite F.
    destruct (Qcompare_spec
                (0 * inject_Z (10 ^ Z.of_nat n) - inject_Z 0) (1 # 2));
      try reflexivity; exfalso; rewrite E in *; lra. }
  rewrite H. unfold Qdiv. change (inject_Z 0) with 0%Q. ring.
Qed.

Lemma validate_int_inject_Z (z : Z) :
  schemas.validate_int (inject_Z z) = inr z.
Proof.
  unfold schemas.validate_int.
  rewrite Qred_identity by (simpl; apply Z.gcd_1_r).
  reflexivity.
Qed.

Lemma validate_int_inr (x : Q) (z : Z) :
  schemas.validate_int x = inr z -> (inject_Z z == x)%Q.
Proof.
  unfold schemas.validate_int. intros H.
  destruct (Pos.eqb (Qden (Qred x)) 1) eqn:E; [|discriminate].
  apply Pos.eqb_eq in E. injection H as <-.
  rewrite <- (Qred_correct x) at 2.
  destruct (Qred x) as [n d]. simpl in *. subst d. reflexivity.
Qed.

Lemma py_bind_inr {A B} (x : py_result A) (f : A -> py_result B) (b : B) :
  py_bind x f = inr b -> exists a, x = inr a /\ f a = inr b.
Proof. destruct x as [e|a]; simpl; [discriminate|eauto]. Qed.

Lemma py_in_cons (x y : string) (l : list string) :
  py_in x (y :: l) = String.eqb x y || py_in x l.
Proof. reflexivity. Qed.

End builtins.

(* ===================================================================== *)
(** ** What a returned response looks like *)
(* ===================================================================== *)

Section responses.

Import schemas.

Lemma PredictionResponse_init_inr lvl score p cls rfs recs conf r :
  PredictionResponse_init lvl score p cls rfs recs conf = inr r ->
  exists z, validate_int score = inr z /\
    r = {| risk_level := lvl; risk_score := z; dropout_probability := p;
           predicted_class := cls; risk_factors := rfs;
           recommendations := recs; prediction_confidence := conf |}.
Proof.
  unfold PredictionResponse_init. intros H.
  apply py_bind_inr in H as (z & Hz & Hr).
  exists z. split; [exact Hz|]. now injection Hr as <-.
Qed.

Lemma PredictionResponse_init_int lvl (z : Z) p cls rfs recs conf :
  PredictionResponse_init lvl (inject_Z z) p cls rfs recs conf =
  inr {| risk_level := lvl; risk_score := z; dropout_probability := p;
         predicted_class := cls; risk_factors := rfs;
         recommendations := recs; prediction_confidence := conf |}.
Proof.
  unfold PredictionResponse_init. now rewrite validate_int_inject_Z.
Qed.

(** The response of the heuristic path, when there is one. *)
Lemma calculate_fallback_risk_inr data r :
  prediction.calculate_fallback_risk data = inr r ->
  (inject_Z (risk_score r) == prediction.fallback_risk_score data)%Q /\
  r = {| risk_level :=
           prediction.score_risk_level (prediction.fallback_risk_score data);
         risk_score := risk_score r;
         dropout_probability :=
           (prediction.fallback_risk_score data / 100)%Q;
         predicted_class := None;
         risk_factors := prediction.fallback_risk_factors data;
         recommendations :=
           prediction.stay_connected_if_empty
             (prediction.fallback_rule_recommendations data
                (prediction.score_risk_level
                   (prediction.fallback_risk_score data)));
         prediction_confidence := 0.75%Q |}.
Proof.
  unfold prediction.calculate_fallback_risk. intros H.
  apply PredictionResponse_init_inr in H as (z & Hz & ->).
  split; [now apply validate_int_inr|reflexivity].
Qed.

(** The response of the model path is the record below as soon as the
    loop over the withdrawal reasons goes through. *)
Lemma model_response_eq data pred :
  prediction.model_response data pred =
  py_bind
    (prediction.handle_withdrawal_reasons data
       (prediction.model_rule_recommendations data
          (prediction.probability_risk_level
             (ml_model.dropout_probability pred)))
       (prediction.model_risk_factors data))
    (fun out =>
       inr {| risk_level :=
                prediction.probability_risk_level
                  (ml_model.dropout_probability pred);
              risk_score :=
                py_round (ml_model.dropout_probability pred * 100);
              dropout_probability := ml_model.dropout_probability pred;
              predicted_class := ml_model.predicted_class pred;
              risk_factors := snd out;
              recommendations :=
                prediction.stay_connected_if_empty
                  (prediction.append_if (prediction.no_services_used data)
                     prediction.explore_campus_support_services (fst out));
              prediction_confidence := ml_model.model_confidence pred |}).
Proof.
  unfold prediction.model_response.
  destruct (prediction.handle_withdrawal_reasons _ _ _) as [e|[recs rfs]];
    simpl; [reflexivity|].
  apply PredictionResponse_init_int.
Qed.

Lemma raw_response_eq pred :
  prediction.raw_response pred =
  inr {| risk_level :=
           prediction.probability_risk_level
             (ml_model.dropout_probability pred);
         risk_score := py_round (ml_model.dropout_probability pred * 100);
         dropout_probability := ml_model.dropout_probability pred;
         predicted_class := ml_model.predicted_class pred;
         risk_factors := [];
         recommendations := [];
         prediction_confidence := ml_model.model_confidence pred |}.
Proof. apply PredictionResponse_init_int. Qed.

End responses.

(* ===================================================================== *)
(** ** Risk tiers *)
(* ===================================================================== *)

Section tiers.

Lemma Qle_bool_false (x y : Q) : Qle_bool x y = false -> (y < x)%Q.
Proof.
  intros H. apply Qnot_le_lt. intros Hle.
  apply Qle_bool_iff in Hle. congruence.
Qed.

(** The three outcomes of the two threshold tests. *)
Lemma threshold_cases (hi lo x : Q) :
  (lo < hi)%Q ->
  (Qle_bool hi x = true /\ (hi <= x)%Q) \/
  (Qle_bool hi x = false /\ Qle_bool lo x = true /\ (lo <= x < hi)%Q) \/
  (Qle_bool hi x = false /\ Qle_bool lo x = false /\ (x < lo)%Q).
Proof.
  intros Hlh.
  destruct (Qle_bool hi x) eqn:Eh.
  - left. split; [reflexivity|now apply Qle_bool_iff].
  - apply Qle_bool_false in Eh. right.
    destruct (Qle_bool lo x) eqn:El.
    + left. apply Qle_bool_iff in El. auto.
    + right. apply Qle_bool_false in El. auto.
Qed.

Lemma probability_risk_level_spec (p : Q) :
  (prediction.probability_risk_level p = "high" <-> (0.6 <= p)%Q) /\
  (prediction.probability_risk_level p = "medium"
     <-> (0.35 <= p /\ p < 0.6)%Q) /\
  (prediction.probability_risk_level p = "low" <-> (p < 0.35)%Q).
Proof.
  unfold prediction.probability_risk_level.
  destruct (threshold_cases 0.6 0.35 p) as [[-> H]|[(-> & -> & H)|(-> & -> & H)]];
    [lra| | |]; repeat split; intros; try discriminate; try lra; tauto.
Qed.

Lemma score_risk_level_spec (s : Q) :
  (prediction.score_risk_level s = "high" <-> (60 <= s)%Q) /\
  (prediction.score_risk_level s = "medium" <-> (35 <= s /\ s < 60)%Q) /\
  (prediction.score_risk_level s = "low" <-> (s < 35)%Q).
Proof.
  unfold prediction.score_risk_level.
  destruct (threshold_cases 60 35 s) as [[-> H]|[(-> & -> & H)|(-> & -> & H)]];
    [lra| | |]; repeat split; intros; try discriminate; try lra; tauto.
Qed.

Lemma risk_level_values (p : Q) :
  prediction.probability_risk_level p ∈ ["high"; "medium"; "low"].
Proof.
  unfold prediction.probability_risk_level.
  destruct (Qle_bool 0.6 p), (Qle_bool 0.35 p); set_solver.
Qed.

(** The score thresholds are the probability thresholds times 100. *)
Lemma score_risk_level_scaled (p : Q) :
  prediction.score_risk_level (p * 100) = prediction.probability_risk_level p.
Proof.
  destruct (probability_risk_level_spec p) as (Hh & Hm & Hl).
  destruct (score_risk_level_spec (p * 100)) as (Sh & Sm & Sl).
  destruct (Qlt_le_dec p 0.35) as [H1|H1].
  - rewrite (proj2 Hl) by lra. apply Sl. lra.
  - destruct (Qlt_le_dec p 0.6) as [H2|H2].
    + rewrite (proj2 Hm) by lra. apply Sm. lra.
    + rewrite (proj2 Hh) by lra. apply Sh. lra.
Qed.

End tiers.

(* ===================================================================== *)
(** ** Running a handler *)
(* ===================================================================== *)

Section monad.

Context {A B : Type}.

Lemma run_try_except_inr (body : M A) handler (w : World) a :
  fst (body w) = inr a -> fst (try_except body handler w) = inr a.
Proof.
  unfold try_except. destruct (body w) as [[e|a'] w']; simpl; congruence.
Qed.

Lemma run_try_except_inl (body : M A) handler (w : World) e :
  fst (body w) = inl e ->
  try_except body handler w = handler e (snd (body w)).
Proof.
  unfold try_except. destruct (body w) as [[e'|a'] w']; simpl; congruence.
Qed.

Lemma run_bind_lift (x : py_result A) (f : A -> M B) (w : World) :
  (lift x ≫= f) w =
  match x with
  | inl e => (inl e, w)
  | inr a => f a w
  end.
Proof. unfold mbind, M_bind, lift. now destruct x. Qed.

Lemma run_raise (e : exn) (w : World) : fst (@raise A e w) = inl e.
Proof. reflexivity. Qed.
End monad.

(* ===================================================================== *)
(** ** The entry points, case by case *)
(* ===================================================================== *)

Section outcomes.

Variable model : ml_model.MLModel.

(** The guarded save returns normally whatever the session does. *)
Lemma save_and_log_returns result input endpoint (w : World) :
  fst (prediction.save_and_log result input endpoint w) = inr tt.
Proof.
  unfold prediction.save_and_log, try_except.
  match goal with
  | |- context [match ?c with _ => _ end] =>
      destruct c as [[e|[]] w']
  end; reflexivity.
Qed.

(** A save that raises leaves a line on standard output. *)
Lemma save_and_log_logs result input endpoint (w : World) e :
  fst (prediction_repository.save_prediction result input endpoint w)
    = inl e ->
  exists lines,
    stdout (snd (prediction.save_and_log result input endpoint w)) =
    (lines ++ [("Database save failed: " ++ exn_str e)%string])%list.
Proof.
  unfold prediction.save_and_log, try_except, mbind, M_bind.
  destruct (prediction_repository.save_prediction result input endpoint w)
    as [[e'|k] w'] eqn:E; simpl; intros H; [|discriminate].
  injection H as ->. exists (stdout w'). reflexivity.
Qed.

(** Once a response [r] is built, saving and returning yields [r]. *)
Lemma respond_after_save r input endpoint (w : World) :
  fst ((prediction.save_and_log r input endpoint ;; mret r) w) = inr r.
Proof.
  unfold mbind, M_bind.
  pose proof (save_and_log_returns r input endpoint w) as H.
  destruct (prediction.save_and_log r input endpoint w) as [[e|[]] w'];
    simpl in *; [discriminate|reflexivity].
Qed.

(** What follows the construction of a response on either path. *)
Lemma run_build_and_save (x : py_result schemas.PredictionResponse)
    input endpoint (w : World) :
  fst ((result ← lift x;
        prediction.save_and_log result input endpoint;;
        mret result) w) = x.
Proof.
  rewrite run_bind_lift. destruct x as [e|r]; [reflexivity|].
  apply respond_after_save.
Qed.

Lemma run_guarded (x : py_result schemas.PredictionResponse)
    (body : M schemas.PredictionResponse) (w : World) :
  fst (body w) = x ->
  fst (try_except body
         (fun e => raise (HTTPException 500
                            ("Prediction failed: " ++ exn_str e)%string)) w)
  = match x with
    | inr r => inr r
    | inl e => inl (internal_error e)
    end.
Proof.
  intros <-. destruct (fst (body w)) as [e|r] eqn:E.
  - now rewrite (run_try_except_inl _ _ _ _ E).
  - now apply run_try_except_inr.
Qed.

Lemma predict_simplified_model_path data pred (w : World) :
  ml_model.is_loaded model = true ->
  ml_model.predict model (prediction.map_form_to_ml_features data)
    = Some pred ->
  fst (prediction.predict_simplified model data w) =
  match prediction.model_response data pred with
  | inr r => inr r
  | inl e => inl (internal_error e)
  end.
Proof.
  intros Hl Hp. unfold prediction.predict_simplified.
  rewrite Hl, Hp. apply run_guarded, run_build_and_save.
Qed.

Lemma predict_simplified_fallback_path data (w : World) :
  (ml_model.is_loaded model = false \/
   ml_model.predict model (prediction.map_form_to_ml_features data)
     = None) ->
  fst (prediction.predict_simplified model data w) =
  match prediction.calculate_fallback_risk data with
  | inr r => inr r
  | inl e => inl (internal_error e)
  end.
Proof.
  intros Hcase. unfold prediction.predict_simplified.
  apply run_guarded.
  destruct Hcase as [-> | ->]; [|destruct (ml_model.is_loaded model)];
    apply run_build_and_save.
Qed.

Lemma no_missing_keys (d : gmap string Q) keys vs :
  py_getitems d keys = inr vs ->
  List.filter (fun f => negb (bool_decide (is_Some (d !! f)))) keys = [].
Proof.
  revert vs. induction keys as [|k keys IH]; intros vs H; [reflexivity|].
  simpl in *. destruct (d !! k) as [v|] eqn:E; [|discriminate].
  apply py_bind_inr in H as (vs' & Hvs & _).
  rewrite bool_decide_eq_true_2 by eauto. simpl. eauto.
Qed.

(** The body of [predict_raw], before its exception handlers. *)
Lemma predict_raw_model_path request feature_vector pred (w : World) :
  ml_model.is_loaded model = true ->
  py_getitems (schemas.features request) prediction.FEATURE_ORDER
    = inr feature_vector ->
  ml_model.predict model feature_vector = Some pred ->
  fst (prediction.predict_raw model request w) =
  prediction.raw_response pred.
Proof.
  intros Hl Hf Hp. unfold prediction.predict_raw.
  rewrite Hl. cbn [negb].
  rewrite (no_missing_keys _ _ _ Hf).
  destruct (prediction.raw_response pred) as [e|r] eqn:Hr.
  { rewrite raw_response_eq in Hr. discriminate. }
  apply run_try_except_inr.
  rewrite run_bind_lift, Hf, Hp, Hr.
  apply respond_after_save.
Qed.

End outcomes.

(* ===================================================================== *)
(** ** The heuristic scorer *)
(* ===================================================================== *)

Section heuristic.

Lemma fallback_risk_score_range data :
  (0 <= prediction.fallback_risk_score data <= 100)%Q.
Proof.
  unfold prediction.fallback_risk_score.
  split.
  - apply Q.min_glb; [lra|apply Q.le_max_l].
  - apply Q.le_min_l.
Qed.







End heuristic.

(* ===================================================================== *)
(** ** Tiering and scores of a response *)
(* ===================================================================== *)

(** C1.  On the model path (structured and raw entry) the tier of a
    response is [high] exactly when the probability is at least 0.60,
    [medium] exactly when it lies in [0.35, 0.60) and [low] exactly when
    it is below 0.35; these three conditions split the rationals, hence
    [0,1], into disjoint parts that leave nothing out.  The heuristic path
    applies the same test to its score with the bounds 60 and 35, which is
    the probability test on score / 100. *)
Theorem C1_risk_tier_partition :
  (forall p : Q,
     (prediction.probability_risk_level p = "high" <-> (0.6 <= p)%Q) /\
     (prediction.probability_risk_level p = "medium"
        <-> (0.35 <= p /\ p < 0.6)%Q) /\
     (prediction.probability_risk_level p = "low" <-> (p < 0.35)%Q) /\
     prediction.probability_risk_level p ∈ ["high"; "medium"; "low"]) /\
  (forall s : Q,
     (prediction.score_risk_level s = "high" <-> (60 <= s)%Q) /\
     (prediction.score_risk_level s = "medium" <-> (35 <= s /\ s < 60)%Q) /\
     (prediction.score_risk_level s = "low" <-> (s < 35)%Q) /\
     prediction.score_risk_level s
       = prediction.probability_risk_level (s / 100)) /\
  (forall data pred r,
     prediction.model_response data pred = inr r ->
     schemas.risk_level r
       = prediction.probability_risk_level (ml_model.dropout_probability pred))
  /\
  (forall pred r,
     prediction.raw_response pred = inr r ->
     schemas.risk_level r
       = prediction.probability_risk_level (ml_model.dropout_probability pred))
  /\
  (forall data r,
     prediction.calculate_fallback_risk data = inr r ->
     schemas.risk_level r
       = prediction.score_risk_level (prediction.fallback_risk_score data)).
Proof.
  split; [|split; [|split; [|split]]].
  - intros p. destruct (probability_risk_level_spec p) as (Hh & Hm & Hl).
    repeat split; try tauto. apply risk_level_values.
  - intros s. destruct (score_risk_level_spec s) as (Hh & Hm & Hl).
    repeat split; try tauto.
    rewrite <- score_risk_level_scaled.
    unfold prediction.score_risk_level.
    assert (E : (s / 100 * 100 == s)%Q) by field.
    now rewrite !E.
  - intros data pred r H. rewrite model_response_eq in H.
    apply py_bind_inr in H as (out & _ & Hr). now injection Hr as <-.
  - intros pred r H. rewrite raw_response_eq in H. now injection H as <-.
  - intros data r H. apply calculate_fallback_risk_inr in H as (_ & ->).
    reflexivity.
Qed.

Lemma C1_risk_tier_partition_witness :
  prediction.model_response calm_student
    {| ml_model.dropout_probability := 0.6%Q;
       ml_model.predicted_class := None;
       ml_model.model_confidence := 0.8%Q |}
  = inr
      {| schemas.risk_level := "high";
         schemas.risk_score := 60;
         schemas.dropout_probability := 0.6%Q;
         schemas.predicted_class := None;
         schemas.risk_factors := [];
         schemas.recommendations := [prediction.mental_health_support];
         schemas.prediction_confidence := 0.8%Q |} /\
  "high" = prediction.probability_risk_level 0.6.
Proof.
  split; [vm_compute; reflexivity|].
  exact (proj1 (proj2 (proj2 C1_risk_tier_partition)) calm_student _ _
           (eq_refl : prediction.model_response calm_student
              {| ml_model.dropout_probability := 0.6%Q;
                 ml_model.predicted_class := None;
                 ml_model.model_confidence := 0.8%Q |} = inr
      {| schemas.risk_level := "high";
         schemas.risk_score := 60;
         schemas.dropout_probability := 0.6%Q;
         schemas.predicted_class := None;
         schemas.risk_factors := [];
         schemas.recommendations := [prediction.mental_health_support];
         schemas.prediction_confidence := 0.8%Q |})).
Defined.



(** C7.  The last feature, [applicationMode], is 2 exactly when the
    employment status is [full-time] and the career alignment is below 5,
    and 1 in every other case, the case of a career alignment of 8 or more
    included. *)
Theorem C7_application_mode (data : schemas.SimplifiedAssessmentRequest) :
  let full_time_low_alignment :=
    schemas.employment_status data = "full-time" /\
    schemas.career_alignment data < 5 in
  length (prediction.map_form_to_ml_features data) = 8%nat /\
  (nth 7 (prediction.map_form_to_ml_features data) 0%Q = 2%Q
     <-> full_time_low_alignment) /\
  (nth 7 (prediction.map_form_to_ml_features data) 0%Q = 1%Q
     <-> ~ full_time_low_alignment) /\
  (8 <= schemas.career_alignment data ->
   nth 7 (prediction.map_form_to_ml_features data) 0%Q = 1%Q).
Proof.
  cbv zeta.
  assert (E : nth 7 (prediction.map_form_to_ml_features data) 0%Q
              = inject_Z (prediction.application_mode_of data))
    by reflexivity.
  rewrite E. clear E. unfold prediction.application_mode_of.
  split; [reflexivity|].
  destruct (String.eqb_spec (schemas.employment_status data) "full-time")
    as [He|He];
    destruct (Z.ltb_spec (schemas.career_alignment data) 5) as [Hc|Hc];
    cbn [andb];
    destruct (schemas.career_alignment data >=? 8);
    repeat split; intros; try discriminate; try reflexivity;
    try tauto; try lia.
Qed.

Lemma C7_application_mode_witness :
  nth 7 (prediction.map_form_to_ml_features
           (with_career_alignment calm_student 9)) 0%Q = 1%Q.
Proof.
  apply (C7_application_mode (with_career_alignment calm_student 9)).
  vm_compute. discriminate.
Defined.

(** C9.  A response of the heuristic path has confidence 0.75 and no
    predicted class, its probability is the clamped score divided by 100,
    and its integer score is that clamped score. *)
Theorem C9_fallback_response_fields
    (data : schemas.SimplifiedAssessmentRequest)
    (r : schemas.PredictionResponse) :
  prediction.calculate_fallback_risk data = inr r ->
  schemas.prediction_confidence r = 0.75%Q /\
  schemas.predicted_class r = None /\
  schemas.dropout_probability r
    = (prediction.fallback_risk_score data / 100)%Q /\
  (inject_Z (schemas.risk_score r) == prediction.fallback_risk_score data)%Q
  /\
  (schemas.dropout_probability r
     == inject_Z (schemas.risk_score r) / 100)%Q.
Proof.
  intros H. apply calculate_fallback_risk_inr in H as (Hs & ->).
  cbn [schemas.prediction_confidence schemas.predicted_class
       schemas.dropout_probability schemas.risk_score] in *.
  repeat split; try reflexivity; try assumption.
  now rewrite Hs.
Qed.

Lemma C9_fallback_response_fields_witness :
  exists r,
    prediction.calculate_fallback_risk struggling_student = inr r /\
    schemas.risk_score r = 45 /\
    schemas.prediction_confidence r = 0.75%Q /\
    schemas.predicted_class r = None /\
    (schemas.dropout_probability r == 0.45)%Q.
Proof.
  eexists. split; [vm_compute; reflexivity|].
  split; [reflexivity|].
  match goal with
  | |- context [schemas.prediction_confidence ?r] =>
      destruct (C9_fallback_response_fields struggling_student r)
        as (Hc & Hn & _ & _ & Hp); [vm_compute; reflexivity|]
  end.
  split; [exact Hc|]. split; [exact Hn|].
  rewrite Hp. reflexivity.
Defined.

(** C3.  The clamp keeps the score of the heuristic scorer within
    [0, 100], and the answer set on which every adverse contribution
    fires is scored 100 and tiered [high].  The score is not always an
    integer, though: with a career alignment of 9 and nothing else
    adverse it is 1.5, the response cannot be built and the request ends
    in an internal error. *)
Theorem C3_fallback_score_clamped_not_integral :
  (forall data, (0 <= prediction.fallback_risk_score data <= 100)%Q) /\
  (prediction.fallback_risk_score worst_case_student == 100)%Q /\
  (exists r,
     prediction.calculate_fallback_risk worst_case_student = inr r /\
     schemas.risk_score r = 100 /\ schemas.risk_level r = "high") /\
  (prediction.fallback_risk_score (with_career_alignment calm_student 9)
     == 1.5)%Q /\
  (exists msg,
     prediction.calculate_fallback_risk (with_career_alignment calm_student 9)
       = inl (ValidationError msg) /\
     fst (prediction.predict_simplified unready_model
            (with_career_alignment calm_student 9) (fresh_world [] 0))
       = inl (HTTPException 500 ("Prediction failed: " ++ msg)%string)).
Proof.
  split; [apply fallback_risk_score_range|].
  split; [vm_compute; reflexivity|].
  split; [eexists; split; [vm_compute; reflexivity|split; reflexivity]|].
  split; [vm_compute; reflexivity|].
  eexists. split; vm_compute; reflexivity.
Qed.


(* ===================================================================== *)
(** ** Persistence never fails a request *)
(* ===================================================================== *)

(** C4.  Once a response has been computed, the entry point returns that
    very response from every state of the world, that is, whatever the
    session does during the save: on the model path and on the heuristic
    path of the structured entry, and on the raw entry.  A save that
    raises is caught by the entry point, which prints a line and goes
    on. *)
Theorem C4_persistence_failure_swallowed (model : ml_model.MLModel) :
  (forall data pred r (w : World),
     ml_model.is_loaded model = true ->
     ml_model.predict model (prediction.map_form_to_ml_features data)
       = Some pred ->
     prediction.model_response data pred = inr r ->
     fst (prediction.predict_simplified model data w) = inr r) /\
  (forall data r (w : World),
     ml_model.is_loaded model = false \/
     ml_model.predict model (prediction.map_form_to_ml_features data)
       = None ->
     prediction.calculate_fallback_risk data = inr r ->
     fst (prediction.predict_simplified model data w) = inr r) /\
  (forall request feature_vector pred r (w : World),
     ml_model.is_loaded model = true ->
     py_getitems (schemas.features request) prediction.FEATURE_ORDER
       = inr feature_vector ->
     ml_model.predict model feature_vector = Some pred ->
     prediction.raw_response pred = inr r ->
     fst (prediction.predict_raw model request w) = inr r) /\
  (forall r input endpoint (w : World) e,
     fst (prediction_repository.save_prediction r input endpoint w) = inl e ->
     fst (prediction.save_and_log r input endpoint w) = inr tt /\
     exists lines,
       stdout (snd (prediction.save_and_log r input endpoint w)) =
       (lines ++ [("Database save failed: " ++ exn_str e)%string])%list).
Proof.
  split; [|split; [|split]].
  - intros data pred r w Hl Hp Hr.
    now rewrite (predict_simplified_model_path model data pred w Hl Hp), Hr.
  - intros data r w Hcase Hr.
    now rewrite (predict_simplified_fallback_path model data w Hcase), Hr.
  - intros request fv pred r w Hl Hf Hp Hr.
    now rewrite (predict_raw_model_path model request fv pred w Hl Hf Hp).
  - intros r input endpoint w e He. split.
    + apply save_and_log_returns.
    + now apply save_and_log_logs.
Qed.

Lemma C4_persistence_failure_swallowed_witness :
  let w := fresh_world [None; Some "database is locked"] 1700000000 in
  exists r,
    prediction.model_response struggling_student
      {| ml_model.dropout_probability := 0.7%Q;
         ml_model.predicted_class := Some "Dropout";
         ml_model.model_confidence := 0.9%Q |} = inr r /\
    fst (prediction_repository.save_prediction r (Some struggling_student)
           "simplified" w)
      = inl (SQLAlchemyError "database is locked") /\
    fst (prediction.predict_simplified (constant_model 0.7)
           struggling_student w) = inr r.
Proof.
  intros w. eexists.
  split; [vm_compute; reflexivity|].
  split; [vm_compute; reflexivity|].
  apply (proj1 (C4_persistence_failure_swallowed (constant_model 0.7))
           struggling_student
           {| ml_model.dropout_probability := 0.7%Q;
              ml_model.predicted_class := Some "Dropout";
              ml_model.model_confidence := 0.9%Q |}).
  - reflexivity.
  - reflexivity.
  - vm_compute. reflexivity.
Defined.

Local Open Scope list_scope.

(* ===================================================================== *)
(** ** The rule engine *)
(* ===================================================================== *)

Section rules.

Import prediction.

Lemma reason_entries_cons reason rest :
  reason_entries (reason :: rest) =
  match reason_lookup reason with
  | Some entry => entry :: reason_entries rest
  | None => reason_entries rest
  end.
Proof. reflexivity. Qed.

Lemma withdrawal_reasons_loop_inr reasons recs rfs out :
  withdrawal_reasons_loop reasons recs rfs = inr out ->
  out = (recs ++ map recommendation (reason_entries reasons),
         rfs ++ map risk_factor (reason_entries reasons)).
Proof.
  revert recs rfs.
  induction reasons as [|reason rest IH]; intros recs rfs H.
  - simpl in H. injection H as <-. now rewrite !app_nil_r.
  - rewrite reason_entries_cons. cbn [withdrawal_reasons_loop] in H.
    destruct reason as [s| | | | |];
      cbn [py_dict_contains py_dict_getitem py_bind reason_lookup] in *;
      try discriminate; try (now apply IH).
    destruct (withdrawal_reason_map !! s) as [entry|] eqn:E.
    + rewrite bool_decide_eq_true_2 in H by eauto.
      apply IH in H. subst out. cbn [map].
      now rewrite <- !app_assoc.
    + rewrite bool_decide_eq_false_2 in H by (intros [? ?]; discriminate).
      now apply IH.
Qed.

Lemma withdrawal_reasons_loop_hashable reasons recs rfs :
  Forall (fun v => hashable v = true) reasons ->
  exists out, withdrawal_reasons_loop reasons recs rfs = inr out.
Proof.
  intros Hall. revert recs rfs.
  induction Hall as [|reason rest Hh _ IH]; intros recs rfs.
  - simpl. eauto.
  - cbn [withdrawal_reasons_loop].
    destruct reason as [s| | | | |];
      cbn [py_dict_contains py_dict_getitem py_bind hashable] in *;
      try discriminate; try apply IH.
    destruct (withdrawal_reason_map !! s) as [entry|] eqn:E.
    + rewrite bool_decide_eq_true_2 by eauto. apply IH.
    + rewrite bool_decide_eq_false_2 by (intros [? ?]; discriminate).
      apply IH.
Qed.

Lemma handle_withdrawal_reasons_inr data recs rfs out :
  handle_withdrawal_reasons data recs rfs = inr out ->
  out = (recs ++ map recommendation (appended_entries data),
         rfs ++ map risk_factor (appended_entries data)).
Proof.
  unfold handle_withdrawal_reasons, appended_entries.
  destruct (schemas.withdrawal_considered data); cbn [andb].
  - destruct (schemas.withdrawal_reasons data) as [|reason rest] eqn:E.
    + cbn. intros H. injection H as <-. now rewrite !app_nil_r.
    + rewrite bool_decide_eq_false_2 by discriminate. cbn [negb].
      apply withdrawal_reasons_loop_inr.
  - intros H. injection H as <-. now rewrite !app_nil_r.
Qed.

(** The lists of a response of the model path. *)
Lemma model_response_lists data pred r :
  model_response data pred = inr r ->
  schemas.recommendations r =
    stay_connected_if_empty
      (append_if (no_services_used data) explore_campus_support_services
         (model_rule_recommendations data (schemas.risk_level r)
          ++ map recommendation (appended_entries data))) /\
  schemas.risk_factors r =
    model_risk_factors data ++ map risk_factor (appended_entries data).
Proof.
  intros H. rewrite model_response_eq in H.
  apply py_bind_inr in H as (out & Hout & Hr).
  apply handle_withdrawal_reasons_inr in Hout. subst out.
  injection Hr as <-. split; reflexivity.
Qed.

Lemma stay_connected_if_empty_nonempty l : stay_connected_if_empty l <> [].
Proof. destruct l; discriminate. Qed.

Lemma append_if_false {A} (x : A) l : append_if false x l = l.
Proof. reflexivity. Qed.

Lemma withdrawal_reason_map_keys :
  dom withdrawal_reason_map =
  list_to_set (C := gset string)
    ["Academic difficulty"; "Financial challenges"; "Mental health";
     "Personal/family issues"; "Lack of interest"; "Career opportunities"].
Proof. apply (bool_decide_unpack _). vm_compute. exact I. Qed.

Lemma fallback_ignores_reasons data reasons :
  calculate_fallback_risk (with_withdrawal_reasons data reasons)
  = calculate_fallback_risk data.
Proof. reflexivity. Qed.

End rules.

(** C5.  On the model path, when withdrawal was considered and reasons
    are listed, the recommendations of the response are those of the
    other rules, then the mapped recommendation of every listed reason
    the six-entry map knows, in the order listed (then the entry for
    unused services, if that rule fires); the risk factors are those of
    the other rules followed by the mapped factors in the same order.  A
    response is returned whenever every listed reason can be hashed.  The
    map has exactly the six keys.  The heuristic path does not read the
    reasons at all. *)
Theorem C5_withdrawal_reason_enrichment :
  (forall data pred r,
     prediction.model_response data pred = inr r ->
     schemas.withdrawal_considered data = true ->
     schemas.withdrawal_reasons data <> [] ->
     schemas.recommendations r =
       prediction.stay_connected_if_empty
         (prediction.append_if (prediction.no_services_used data)
            prediction.explore_campus_support_services
            (prediction.model_rule_recommendations data
               (schemas.risk_level r)
             ++ map prediction.recommendation
                  (reason_entries (schemas.withdrawal_reasons data)))) /\
     schemas.risk_factors r =
       prediction.model_risk_factors data
       ++ map prediction.risk_factor
            (reason_entries (schemas.withdrawal_reasons data))) /\
  (forall data pred,
     Forall (fun v => hashable v = true) (schemas.withdrawal_reasons data) ->
     exists r, prediction.model_response data pred = inr r) /\
  dom prediction.withdrawal_reason_map =
    list_to_set (C := gset string)
      ["Academic difficulty"; "Financial challenges"; "Mental health";
       "Personal/family issues"; "Lack of interest"; "Career opportunities"]
  /\
  (forall data reasons,
     prediction.calculate_fallback_risk (with_withdrawal_reasons data reasons)
     = prediction.calculate_fallback_risk data).
Proof.
  split; [|split; [|split]].
  - intros data pred r Hr Hc _.
    apply model_response_lists in Hr. unfold appended_entries in Hr.
    now rewrite Hc in Hr.
  - intros data pred Hall.
    rewrite model_response_eq.
    unfold prediction.handle_withdrawal_reasons.
    destruct (schemas.withdrawal_considered data
              && negb (bool_decide (schemas.withdrawal_reasons data = []))).
    + destruct (withdrawal_reasons_loop_hashable _
                  (prediction.model_rule_recommendations data
                     (prediction.probability_risk_level
                        (ml_model.dropout_probability pred)))
                  (prediction.model_risk_factors data) Hall) as (out & ->).
      cbn [py_bind]. eauto.
    + cbn [py_bind]. eauto.
  - apply withdrawal_reason_map_keys.
  - apply fallback_ignores_reasons.
Qed.

Lemma C5_withdrawal_reason_enrichment_witness :
  exists r,
    prediction.model_response withdrawing_student
      {| ml_model.dropout_probability := 0.2%Q;
         ml_model.predicted_class := Some "Graduate";
         ml_model.model_confidence := 0.9%Q |} = inr r /\
    map schemas.title (schemas.recommendations r) =
      ["Emergency Financial Assistance"; "Mental Health Crisis Support"] /\
    map schemas.factor (schemas.risk_factors r) =
      ["Withdrawal Consideration"; "Financial Crisis";
       "Mental Health Crisis"].
Proof.
  eexists. split; [vm_compute; reflexivity|].
  match goal with
  | |- context [schemas.recommendations ?r] =>
      destruct (proj1 C5_withdrawal_reason_enrichment withdrawing_student
                  {| ml_model.dropout_probability := 0.2%Q;
                     ml_model.predicted_class := Some "Graduate";
                     ml_model.model_confidence := 0.9%Q |} r)
        as (Hrecs & Hrfs);
        [vm_compute; reflexivity|reflexivity|discriminate|]
  end.
  rewrite Hrecs, Hrfs. split; vm_compute; reflexivity.
Defined.

(** C6.  A response of either structured path never has an empty list of
    recommendations, and when no other rule of its rule set fires the
    list is the single [Stay Connected] entry, whose urgency is
    [when-needed]. *)
Theorem C6_recommendations_never_empty :
  (forall data r,
     prediction.calculate_fallback_risk data = inr r ->
     schemas.recommendations r <> [] /\
     (schemas.risk_level r <> "high" ->
      py_in (schemas.financial_stress data) ["high"; "very-high"] = false ->
      4 < schemas.performance_satisfaction data ->
      schemas.services_used data <> [] ->
      schemas.recommendations r = [prediction.stay_connected])) /\
  (forall data pred r,
     prediction.model_response data pred = inr r ->
     schemas.recommendations r <> [] /\
     (schemas.risk_level r <> "high" ->
      py_in (schemas.financial_stress data) ["high"; "very-high"] = false ->
      4 < schemas.performance_satisfaction data ->
      py_in (schemas.advisor_interaction data) ["never"; "once-semester"]
        = false ->
      schemas.employment_status data <> "full-time" ->
      schemas.withdrawal_considered data = false \/
        reason_entries (schemas.withdrawal_reasons data) = [] ->
      schemas.services_used data <> [] ->
      schemas.recommendations r = [prediction.stay_connected])) /\
  schemas.title prediction.stay_connected = "Stay Connected" /\
  schemas.urgency prediction.stay_connected = "when-needed".
Proof.
  split; [|split; [|split; reflexivity]].
  - intros data r H. apply calculate_fallback_risk_inr in H as (_ & Hr).
    rewrite Hr. cbn [schemas.recommendations schemas.risk_level].
    split; [apply stay_connected_if_empty_nonempty|].
    intros Hlvl Hfs Hps Hsv.
    unfold prediction.fallback_rule_recommendations, prediction.no_services_used.
    rewrite Hfs.
    destruct (String.eqb_spec
                (prediction.score_risk_level
                   (prediction.fallback_risk_score data)) "high");
      [contradiction|].
    destruct (Z.leb_spec (schemas.performance_satisfaction data) 4); [lia|].
    destruct (schemas.services_used data); [contradiction|]. reflexivity.
  - intros data pred r H.
    destruct (model_response_lists data pred r H) as (Hrecs & _).
    rewrite Hrecs.
    split; [apply stay_connected_if_empty_nonempty|].
    intros Hlvl Hfs Hps Had Hemp Hwd Hsv.
    assert (Happ : appended_entries data = []).
    { unfold appended_entries. destruct Hwd as [-> | Hnone]; [reflexivity|].
      rewrite Hnone. now destruct (schemas.withdrawal_considered data). }
    rewrite Happ.
    unfold prediction.model_rule_recommendations, prediction.no_services_used.
    rewrite Hfs, Had.
    destruct (String.eqb_spec (schemas.risk_level r) "high");
      [contradiction|].
    destruct (String.eqb_spec (schemas.employment_status data) "full-time");
      [contradiction|].
    destruct (Z.leb_spec (schemas.performance_satisfaction data) 4); [lia|].
    destruct (schemas.services_used data); [contradiction|]. reflexivity.
Qed.

Lemma C6_recommendations_never_empty_witness :
  exists r,
    prediction.calculate_fallback_risk calm_student = inr r /\
    schemas.recommendations r = [prediction.stay_connected].
Proof.
  eexists. split; [vm_compute; reflexivity|].
  apply (proj1 C6_recommendations_never_empty calm_student).
  - vm_compute. reflexivity.
  - discriminate.
  - reflexivity.
  - reflexivity.
  - discriminate.
Defined.

(* ===================================================================== *)
(** ** Dashboard aggregation *)
(* ===================================================================== *)

Section aggregation.

Import prediction_repository.

Lemma percentage_of_positive count total :
  0 < total ->
  percentage_of count total
  = inr (inject_Z count / inject_Z total * 100)%Q.
Proof.
  intros Hpos. unfold percentage_of, py_truediv.
  destruct (Z.gtb_spec total 0) as [_|]; [|lia].
  destruct (Qeq_bool (inject_Z total) 0) eqn:E; [|reflexivity].
  apply Qeq_bool_iff in E. change 0%Q with (inject_Z 0) in E.
  apply (proj1 (inject_Z_injective _ _)) in E. lia.
Qed.

Lemma percentage_of_returns count total :
  exists q, percentage_of count total = inr q.
Proof.
  destruct (Z.ltb_spec 0 total) as [Hpos|Hle].
  - rewrite percentage_of_positive by exact Hpos. eauto.
  - unfold percentage_of.
    destruct (Z.gtb_spec total 0); [lia|]. eauto.
Qed.

(** The statistics query raises on no collection. *)
Lemma get_dashboard_stats_returns t :
  exists s, get_dashboard_stats t = inr s.
Proof.
  unfold get_dashboard_stats.
  destruct (percentage_of_returns (or_zero (high_count (stats_query t)))
              (or_zero (Some (total (stats_query t))))) as (h & ->).
  destruct (percentage_of_returns (or_zero (medium_count (stats_query t)))
              (or_zero (Some (total (stats_query t))))) as (m & ->).
  destruct (percentage_of_returns (or_zero (low_count (stats_query t)))
              (or_zero (Some (total (stats_query t))))) as (l & ->).
  cbn [py_bind]. eauto.
Qed.

(** *** Grouping, ordering and limiting *)

Lemma bump_counted c groups : counted groups -> counted (bump c groups).
Proof.
  unfold counted. induction 1 as [|[c' n] rest Hn Hrest IH]; cbn [bump].
  - constructor; [cbn; lia|constructor].
  - destruct (String.eqb c' c); constructor; cbn [snd] in *;
      try lia; try assumption.
Qed.


Lemma group_fold_counted rows acc :
  counted acc ->
  counted (fold_left (fun groups r => bump (database.category r) groups)
             rows acc).
Proof.
  revert acc. induction rows as [|r rows IH]; intros acc Hacc;
    cbn [fold_left]; [assumption|].
  apply IH, bump_counted, Hacc.
Qed.


Lemma insert_desc_counted g sorted :
  1 <= snd g -> counted sorted -> counted (insert_desc g sorted).
Proof.
  intros Hg. unfold counted.
  induction 1 as [|h rest Hh Hrest IH]; cbn [insert_desc].
  - repeat constructor. exact Hg.
  - destruct (snd h <=? snd g); repeat constructor; assumption.
Qed.


Lemma order_by_count_desc_counted groups :
  counted groups -> counted (order_by_count_desc groups).
Proof.
  unfold order_by_count_desc.
  induction 1 as [|g rest Hg _ IH]; cbn [fold_right].
  - constructor.
  - now apply insert_desc_counted.
Qed.

Lemma firstn_counted k groups :
  counted groups -> counted (firstn k groups).
Proof.
  unfold counted. intros H. revert k.
  induction H as [|g rest Hg _ IH]; intros [|k]; cbn [firstn];
    constructor; auto.
Qed.

Lemma top_categories_counted t limit :
  counted (top_categories_query t limit).
Proof.
  unfold top_categories_query, sql_limit.
  assert (H : counted (order_by_count_desc
                         (group_by_category (database.risk_factors t)))).
  { apply order_by_count_desc_counted, group_fold_counted. constructor. }
  destruct (limit <? 0); [assumption|now apply firstn_counted].
Qed.


Lemma sum_counts_cons g rest :
  sum_counts (g :: rest) = snd g + sum_counts rest.
Proof. reflexivity. Qed.

Lemma sum_counts_nonneg rows : counted rows -> 0 <= sum_counts rows.
Proof.
  induction 1 as [|g rest Hg _ IH]; [reflexivity|].
  rewrite sum_counts_cons. lia.
Qed.

Lemma sum_counts_positive rows :
  counted rows -> rows <> [] -> 0 < sum_counts rows.
Proof.
  intros H Hne. destruct H as [|g rest Hg Hrest]; [contradiction|].
  rewrite sum_counts_cons.
  pose proof (sum_counts_nonneg rest Hrest). lia.
Qed.

(** *** The percentages of the returned rows *)

Lemma summarize_positive t now total_factors rows :
  0 < total_factors ->
  summarize t now total_factors rows
  = inr (map (summary_of t now total_factors) rows).
Proof.
  intros Hpos. induction rows as [|row rest IH]; [reflexivity|].
  cbn [summarize map].
  rewrite percentage_of_positive by exact Hpos.
  cbn [py_bind]. rewrite IH. reflexivity.
Qed.



End aggregation.

(** C8.  On a collection without records the statistics query returns,
    and what it returns is zero throughout: the total, the three counts,
    the three percentages and the average score. *)
Theorem C8_dashboard_stats_empty (t : database.Tables) :
  database.predictions t = [] ->
  exists s,
    prediction_repository.get_dashboard_stats t = inr s /\
    prediction_repository.total_assessments s = 0 /\
    prediction_repository.high_risk_count s = 0 /\
    prediction_repository.medium_risk_count s = 0 /\
    prediction_repository.low_risk_count s = 0 /\
    (prediction_repository.high_risk_percentage s == 0)%Q /\
    (prediction_repository.medium_risk_percentage s == 0)%Q /\
    (prediction_repository.low_risk_percentage s == 0)%Q /\
    (prediction_repository.average_risk_score s == 0)%Q.
Proof.
  intros Hempty.
  unfold prediction_repository.get_dashboard_stats,
    prediction_repository.stats_query.
  rewrite Hempty. cbn.
  eexists. split; [reflexivity|].
  cbn. repeat split; reflexivity.
Qed.

Lemma C8_dashboard_stats_empty_witness :
  exists s,
    prediction_repository.get_dashboard_stats database.empty_tables = inr s /\
    prediction_repository.total_assessments s = 0 /\
    (prediction_repository.high_risk_percentage s == 0)%Q /\
    (prediction_repository.average_risk_score s == 0)%Q.
Proof.
  destruct (C8_dashboard_stats_empty database.empty_tables)
    as (s & Hs & Ht & _ & _ & _ & Hh & _ & _ & Ha); [reflexivity|].
  exists s. repeat split; assumption.
Defined.




(* ===================================================================== *)
(** ** More on the feature mapper *)
(* ===================================================================== *)

Section features.

Import prediction.

(** A lookup in a table written as a list of pairs finds one of the
    pairs. *)
Lemma table_lookup_Some {V} (l : list (string * V)) k v :
  (list_to_map l : gmap string V) !! k = Some v -> In (k, v) l.
Proof. intros H. apply list_elem_of_In. now apply elem_of_list_to_map_2. Qed.

Lemma table_lookup_None {V} (l : list (string * V)) k :
  ~ In k (map fst l) -> (list_to_map l : gmap string V) !! k = None.
Proof.
  intros H. apply not_elem_of_list_to_map. intros Hin. apply H.
  now apply list_elem_of_In.
Qed.

Lemma dict_get_cases {V} (d : gmap string V) k dflt :
  (exists v, d !! k = Some v /\ dict_get d k dflt = v) \/
  (d !! k = None /\ dict_get d k dflt = dflt).
Proof. unfold dict_get. destruct (d !! k); cbn; eauto. Qed.

(** The three features read off the financial-stress bucket. *)
Lemma financial_features k :
  let tuition := dict_get financial_stress_map k 0 in
  let scholarship := dict_get scholarship_scores k 0 in
  let debtor := dict_get debtor_map k 0 in
  scholarship = tuition /\
  (In k ["none"; "low"] -> tuition = 1 /\ debtor = 0) /\
  (In k ["moderate"; "high"; "very-high"] -> tuition = 0 /\ debtor = 1) /\
  (~ In k ["none"; "low"; "moderate"; "high"; "very-high"] ->
   tuition = 0 /\ debtor = 0).
Proof.
  cbv zeta. split; [reflexivity|]. split; [|split].
  - cbn [In]. intros [<-|[<-|[]]]; split; reflexivity.
  - cbn [In]. intros [<-|[<-|[<-|[]]]]; split; reflexivity.
  - intros Hout. unfold dict_get, financial_stress_map, debtor_map.
    rewrite !table_lookup_None by exact Hout. split; reflexivity.
Qed.

Lemma dict_get_range (d : gmap string Z) k dflt lo hi :
  map_Forall (fun _ v => lo <= v <= hi) d -> lo <= dflt <= hi ->
  lo <= dict_get d k dflt <= hi.
Proof.
  intros Hd Hdflt. unfold dict_get.
  destruct (d !! k) as [v|] eqn:E; cbn; [apply (Hd _ _ E)|exact Hdflt].
Qed.

Ltac table_range := apply (bool_decide_unpack _); vm_compute; exact I.

Lemma attendance_to_units_range :
  map_Forall (fun _ v => 5 <= v <= 50) attendance_to_units.
Proof. table_range. Qed.





(** [int(units * (satisfaction / 10.0))] is the quotient of the product
    by ten, rounded toward zero. *)
Lemma scaled_units (units satisfaction : Z) :
  py_int (inject_Z units * (inject_Z satisfaction / 10))
  = Z.quot (units * satisfaction) 10.
Proof.
  unfold py_int. cbn. rewrite Z.mul_1_r. reflexivity.
Qed.

End features.

(** The two semester entries of the feature vector. *)
Lemma semester_units (data : schemas.SimplifiedAssessmentRequest) :
  let units :=
    Z.quot (dict_get prediction.attendance_to_units
              (schemas.attendance data) 30
            * schemas.performance_satisfaction data) 10 in
  nth 0 (prediction.map_form_to_ml_features data) 0%Q = inject_Z units /\
  nth 1 (prediction.map_form_to_ml_features data) 0%Q = inject_Z units.
Proof.
  unfold prediction.map_form_to_ml_features. cbv zeta.
  rewrite scaled_units. cbn [nth]. split; reflexivity.
Qed.


(** X2.  The financial-stress bucket sets three features: [none] and
    [low] give tuition up to date and no debt, [moderate], [high] and
    [very-high] give the opposite, and a label outside the vocabulary
    gives neither: tuition not up to date, no scholarship and no debt at
    once. *)
Theorem X2_financial_stress_features
    (data : schemas.SimplifiedAssessmentRequest) :
  let v := prediction.map_form_to_ml_features data in
  let bucket := schemas.financial_stress data in
  nth 3 v 0%Q = nth 2 v 0%Q /\
  (In bucket ["none"; "low"] -> nth 2 v 0%Q = 1%Q /\ nth 5 v 0%Q = 0%Q) /\
  (In bucket ["moderate"; "high"; "very-high"] ->
   nth 2 v 0%Q = 0%Q /\ nth 5 v 0%Q = 1%Q) /\
  (~ In bucket ["none"; "low"; "moderate"; "high"; "very-high"] ->
   nth 2 v 0%Q = 0%Q /\ nth 5 v 0%Q = 0%Q).
Proof.
  cbv zeta.
  destruct (financial_features (schemas.financial_stress data))
    as (_ & Hlow & Hhigh & Hout).
  unfold prediction.map_form_to_ml_features. cbv zeta. cbn [nth].
  split; [reflexivity|]. split; [|split]; intros H.
  - destruct (Hlow H) as [-> ->]. split; reflexivity.
  - destruct (Hhigh H) as [-> ->]. split; reflexivity.
  - destruct (Hout H) as [-> ->]. split; reflexivity.
Qed.

Lemma X2_financial_stress_features_witness :
  nth 2 (prediction.map_form_to_ml_features worst_case_student) 0%Q = 0%Q /\
  nth 5 (prediction.map_form_to_ml_features worst_case_student) 0%Q = 1%Q.
Proof.
  apply (X2_financial_stress_features worst_case_student).
  cbn. auto.
Defined.

(** X3.  With a satisfaction between 0 and 10 the semester entries lie
    between 0 and the attendance base, which is at most 50; at a
    satisfaction of 10 they are the base itself, at a satisfaction of 0
    they are zero. *)
Theorem X3_units_bounds (data : schemas.SimplifiedAssessmentRequest) :
  0 <= schemas.performance_satisfaction data <= 10 ->
  let base :=
    dict_get prediction.attendance_to_units (schemas.attendance data) 30 in
  exists units : Z,
    nth 0 (prediction.map_form_to_ml_features data) 0%Q = inject_Z units /\
    nth 1 (prediction.map_form_to_ml_features data) 0%Q = inject_Z units /\
    0 <= units <= base /\ base <= 50 /\
    (schemas.performance_satisfaction data = 10 -> units = base) /\
    (schemas.performance_satisfaction data = 0 -> units = 0).
Proof.
  intros Hps base.
  destruct (semester_units data) as (Hfirst & Hsecond).
  eexists. split; [exact Hfirst|]. split; [exact Hsecond|].
  pose proof (dict_get_range _ (schemas.attendance data) 30 5 50
                attendance_to_units_range ltac:(lia)) as Hb.
  fold base in Hb |- *. clearbody base.
  set (ps := schemas.performance_satisfaction data) in *. clearbody ps.
  assert (H0 : 0 <= base * ps) by nia.
  rewrite Z.quot_div_nonneg by lia.
  repeat split.
  - apply Z.div_pos; lia.
  - apply Z.div_le_upper_bound; nia.
  - lia.
  - intros ->. now rewrite Z.div_mul by lia.
  - intros ->. now rewrite Z.mul_0_r.
Qed.

Lemma X3_units_bounds_witness :
  exists units : Z,
    nth 0 (prediction.map_form_to_ml_features withdrawing_student) 0%Q
    = inject_Z units /\ units = 27.
Proof.
  destruct (X3_units_bounds withdrawing_student)
    as (units & H0 & _); [cbn; lia|].
  exists units. split; [exact H0|].
  apply (proj1 (inject_Z_injective _ _)). rewrite <- H0. reflexivity.
Defined.

(* ===================================================================== *)
(** ** More on the heuristic path *)
(* ===================================================================== *)

Section heuristic_path.




End heuristic_path.



(* ===================================================================== *)
(** ** The two rule sets side by side *)
(* ===================================================================== *)

Section rule_sets.

Import prediction.

Lemma in_append_if {A} (c : bool) (y x : A) l :
  In x (append_if c y l) <-> In x l \/ (c = true /\ x = y).
Proof.
  unfold append_if. destruct c.
  - rewrite in_app_iff. cbn [In]. intuition congruence.
  - intuition congruence.
Qed.

Lemma in_stay_connected_if_empty x l :
  In x (stay_connected_if_empty l) -> x = stay_connected \/ In x l.
Proof.
  destruct l as [|y l]; cbn [stay_connected_if_empty app In]; intuition.
Qed.

Lemma in_stay_connected_if_empty_r x l :
  In x l -> In x (stay_connected_if_empty l).
Proof. destruct l; [contradiction|auto]. Qed.

Lemma model_risk_factors_extend data :
  model_risk_factors data =
  fallback_risk_factors data
  ++ append_if (String.eqb (schemas.employment_status data) "full-time")
       full_time_employment
       (append_if (schemas.support_network_strength data <=? 3)
          weak_support_network []).
Proof.
  unfold model_risk_factors, fallback_risk_factors, append_if.
  repeat match goal with
  | |- context [if ?c then _ else _] => destruct c
  end; cbn [app]; rewrite <- ?app_assoc; reflexivity.
Qed.

Lemma fallback_rule_in_model_rule data lvl x :
  In x (fallback_rule_recommendations data lvl) ->
  In x (append_if (no_services_used data) explore_campus_support_services
          (model_rule_recommendations data lvl)).
Proof.
  unfold fallback_rule_recommendations, model_rule_recommendations.
  rewrite !in_append_if. cbn [In]. tauto.
Qed.

End rule_sets.

(** X5.  What the heuristic path reports, the model path reports too.
    The risk factors of a heuristic response are a prefix of those of a
    model response for the same answers; and when both responses carry
    the same tier, every recommendation of the heuristic response other
    than [Stay Connected] is among those of the model response. *)
Theorem X5_leaner_rules_within_richer
    (data : schemas.SimplifiedAssessmentRequest)
    (pred : ml_model.prediction)
    (heuristic modelled : schemas.PredictionResponse) :
  prediction.calculate_fallback_risk data = inr heuristic ->
  prediction.model_response data pred = inr modelled ->
  (exists more,
     schemas.risk_factors modelled = schemas.risk_factors heuristic ++ more)
  /\
  (schemas.risk_level heuristic = schemas.risk_level modelled ->
   forall x,
     In x (schemas.recommendations heuristic) ->
     x = prediction.stay_connected \/
     In x (schemas.recommendations modelled)).
Proof.
  intros Hh Hm.
  apply calculate_fallback_risk_inr in Hh as (_ & Hh).
  destruct (model_response_lists data pred modelled Hm) as (Hrecs & Hrfs).
  split.
  - rewrite Hrfs, Hh. cbn [schemas.risk_factors].
    rewrite model_risk_factors_extend, <- app_assoc. eauto.
  - intros Hlvl x Hx. rewrite Hh in Hx, Hlvl.
    cbn [schemas.recommendations schemas.risk_level] in Hx, Hlvl.
    apply in_stay_connected_if_empty in Hx as [->|Hx]; [now left|].
    right. rewrite Hrecs. apply in_stay_connected_if_empty_r.
    rewrite Hlvl in Hx. apply fallback_rule_in_model_rule in Hx.
    apply in_append_if in Hx. apply in_append_if.
    rewrite in_app_iff. tauto.
Qed.

Lemma X5_leaner_rules_within_richer_witness :
  exists heuristic modelled,
    prediction.calculate_fallback_risk worst_case_student = inr heuristic /\
    prediction.model_response worst_case_student
      {| ml_model.dropout_probability := 0.9%Q;
         ml_model.predicted_class := Some "Dropout";
         ml_model.model_confidence := 0.8%Q |} = inr modelled /\
    length (schemas.risk_factors heuristic) = 4%nat /\
    length (schemas.risk_factors modelled) = 6%nat /\
    exists more,
      schemas.risk_factors modelled = schemas.risk_factors heuristic ++ more.
Proof.
  eexists. eexists.
  split; [vm_compute; reflexivity|].
  split; [vm_compute; reflexivity|].
  split; [reflexivity|]. split; [reflexivity|].
  match goal with
  | |- exists more, schemas.risk_factors ?m = schemas.risk_factors ?h ++ _ =>
      apply (X5_leaner_rules_within_richer worst_case_student
               {| ml_model.dropout_probability := 0.9%Q;
                  ml_model.predicted_class := Some "Dropout";
                  ml_model.model_confidence := 0.8%Q |} h m)
  end; vm_compute; reflexivity.
Defined.

(* ===================================================================== *)
(** ** How the entry points fail *)
(* ===================================================================== *)

Section failures.

Variable model : ml_model.MLModel.

(** The run of the steps after a response is built, state included. *)
Lemma run_build_and_save_state (x : py_result schemas.PredictionResponse)
    input endpoint (w : World) :
  (result ← lift x;
   prediction.save_and_log result input endpoint;;
   mret result) w
  = match x with
    | inl e => (inl e, w)
    | inr r => (inr r, snd (prediction.save_and_log r input endpoint w))
    end.
Proof.
  rewrite run_bind_lift. destruct x as [e|r]; [reflexivity|].
  unfold mbind, M_bind.
  pose proof (save_and_log_returns r input endpoint w) as H.
  destruct (prediction.save_and_log r input endpoint w) as [[e|[]] w'];
    cbn in *; [discriminate|reflexivity].
Qed.

Lemma run_guarded_state (x : py_result schemas.PredictionResponse)
    input endpoint (w : World) :
  try_except
    (result ← lift x;
     prediction.save_and_log result input endpoint;;
     mret result)
    (fun e => raise (HTTPException 500
                       ("Prediction failed: " ++ exn_str e)%string)) w
  = match x with
    | inl e => (inl (internal_error e), w)
    | inr r => (inr r, snd (prediction.save_and_log r input endpoint w))
    end.
Proof.
  unfold try_except. rewrite run_build_and_save_state.
  destruct x; reflexivity.
Qed.

(** The structured entry, run to the end, in its two cases. *)
Lemma predict_simplified_run data (w : World) :
  prediction.predict_simplified model data w =
  let built :=
    if ml_model.is_loaded model
    then match ml_model.predict model
                 (prediction.map_form_to_ml_features data) with
         | Some pred => prediction.model_response data pred
         | None => prediction.calculate_fallback_risk data
         end
    else prediction.calculate_fallback_risk data in
  match built with
  | inl e => (inl (internal_error e), w)
  | inr r =>
      (inr r, snd (prediction.save_and_log r (Some data) "simplified" w))
  end.
Proof.
  unfold prediction.predict_simplified. cbv zeta.
  destruct (ml_model.is_loaded model);
    [destruct (ml_model.predict model _)|]; apply run_guarded_state.
Qed.


End failures.



(** X7.  Whatever goes wrong in the structured entry reaches the caller
    as the status 500 with a detail that starts with
    [Prediction failed: ], and then nothing was saved or printed.  A
    model that is loaded but gives no prediction leads to the same
    outcome, state included, as no model at all. *)
Theorem X7_structured_entry_failures (model : ml_model.MLModel)
    (data : schemas.SimplifiedAssessmentRequest) (w : World) :
  (forall e,
     fst (prediction.predict_simplified model data w) = inl e ->
     (exists cause, e = HTTPException 500
                          ("Prediction failed: " ++ exn_str cause)%string) /\
     snd (prediction.predict_simplified model data w) = w) /\
  (ml_model.is_loaded model = false \/
   ml_model.predict model (prediction.map_form_to_ml_features data) = None ->
   prediction.predict_simplified model data w
   = prediction.predict_simplified unready_model data w).
Proof.
  split.
  - intros e. rewrite predict_simplified_run. cbv zeta.
    match goal with
    | |- context [match ?b with inl _ => _ | inr _ => _ end] =>
        destruct b as [cause|r]
    end; cbn [fst snd]; intros H; [|discriminate].
    injection H as <-. split; [exists cause|]; reflexivity.
  - intros Hcase. rewrite !predict_simplified_run. cbv zeta.
    cbn [unready_model ml_model.is_loaded].
    destruct Hcase as [-> | ->]; [reflexivity|].
    now destruct (ml_model.is_loaded model).
Qed.

Lemma X7_structured_entry_failures_witness :
  prediction.predict_simplified
    {| ml_model.is_loaded := true; ml_model.predict := fun _ => None |}
    struggling_student (fresh_world [] 1700000000)
  = prediction.predict_simplified unready_model struggling_student
      (fresh_world [] 1700000000).
Proof.
  apply (proj2 (X7_structured_entry_failures
                  {| ml_model.is_loaded := true;
                     ml_model.predict := fun _ => None |}
                  struggling_student (fresh_world [] 1700000000))).
  right. reflexivity.
Defined.

(* ===================================================================== *)
(** ** How the raw entry rejects a request *)
(* ===================================================================== *)

Section raw_entry.

Variable model : ml_model.MLModel.

Lemma missing_keys_spec request k :
  In k (missing_keys request) <->
  In k prediction.FEATURE_ORDER /\ schemas.features request !! k = None.
Proof.
  unfold missing_keys. rewrite filter_In.
  destruct (schemas.features request !! k) as [v|] eqn:E.
  - rewrite bool_decide_eq_true_2 by eauto. cbn. intuition discriminate.
  - rewrite bool_decide_eq_false_2 by (intros [? ?]; discriminate).
    cbn. tauto.
Qed.

Lemma py_getitems_present (d : gmap string Q) keys :
  List.filter (fun f => negb (bool_decide (is_Some (d !! f)))) keys = [] ->
  exists vs, py_getitems d keys = inr vs /\ length vs = length keys.
Proof.
  induction keys as [|k keys IH]; cbn [List.filter py_getitems].
  - intros _. exists []. split; reflexivity.
  - destruct (d !! k) as [v|] eqn:E.
    + rewrite bool_decide_eq_true_2 by eauto. cbn [negb].
      intros H. destruct (IH H) as (vs & -> & Hlen).
      exists (v :: vs). cbn. split; [reflexivity|]. now rewrite Hlen.
    + rewrite bool_decide_eq_false_2 by (intros [? ?]; discriminate).
      cbn [negb]. discriminate.
Qed.

(** The raw entry, run to the end, case by case. *)
Lemma predict_raw_run request (w : World) :
  prediction.predict_raw model request w =
  if ml_model.is_loaded model then
    match missing_keys request with
    | _ :: _ =>
        (inl (HTTPException 400
                ("Missing feature keys: "
                 ++ py_repr_list (missing_keys request))%string), w)
    | [] =>
        match py_getitems (schemas.features request)
                prediction.FEATURE_ORDER with
        | inl e => (inl (internal_error e), w)
        | inr feature_vector =>
            match ml_model.predict model feature_vector with
            | None => (inl (HTTPException 500 "Model prediction failed"), w)
            | Some pred =>
                match prediction.raw_response pred with
                | inl e => (inl (internal_error e), w)
                | inr r =>
                    (inr r,
                     snd (prediction.save_and_log r None "raw" w))
                end
            end
        end
    end
  else (inl (HTTPException 503 "ML model not loaded"), w).
Proof.
  unfold prediction.predict_raw, try_except.
  destruct (ml_model.is_loaded model); cbn [negb]; [|reflexivity].
  fold (missing_keys request).
  destruct (missing_keys request) as [|k ks] eqn:Hm; [|reflexivity].
  unfold missing_keys in Hm.
  destruct (py_getitems_present _ _ Hm) as (vs & Hvs & _).
  rewrite run_bind_lift, Hvs.
  destruct (ml_model.predict model vs) as [pred|]; [|reflexivity].
  rewrite run_build_and_save_state.
  destruct (prediction.raw_response pred) as [e|r] eqn:Hr; [|reflexivity].
  rewrite raw_response_eq in Hr. discriminate.
Qed.

Lemma py_getitems_agree (d d' : gmap string Q) keys :
  (forall k, In k keys -> d !! k = d' !! k) ->
  py_getitems d keys = py_getitems d' keys.
Proof.
  induction keys as [|k keys IH]; intros H; [reflexivity|].
  cbn [py_getitems]. rewrite <- (H k) by (left; reflexivity).
  rewrite IH by (intros k' Hk'; apply H; now right). reflexivity.
Qed.

Lemma missing_keys_agree request request' :
  (forall k, In k prediction.FEATURE_ORDER ->
     schemas.features request !! k = schemas.features request' !! k) ->
  missing_keys request = missing_keys request'.
Proof.
  intros H. unfold missing_keys.
  induction prediction.FEATURE_ORDER as [|k keys IH]; [reflexivity|].
  cbn [List.filter]. rewrite <- (H k) by (left; reflexivity).
  rewrite IH by (intros k' Hk'; apply H; now right). reflexivity.
Qed.

End raw_entry.

(** X8.  The raw entry rejects a request in three ways, each time
    leaving the session, the output and the clock untouched: 503 when no
    model is loaded, whatever the request holds; 400 when a required key
    is absent, the detail listing exactly the absent keys in the order of
    the feature list; 500 with the detail [Model prediction failed] when
    all keys are there and the model gives no prediction.  These statuses
    are passed on as raised, not wrapped into a 500. *)
Theorem X8_raw_entry_rejections (model : ml_model.MLModel)
    (request : schemas.RawFeaturesRequest) (w : World) :
  (ml_model.is_loaded model = false ->
   prediction.predict_raw model request w
   = (inl (HTTPException 503 "ML model not loaded"), w)) /\
  (ml_model.is_loaded model = true ->
   (exists k, In k prediction.FEATURE_ORDER /\
              schemas.features request !! k = None) ->
   prediction.predict_raw model request w
   = (inl (HTTPException 400
             ("Missing feature keys: "
              ++ py_repr_list (missing_keys request))%string), w)) /\
  (forall k, In k (missing_keys request) <->
             In k prediction.FEATURE_ORDER /\
             schemas.features request !! k = None) /\
  (ml_model.is_loaded model = true ->
   forall feature_vector,
     py_getitems (schemas.features request) prediction.FEATURE_ORDER
       = inr feature_vector ->
     ml_model.predict model feature_vector = None ->
     prediction.predict_raw model request w
     = (inl (HTTPException 500 "Model prediction failed"), w)).
Proof.
  split; [|split; [|split]].
  - intros Hl. now rewrite predict_raw_run, Hl.
  - intros Hl (k & Hk & Hnone). rewrite predict_raw_run, Hl.
    destruct (missing_keys request) as [|k' ks] eqn:Hm; [|reflexivity].
    exfalso. assert (Hin : In k (missing_keys request))
      by (apply missing_keys_spec; auto).
    now rewrite Hm in Hin.
  - apply missing_keys_spec.
  - intros Hl fv Hfv Hp. rewrite predict_raw_run, Hl.
    unfold missing_keys. rewrite (no_missing_keys _ _ _ Hfv), Hfv, Hp.
    reflexivity.
Qed.

Lemma X8_raw_entry_rejections_witness :
  let request :=
    {| schemas.features :=
         delete "Debtor" (delete "Age at enrollment"
           (schemas.features full_raw_request)) |} in
  prediction.predict_raw (constant_model 0.5) request
    (fresh_world [] 1700000000)
  = (inl (HTTPException 400
            "Missing feature keys: ['Age at enrollment', 'Debtor']"),
     fresh_world [] 1700000000).
Proof.
  intros request.
  apply (proj1 (proj2 (X8_raw_entry_rejections (constant_model 0.5) request
                         (fresh_world [] 1700000000)))).
  - reflexivity.
  - exists "Debtor". split; [cbn; tauto|reflexivity].
Defined.

(** X9.  The raw entry reads the request at the eight required keys and
    nowhere else: two requests that agree on these keys have the same
    outcome, state included.  The vector handed to the model has eight
    entries. *)
Theorem X9_raw_entry_reads_required_keys (model : ml_model.MLModel)
    (request request' : schemas.RawFeaturesRequest) (w : World) :
  (forall k, In k prediction.FEATURE_ORDER ->
     schemas.features request !! k = schemas.features request' !! k) ->
  prediction.predict_raw model request w
  = prediction.predict_raw model request' w /\
  (forall feature_vector,
     py_getitems (schemas.features request) prediction.FEATURE_ORDER
       = inr feature_vector ->
     length feature_vector = 8%nat).
Proof.
  intros H. split.
  - rewrite !predict_raw_run.
    rewrite (missing_keys_agree request request' H).
    rewrite (py_getitems_agree _ _ _ H). reflexivity.
  - intros fv Hfv.
    destruct (py_getitems_present (schemas.features request)
                prediction.FEATURE_ORDER (no_missing_keys _ _ _ Hfv))
      as (vs & Hvs & Hlen).
    rewrite Hfv in Hvs. injection Hvs as ->. exact Hlen.
Qed.

Lemma X9_raw_entry_reads_required_keys_witness :
  let request' :=
    {| schemas.features :=
         <["Marital status" := 2%Q]> (schemas.features full_raw_request) |} in
  prediction.predict_raw (constant_model 0.5) full_raw_request
    (fresh_world [] 1700000000)
  = prediction.predict_raw (constant_model 0.5) request'
      (fresh_world [] 1700000000).
Proof.
  intros request'.
  apply (X9_raw_entry_reads_required_keys (constant_model 0.5)
           full_raw_request request').
  intros k Hk. cbn [prediction.FEATURE_ORDER In] in Hk.
  unfold request'. cbn [schemas.features].
  rewrite lookup_insert_ne; [reflexivity|].
  intuition (subst; discriminate).
Defined.

(* ===================================================================== *)
(** ** What a save writes *)
(* ===================================================================== *)

Section persistence.

Import prediction_repository.

Lemma run_bind {A B} (c : M A) (f : A -> M B) (w : World) :
  (c ≫= f) w =
  match c w with
  | (inl e, w') => (inl e, w')
  | (inr a, w') => f a w'
  end.
Proof. reflexivity. Qed.

(** A loop that only adds objects leaves them pending, in order. *)
Lemma run_for_each_add {A} (l : list A) (f : A -> database.orm_object)
    (w : World) :
  for_each l (fun x => db_add (f x)) w =
  (inr tt,
   {| db := {| database.committed := database.committed (db w);
               database.working := database.working (db w);
               database.pending := database.pending (db w) ++ map f l;
               database.faults := database.faults (db w) |};
      stdout := stdout w; utcnow := utcnow w |}).
Proof.
  revert w. induction l as [|x l IH]; intros [[c wk p fs] out now].
  - cbn. now rewrite app_nil_r.
  - cbn [for_each]. rewrite run_bind. cbn [db_add db database.add
      database.committed database.working database.pending database.faults
      stdout utcnow].
    rewrite IH. cbn. now rewrite <- app_assoc.
Qed.

(** *** The session primitives, run on an explicit world *)

Lemma run_utcnow c wk p fs out now :
  datetime_utcnow
    {| db := {| database.committed := c; database.working := wk;
                database.pending := p; database.faults := fs |};
       stdout := out; utcnow := now |}
  = (inr now,
     {| db := {| database.committed := c; database.working := wk;
                 database.pending := p; database.faults := fs |};
        stdout := out; utcnow := now |}).
Proof. reflexivity. Qed.

Lemma run_db_add o c wk p fs out now :
  db_add o
    {| db := {| database.committed := c; database.working := wk;
                database.pending := p; database.faults := fs |};
       stdout := out; utcnow := now |}
  = (inr tt,
     {| db := {| database.committed := c; database.working := wk;
                 database.pending := p ++ [o]; database.faults := fs |};
        stdout := out; utcnow := now |}).
Proof. reflexivity. Qed.

Lemma run_mret {A} (a : A) (w : World) : (mret a : M A) w = (inr a, w).
Proof. reflexivity. Qed.

Lemma run_db_flush_fault msg c wk p fs out now :
  db_flush
    {| db := {| database.committed := c; database.working := wk;
                database.pending := p;
                database.faults := Some msg :: fs |};
       stdout := out; utcnow := now |}
  = (inl (SQLAlchemyError msg),
     {| db := {| database.committed := c; database.working := wk;
                 database.pending := p; database.faults := fs |};
        stdout := out; utcnow := now |}).
Proof. reflexivity. Qed.

Lemma run_db_flush_ok c wk p fs out now :
  hd None fs = None ->
  db_flush
    {| db := {| database.committed := c; database.working := wk;
                database.pending := p; database.faults := fs |};
       stdout := out; utcnow := now |}
  = (inr (snd (database.insert_all wk p)),
     {| db := {| database.committed := c;
                 database.working := fst (database.insert_all wk p);
                 database.pending := []; database.faults := tl fs |};
        stdout := out; utcnow := now |}).
Proof.
  intros H. unfold db_flush, database.flush. cbn [db database.faults
    database.working database.pending database.committed stdout utcnow].
  destruct fs as [|[msg|] fs]; try discriminate;
    destruct (database.insert_all wk p); reflexivity.
Qed.

Lemma run_db_commit_fault msg c wk p fs out now :
  db_commit
    {| db := {| database.committed := c; database.working := wk;
                database.pending := p;
                database.faults := Some msg :: fs |};
       stdout := out; utcnow := now |}
  = (inl (SQLAlchemyError msg),
     {| db := {| database.committed := c; database.working := wk;
                 database.pending := p; database.faults := fs |};
        stdout := out; utcnow := now |}).
Proof. reflexivity. Qed.

Lemma run_db_commit_ok c wk p fs out now :
  hd None fs = None ->
  db_commit
    {| db := {| database.committed := c; database.working := wk;
                database.pending := p; database.faults := fs |};
       stdout := out; utcnow := now |}
  = (inr tt,
     {| db := {| database.committed := fst (database.insert_all wk p);
                 database.working := fst (database.insert_all wk p);
                 database.pending := []; database.faults := tl fs |};
        stdout := out; utcnow := now |}).
Proof.
  intros H. unfold db_commit, database.commit. cbn [db database.faults
    database.working database.pending database.committed stdout utcnow].
  destruct fs as [|[msg|] fs]; try discriminate;
    destruct (database.insert_all wk p); reflexivity.
Qed.

(** The handler of [save_prediction]: roll back, print, raise again. *)
Lemma run_save_handler e c wk p fs out now :
  (db_rollback;;
   print ("Error saving prediction: " ++ exn_str e)%string;;
   raise e)
    {| db := {| database.committed := c; database.working := wk;
                database.pending := p; database.faults := fs |};
       stdout := out; utcnow := now |}
  = (@inl exn Z e, after_failed_save c fs out now (exn_str e)).
Proof. reflexivity. Qed.

(** [save_prediction], statement by statement. *)
Lemma save_prediction_eq prediction input endpoint :
  save_prediction prediction input endpoint =
  try_except
    (now ← datetime_utcnow;
     db_add (database.OPrediction
               (prediction_row 0 now prediction endpoint));;
     keys ← db_flush;
     match input with
     | Some a =>
         db_add (database.OAssessmentInput (assessment_row 0 (hd 0 keys) a))
     | None => mret tt
     end;;
     for_each (schemas.risk_factors prediction)
       (fun rf => db_add (database.ORiskFactor
                            (factor_row 0 (hd 0 keys) rf)));;
     for_each (schemas.recommendations prediction)
       (fun rec => db_add (database.ORecommendation
                             (recommendation_row 0 (hd 0 keys) rec)));;
     db_commit;;
     mret (hd 0 keys))
    (fun e =>
       db_rollback;;
       print ("Error saving prediction: " ++ exn_str e)%string;;
       raise e).
Proof. reflexivity. Qed.

Ltac record_step :=
  cbv beta iota;
  cbn [db stdout utcnow database.committed database.working
       database.pending database.faults app].

(** The part of a save after a flush that went through. *)
Lemma run_save_after_flush prediction input k c t fs out now :
  (match input with
   | Some a => db_add (database.OAssessmentInput (assessment_row 0 k a))
   | None => mret tt
   end;;
   for_each (schemas.risk_factors prediction)
     (fun rf => db_add (database.ORiskFactor (factor_row 0 k rf)));;
   for_each (schemas.recommendations prediction)
     (fun rec => db_add (database.ORecommendation
                           (recommendation_row 0 k rec)));;
   db_commit;;
   mret k)
    {| db := {| database.committed := c; database.working := t;
                database.pending := []; database.faults := fs |};
       stdout := out; utcnow := now |}
  = match fs with
    | Some msg :: rest =>
        (inl (SQLAlchemyError msg),
         {| db := {| database.committed := c; database.working := t;
                     database.pending := child_objects k prediction input;
                     database.faults := rest |};
            stdout := out; utcnow := now |})
    | _ =>
        let t' := fst (database.insert_all t
                         (child_objects k prediction input)) in
        (inr k,
         {| db := {| database.committed := t'; database.working := t';
                     database.pending := []; database.faults := tl fs |};
            stdout := out; utcnow := now |})
    end.
Proof.
  rewrite run_bind.
  assert (Hfirst :
    (match input with
     | Some a => db_add (database.OAssessmentInput (assessment_row 0 k a))
     | None => mret tt
     end)
      {| db := {| database.committed := c; database.working := t;
                  database.pending := []; database.faults := fs |};
         stdout := out; utcnow := now |}
    = (inr tt,
       {| db := {| database.committed := c; database.working := t;
                   database.pending :=
                     match input with
                     | Some a =>
                         [database.OAssessmentInput (assessment_row 0 k a)]
                     | None => []
                     end;
                   database.faults := fs |};
          stdout := out; utcnow := now |})).
  { destruct input; reflexivity. }
  rewrite Hfirst. record_step.
  rewrite run_bind, run_for_each_add. record_step.
  rewrite run_bind, run_for_each_add. record_step.
  rewrite run_bind, <- app_assoc.
  fold (child_objects k prediction input).
  destruct fs as [|[msg|] rest].
  - now rewrite run_db_commit_ok.
  - now rewrite run_db_commit_fault.
  - now rewrite run_db_commit_ok.
Qed.

(** [save_prediction] on a session without pending objects, run to the
    end: the flush raises, or the commit raises, or both go through. *)
Lemma save_prediction_run prediction input endpoint c wk fs out now :
  save_prediction prediction input endpoint
    {| db := {| database.committed := c; database.working := wk;
                database.pending := []; database.faults := fs |};
       stdout := out; utcnow := now |}
  = match fs with
    | Some msg :: rest =>
        (inl (SQLAlchemyError msg), after_failed_save c rest out now msg)
    | _ =>
        match tl fs with
        | Some msg :: rest =>
            (inl (SQLAlchemyError msg), after_failed_save c rest out now msg)
        | _ =>
            let k := database.next_key
                       (map database.id (database.predictions wk)) in
            let t := fst (database.insert_all
                            (flushed_tables wk now prediction endpoint)
                            (child_objects k prediction input)) in
            (inr k,
             {| db := {| database.committed := t; database.working := t;
                         database.pending := [];
                         database.faults := tl (tl fs) |};
                stdout := out; utcnow := now |})
        end
    end.
Proof.
  rewrite save_prediction_eq. unfold try_except.
  rewrite run_bind, run_utcnow. record_step.
  rewrite run_bind, run_db_add. record_step.
  rewrite run_bind.
  destruct fs as [|[msg|] fs].
  - rewrite run_db_flush_ok by reflexivity. record_step.
    cbn [database.insert_all database.insert_object fst snd hd tl].
    change {| database.predictions := _;
              database.assessment_inputs := database.assessment_inputs wk;
              database.risk_factors := database.risk_factors wk;
              database.recommendations := database.recommendations wk |}
      with (flushed_tables wk now prediction endpoint).
    rewrite run_save_after_flush. reflexivity.
  - rewrite run_db_flush_fault. record_step.
    rewrite run_save_handler. reflexivity.
  - rewrite run_db_flush_ok by reflexivity. record_step.
    cbn [database.insert_all database.insert_object fst snd hd tl].
    change {| database.predictions := _;
              database.assessment_inputs := database.assessment_inputs wk;
              database.risk_factors := database.risk_factors wk;
              database.recommendations := database.recommendations wk |}
      with (flushed_tables wk now prediction endpoint).
    rewrite run_save_after_flush.
    destruct fs as [|[msg|] rest]; reflexivity.
Qed.


(** *** The tables after the commit *)

Lemma insert_all_cons t o os :
  fst (database.insert_all t (o :: os))
  = fst (database.insert_all (fst (database.insert_object t o)) os).
Proof.
  cbn [database.insert_all].
  destruct (database.insert_object t o) as [t1 k1]. cbn [fst].
  destruct (database.insert_all t1 os) as [t2 ks]. reflexivity.
Qed.

Lemma insert_all_app t os os' :
  fst (database.insert_all t (os ++ os'))
  = fst (database.insert_all (fst (database.insert_all t os)) os').
Proof.
  revert t. induction os as [|o os IH]; intros t; [reflexivity|].
  cbn [app]. now rewrite !insert_all_cons, IH.
Qed.

Lemma insert_all_factors t k l :
  exists rows,
    fst (database.insert_all t
           (map (fun rf => database.ORiskFactor (factor_row 0 k rf)) l))
    = {| database.predictions := database.predictions t;
         database.assessment_inputs := database.assessment_inputs t;
         database.risk_factors := database.risk_factors t ++ rows;
         database.recommendations := database.recommendations t |} /\
    Forall2 (fun row rf => exists i, row = factor_row i k rf) rows l.
Proof.
  revert t. induction l as [|rf l IH]; intros t.
  - exists []. split; [|constructor]. destruct t. cbn. now rewrite app_nil_r.
  - cbn [map]. rewrite insert_all_cons.
    destruct (IH (fst (database.insert_object t
                         (database.ORiskFactor (factor_row 0 k rf)))))
      as (rows & Heq & Hrows).
    eexists (_ :: rows). split.
    + rewrite Heq. cbn [database.insert_object fst database.predictions
        database.assessment_inputs database.risk_factors
        database.recommendations]. rewrite <- app_assoc. reflexivity.
    + constructor; [|exact Hrows]. eexists. reflexivity.
Qed.

Lemma insert_all_recommendations t k l :
  exists rows,
    fst (database.insert_all t
           (map (fun rec => database.ORecommendation
                              (recommendation_row 0 k rec)) l))
    = {| database.predictions := database.predictions t;
         database.assessment_inputs := database.assessment_inputs t;
         database.risk_factors := database.risk_factors t;
         database.recommendations := database.recommendations t ++ rows |} /\
    Forall2 (fun row rec => exists i, row = recommendation_row i k rec)
      rows l.
Proof.
  revert t. induction l as [|rec l IH]; intros t.
  - exists []. split; [|constructor]. destruct t. cbn. now rewrite app_nil_r.
  - cbn [map]. rewrite insert_all_cons.
    destruct (IH (fst (database.insert_object t
                         (database.ORecommendation
                            (recommendation_row 0 k rec)))))
      as (rows & Heq & Hrows).
    eexists (_ :: rows). split.
    + rewrite Heq. cbn [database.insert_object fst database.predictions
        database.assessment_inputs database.risk_factors
        database.recommendations]. rewrite <- app_assoc. reflexivity.
    + constructor; [|exact Hrows]. eexists. reflexivity.
Qed.

(** What the commit of a save adds to the tables. *)
Lemma insert_children t k prediction input :
  exists factor_rows recommendation_rows,
    fst (database.insert_all t (child_objects k prediction input))
    = {| database.predictions := database.predictions t;
         database.assessment_inputs :=
           database.assessment_inputs t
           ++ match input with
              | Some a =>
                  [assessment_row
                     (database.next_key
                        (map database.ai_id (database.assessment_inputs t)))
                     k a]
              | None => []
              end;
         database.risk_factors := database.risk_factors t ++ factor_rows;
         database.recommendations :=
           database.recommendations t ++ recommendation_rows |} /\
    Forall2 (fun row rf => exists i, row = factor_row i k rf)
      factor_rows (schemas.risk_factors prediction) /\
    Forall2 (fun row rec => exists i, row = recommendation_row i k rec)
      recommendation_rows (schemas.recommendations prediction).
Proof.
  unfold child_objects. rewrite !insert_all_app.
  set (t1 := fst (database.insert_all t
                    match input with
                    | Some a => [database.OAssessmentInput
                                   (assessment_row 0 k a)]
                    | None => []
                    end)).
  assert (Ht1 : t1 =
    {| database.predictions := database.predictions t;
       database.assessment_inputs :=
         database.assessment_inputs t
         ++ match input with
            | Some a =>
                [assessment_row
                   (database.next_key
                      (map database.ai_id (database.assessment_inputs t)))
                   k a]
            | None => []
            end;
       database.risk_factors := database.risk_factors t;
       database.recommendations := database.recommendations t |}).
  { subst t1. destruct input as [a|]; destruct t; cbn;
      rewrite ?app_nil_r; reflexivity. }
  destruct (insert_all_factors t1 k (schemas.risk_factors prediction))
    as (frows & Hf & Hfrows).
  rewrite Hf.
  destruct (insert_all_recommendations
              {| database.predictions := database.predictions t1;
                 database.assessment_inputs := database.assessment_inputs t1;
                 database.risk_factors := database.risk_factors t1 ++ frows;
                 database.recommendations := database.recommendations t1 |}
              k (schemas.recommendations prediction))
    as (rrows & Hr & Hrrows).
  rewrite Hr. exists frows, rrows. rewrite Ht1. cbn. auto.
Qed.

Lemma next_key_fresh keys : Forall (fun k => k < database.next_key keys) keys.
Proof.
  unfold database.next_key.
  induction keys as [|k keys IH]; constructor; cbn [fold_right].
  - lia.
  - eapply Forall_impl; [exact IH|]. cbn. intros k'. lia.
Qed.

End persistence.

(** X10.  On a session without pending objects whose next flush and
    commit go through, [save_prediction] returns a key greater than every
    key of the predictions table and commits, in one transaction: one
    prediction row under that key, carrying the fields of the response,
    the clock and the endpoint; one row of answers when answers were
    given, none otherwise; and one row per risk factor and per
    recommendation of the response, in order, each pointing to the new
    key.  Nothing is left pending and nothing is printed. *)
Theorem X10_save_writes_one_transaction
    (prediction : schemas.PredictionResponse)
    (input : option schemas.SimplifiedAssessmentRequest)
    (endpoint : string) (w : World) :
  database.pending (db w) = [] ->
  fault_free 2 (db w) ->
  let before := database.working (db w) in
  let k := database.next_key (map database.id (database.predictions before)) in
  exists w' factor_rows recommendation_rows,
    prediction_repository.save_prediction prediction input endpoint w
      = (inr k, w') /\
    Forall (fun row => database.id row < k) (database.predictions before) /\
    database.committed (db w')
    = {| database.predictions :=
           database.predictions before
           ++ [prediction_row k (utcnow w) prediction endpoint];
         database.assessment_inputs :=
           database.assessment_inputs before
           ++ match input with
              | Some a =>
                  [assessment_row
                     (database.next_key
                        (map database.ai_id
                           (database.assessment_inputs before))) k a]
              | None => []
              end;
         database.risk_factors :=
           database.risk_factors before ++ factor_rows;
         database.recommendations :=
           database.recommendations before ++ recommendation_rows |} /\
    Forall2 (fun row rf => exists i, row = factor_row i k rf)
      factor_rows (schemas.risk_factors prediction) /\
    Forall2 (fun row rec => exists i, row = recommendation_row i k rec)
      recommendation_rows (schemas.recommendations prediction) /\
    database.working (db w') = database.committed (db w') /\
    database.pending (db w') = [] /\
    stdout w' = stdout w.
Proof.
  intros Hp Hfree before k.
  destruct w as [[c wk p fs] out now].
  cbn [db database.pending database.working stdout utcnow] in *.
  subst p before.
  destruct (insert_children (flushed_tables wk now prediction endpoint)
              k prediction input) as (frows & rrows & Heq & Hf & Hr).
  assert (Hrun :
    prediction_repository.save_prediction prediction input endpoint
      {| db := {| database.committed := c; database.working := wk;
                  database.pending := []; database.faults := fs |};
         stdout := out; utcnow := now |}
    = (inr k,
       {| db := {| database.committed :=
                     fst (database.insert_all
                            (flushed_tables wk now prediction endpoint)
                            (child_objects k prediction input));
                   database.working :=
                     fst (database.insert_all
                            (flushed_tables wk now prediction endpoint)
                            (child_objects k prediction input));
                   database.pending := [];
                   database.faults := tl (tl fs) |};
          stdout := out; utcnow := now |})).
  { rewrite save_prediction_run. unfold fault_free in Hfree.
    cbn [database.faults] in Hfree.
    destruct fs as [|[msg|] [|[msg'|] rest]]; try reflexivity;
      exfalso; cbn in Hfree;
      repeat match goal with
      | H : Forall _ (_ :: _) |- _ => inversion H; clear H; subst
      end; discriminate. }
  eexists. exists frows, rrows.
  split; [exact Hrun|].
  split; [apply Forall_forall; intros row Hin;
          apply (proj1 (Forall_forall _ _)
                   (next_key_fresh (map database.id (database.predictions wk))));
          apply list_elem_of_In; apply in_map;
          now apply list_elem_of_In|].
  cbn [db database.committed database.working database.pending stdout].
  rewrite Heq. cbn [flushed_tables database.predictions
    database.assessment_inputs database.risk_factors
    database.recommendations].
  repeat split; assumption.
Qed.

Lemma X10_save_writes_one_transaction_witness :
  exists w',
    prediction_repository.save_prediction sample_response
      (Some struggling_student) "simplified" (fresh_world [] 1700000000)
    = (inr 1, w') /\
    map database.category (database.risk_factors (database.committed (db w')))
    = ["Academic"; "Mental Health"] /\
    map database.predicted_class
      (database.predictions (database.committed (db w'))) = [None] /\
    length (database.assessment_inputs (database.committed (db w'))) = 1%nat.
Proof.
  destruct (X10_save_writes_one_transaction sample_response
              (Some struggling_student) "simplified"
              (fresh_world [] 1700000000))
    as (w' & frows & rrows & Hrun & _ & Hc & Hf & _ & _);
    [reflexivity|constructor|].
  exists w'. split; [exact Hrun|]. rewrite Hc.
  cbn [database.risk_factors database.predictions
       database.assessment_inputs].
  split; [|split; reflexivity].
  cbn [fresh_world db database.working database.empty_tables
       database.risk_factors app].
  cbn [sample_response schemas.risk_factors] in Hf.
  inversion Hf as [|r1 f1 rs1 fs1 (i1 & ->) Hf1]; subst.
  inversion Hf1 as [|r2 f2 rs2 fs2 (i2 & ->) Hf2]; subst.
  inversion Hf2; subst. reflexivity.
Defined.

(** X11.  When the flush or the commit of a save raises, the save raises
    the same database error again after rolling back: the committed
    tables are what they were, the transaction holds nothing more than
    them, nothing is pending, and one line reporting the error is
    printed.  A session without pending objects is assumed. *)
Theorem X11_failed_save_leaves_no_trace
    (prediction : schemas.PredictionResponse)
    (input : option schemas.SimplifiedAssessmentRequest)
    (endpoint : string) (w : World) (e : exn) :
  database.pending (db w) = [] ->
  fst (prediction_repository.save_prediction prediction input endpoint w)
    = inl e ->
  let w' :=
    snd (prediction_repository.save_prediction prediction input endpoint w) in
  (exists msg, e = SQLAlchemyError msg) /\
  ~ fault_free 2 (db w) /\
  database.committed (db w') = database.committed (db w) /\
  database.working (db w') = database.committed (db w) /\
  database.pending (db w') = [] /\
  stdout w'
  = stdout w ++ [("Error saving prediction: " ++ exn_str e)%string].
Proof.
  intros Hp He w'. subst w'.
  destruct w as [[c wk p fs] out now].
  cbn [db database.pending database.committed stdout] in *. subst p.
  rewrite save_prediction_run in *.
  unfold fault_free. cbn [database.faults].
  destruct fs as [|[msg|] [|[msg'|] rest]]; cbn [tl fst snd] in *;
    try discriminate; injection He as <-;
    (split; [eauto|]);
    (split; [intros H; cbn in H;
             repeat match goal with
             | H : Forall _ (_ :: _) |- _ => inversion H; clear H; subst
             end; discriminate|]);
    repeat split; reflexivity.
Qed.

Lemma X11_failed_save_leaves_no_trace_witness :
  let w := fresh_world [None; Some "disk full"] 1700000000 in
  let w' := snd (prediction_repository.save_prediction sample_response
                   None "raw" w) in
  database.committed (db w') = database.empty_tables /\
  stdout w' = ["Error saving prediction: disk full"].
Proof.
  intros w w'.
  destruct (X11_failed_save_leaves_no_trace sample_response None "raw" w
              (SQLAlchemyError "disk full"))
    as (_ & _ & Hc & _ & _ & Hout); [reflexivity|reflexivity|].
  split; [exact Hc|exact Hout].
Defined.

(* ===================================================================== *)
(** ** More on rounding *)
(* ===================================================================== *)

Section rounding.

Lemma Qfloor_mono (x y : Q) : (x <= y)%Q -> Qfloor x <= Qfloor y.
Proof. apply Qfloor_resp_le. Qed.

(** [round] never reorders two numbers. *)
Lemma py_round_mono (x y : Q) : (x <= y)%Q -> py_round x <= py_round y.
Proof.
  intros Hxy.
  pose proof (Qfloor_mono x y Hxy) as Hf.
  destruct (Qfloor_bounds x) as [Hxl Hxh].
  destruct (Qfloor_bounds y) as [Hyl Hyh].
  destruct (Z.eq_dec (Qfloor x) (Qfloor y)) as [E|Hne].
  - unfold py_round. rewrite <- E in *.
    destruct (Qcompare_spec (x - inject_Z (Qfloor x)) (1 # 2)) as [Hx|Hx|Hx];
      destruct (Qcompare_spec (y - inject_Z (Qfloor x)) (1 # 2))
        as [Hy|Hy|Hy];
      try lia; try (exfalso; lra);
      destruct (Z.even (Qfloor x)); lia.
  - assert (Hlt : Qfloor x + 1 <= Qfloor y) by lia.
    assert (py_round x <= Qfloor x + 1).
    { unfold py_round.
      destruct (Qcompare (x - inject_Z (Qfloor x)) (1 # 2));
        [destruct (Z.even (Qfloor x))| |]; lia. }
    assert (Qfloor y <= py_round y).
    { unfold py_round.
      destruct (Qcompare (y - inject_Z (Qfloor y)) (1 # 2));
        [destruct (Z.even (Qfloor y))| |]; lia. }
    lia.
Qed.

Lemma py_round_ndigits_mono (x y : Q) (n : nat) :
  (x <= y)%Q -> (py_round_ndigits x n <= py_round_ndigits y n)%Q.
Proof.
  intros Hxy. unfold py_round_ndigits.
  assert (Hpos : 0 < 10 ^ Z.of_nat n) by (apply Z.pow_pos_nonneg; lia).
  set (scale := inject_Z (10 ^ Z.of_nat n)).
  assert (Hs : (0 < scale)%Q).
  { subst scale. change 0%Q with (inject_Z 0). now rewrite <- Zlt_Qlt. }
  assert (Hr : py_round (x * scale) <= py_round (y * scale)).
  { apply py_round_mono. apply Qmult_le_compat_r; [exact Hxy|lra]. }
  apply Qle_shift_div_l; [exact Hs|].
  assert (E : (inject_Z (py_round (x * scale)) / scale * scale
               == inject_Z (py_round (x * scale)))%Q) by (field; lra).
  rewrite E. rewrite <- Zle_Qle. exact Hr.
Qed.

Lemma py_round_ndigits_inject_Z (z : Z) (n : nat) :
  (py_round_ndigits (inject_Z z) n == inject_Z z)%Q.
Proof.
  unfold py_round_ndigits.
  assert (Hpos : 0 < 10 ^ Z.of_nat n) by (apply Z.pow_pos_nonneg; lia).
  set (s := 10 ^ Z.of_nat n) in *.
  assert (E : (inject_Z z * inject_Z s == inject_Z (z * s))%Q)
    by (now rewrite inject_Z_mult).
  assert (Hr : py_round (inject_Z z * inject_Z s) = z * s).
  { rewrite <- (py_round_inject_Z (z * s)).
    unfold py_round. rewrite (Qfloor_comp _ _ E).
    assert (C : Qcompare (inject_Z z * inject_Z s
                           - inject_Z (Qfloor (inject_Z (z * s)))) (1 # 2)
                = Qcompare (inject_Z (z * s)
                              - inject_Z (Qfloor (inject_Z (z * s)))) (1 # 2)).
    { apply Qcompare_comp; [|reflexivity]. now rewrite E. }
    now rewrite C. }
  rewrite Hr, inject_Z_mult. field.
  change 0%Q with (inject_Z 0). rewrite inject_Z_injective. lia.
Qed.

End rounding.

(* ===================================================================== *)
(** ** More on the dashboard statistics *)
(* ===================================================================== *)

Section statistics.

Import prediction_repository.

Lemma count_level_cons level p rows :
  count_level level (p :: rows)
  = (if String.eqb (database.risk_level p) level then 1 else 0)
    + count_level level rows.
Proof.
  unfold count_level. cbn [List.filter].
  destruct (String.eqb (database.risk_level p) level); cbn [length]; lia.
Qed.

Lemma count_level_app level rows rows' :
  count_level level (rows ++ rows')
  = count_level level rows + count_level level rows'.
Proof.
  induction rows as [|p rows IH]; [reflexivity|].
  cbn [app]. rewrite !count_level_cons, IH. lia.
Qed.

Lemma count_level_nonneg level rows : 0 <= count_level level rows.
Proof. unfold count_level. lia. Qed.

Lemma sum_case_count level rows :
  or_zero (sum_case level rows) = count_level level rows.
Proof.
  assert (Hfold : forall l,
    fold_right (fun p acc =>
      (if String.eqb (database.risk_level p) level then 1 else 0) + acc)
      0 l = count_level level l).
  { induction l as [|p l IH]; [reflexivity|].
    cbn [fold_right]. now rewrite IH, count_level_cons. }
  destruct rows as [|p rows]; [reflexivity|].
  unfold sum_case. rewrite Hfold. cbn [or_zero].
  destruct (Z.eqb_spec (count_level level (p :: rows)) 0) as [E|];
    [now rewrite E|reflexivity].
Qed.

Lemma count_levels_le rows :
  count_level "high" rows + count_level "medium" rows
  + count_level "low" rows <= Z.of_nat (length rows).
Proof.
  induction rows as [|p rows IH]; [reflexivity|].
  rewrite !count_level_cons. cbn [length]. rewrite Nat2Z.inj_succ.
  destruct (String.eqb (database.risk_level p) "high") eqn:E1;
    destruct (String.eqb (database.risk_level p) "medium") eqn:E2;
    destruct (String.eqb (database.risk_level p) "low") eqn:E3;
    try lia; exfalso;
    repeat match goal with
    | H : String.eqb _ _ = true |- _ => apply String.eqb_eq in H
    end; congruence.
Qed.

Lemma count_levels_total rows :
  Forall (fun p => In (database.risk_level p) ["high"; "medium"; "low"]) rows ->
  count_level "high" rows + count_level "medium" rows
  + count_level "low" rows = Z.of_nat (length rows).
Proof.
  induction 1 as [|p rows Hp _ IH]; [reflexivity|].
  rewrite !count_level_cons. cbn [length]. rewrite Nat2Z.inj_succ.
  cbn [In] in Hp. destruct Hp as [<-|[<-|[<-|[]]]]; cbn; lia.
Qed.

Lemma percentage_of_range count total q :
  0 <= count <= total ->
  percentage_of count total = inr q -> (0 <= q <= 100)%Q.
Proof.
  intros Hc. destruct (Z.ltb_spec 0 total) as [Hpos|Hle].
  - rewrite percentage_of_positive by exact Hpos. intros H.
    injection H as <-.
    assert (Ht : (0 < inject_Z total)%Q).
    { change 0%Q with (inject_Z 0). now rewrite <- Zlt_Qlt. }
    assert (H0 : (0 <= inject_Z count)%Q).
    { change 0%Q with (inject_Z 0). rewrite <- Zle_Qle. lia. }
    assert (H1 : (inject_Z count <= inject_Z total)%Q).
    { rewrite <- Zle_Qle. lia. }
    set (c := inject_Z count) in *. set (n := inject_Z total) in *.
    clearbody c n.
    assert (Hq : (0 <= c / n <= 1)%Q).
    { split.
      - apply Qle_shift_div_l; [exact Ht|lra].
      - apply Qle_shift_div_r; [exact Ht|lra]. }
    set (r := (c / n)%Q) in *. clearbody r. lra.
  - unfold percentage_of. destruct (Z.gtb_spec total 0); [lia|].
    intros Hq. injection Hq as <-. lra.
Qed.

Lemma rounded_percentage_range (q : Q) (n : nat) :
  (0 <= q <= 100)%Q -> (0 <= py_round_ndigits q n <= 100)%Q.
Proof.
  intros [H0 H100]. split.
  - apply Qle_trans with (py_round_ndigits (inject_Z 0) n).
    + rewrite py_round_ndigits_inject_Z. apply Qle_refl.
    + apply py_round_ndigits_mono. exact H0.
  - apply Qle_trans with (py_round_ndigits (inject_Z 100) n).
    + apply py_round_ndigits_mono. exact H100.
    + rewrite py_round_ndigits_inject_Z. apply Qle_refl.
Qed.

End statistics.

(** X12.  For every stored collection the statistics query returns.
    The total is the number of stored predictions and each tier count is
    the number of predictions stored with that tier; the three counts add
    up to at most the total, and to the total when every stored tier is
    one of [high], [medium] and [low]; each percentage lies between 0 and
    100. *)
Theorem X12_dashboard_counts (t : database.Tables) :
  let rows := database.predictions t in
  exists s,
    prediction_repository.get_dashboard_stats t = inr s /\
    prediction_repository.total_assessments s = Z.of_nat (length rows) /\
    prediction_repository.high_risk_count s = count_level "high" rows /\
    prediction_repository.medium_risk_count s = count_level "medium" rows /\
    prediction_repository.low_risk_count s = count_level "low" rows /\
    prediction_repository.high_risk_count s
    + prediction_repository.medium_risk_count s
    + prediction_repository.low_risk_count s
      <= prediction_repository.total_assessments s /\
    (Forall (fun p => In (database.risk_level p) ["high"; "medium"; "low"])
       rows ->
     prediction_repository.high_risk_count s
     + prediction_repository.medium_risk_count s
     + prediction_repository.low_risk_count s
       = prediction_repository.total_assessments s) /\
    (0 <= prediction_repository.high_risk_percentage s <= 100)%Q /\
    (0 <= prediction_repository.medium_risk_percentage s <= 100)%Q /\
    (0 <= prediction_repository.low_risk_percentage s <= 100)%Q.
Proof.
  intros rows.
  unfold prediction_repository.get_dashboard_stats,
    prediction_repository.stats_query.
  cbn [prediction_repository.total prediction_repository.high_count
       prediction_repository.medium_count prediction_repository.low_count
       prediction_repository.avg_score].
  fold rows. rewrite !sum_case_count.
  assert (Htotal : or_zero (Some (Z.of_nat (length rows)))
                   = Z.of_nat (length rows)).
  { cbn [or_zero]. destruct (Z.eqb_spec (Z.of_nat (length rows)) 0) as [E|];
      [now rewrite E|reflexivity]. }
  rewrite Htotal.
  pose proof (count_levels_le rows) as Hle.
  pose proof (count_level_nonneg "high" rows) as Hh.
  pose proof (count_level_nonneg "medium" rows) as Hm.
  pose proof (count_level_nonneg "low" rows) as Hl.
  destruct (percentage_of_returns (count_level "high" rows)
              (Z.of_nat (length rows))) as (hp & Hhp).
  destruct (percentage_of_returns (count_level "medium" rows)
              (Z.of_nat (length rows))) as (mp & Hmp).
  destruct (percentage_of_returns (count_level "low" rows)
              (Z.of_nat (length rows))) as (lp & Hlp).
  rewrite Hhp, Hmp, Hlp. cbn [py_bind].
  eexists. split; [reflexivity|].
  cbn [prediction_repository.total_assessments
       prediction_repository.high_risk_count
       prediction_repository.medium_risk_count
       prediction_repository.low_risk_count
       prediction_repository.high_risk_percentage
       prediction_repository.medium_risk_percentage
       prediction_repository.low_risk_percentage].
  repeat (split; [reflexivity|]).
  split; [exact Hle|]. split; [apply count_levels_total|].
  split; [|split]; apply rounded_percentage_range;
    eapply percentage_of_range; eauto; lia.
Qed.

Lemma X12_dashboard_counts_witness :
  exists s,
    prediction_repository.get_dashboard_stats sample_tables = inr s /\
    prediction_repository.high_risk_count s
    + prediction_repository.medium_risk_count s
    + prediction_repository.low_risk_count s
      = prediction_repository.total_assessments s /\
    prediction_repository.total_assessments s = 1.
Proof.
  destruct (X12_dashboard_counts sample_tables)
    as (s & Hs & Ht & _ & _ & _ & _ & Hsum & _).
  exists s. split; [exact Hs|]. split; [|exact Ht].
  apply Hsum. repeat constructor.
Defined.

(* ===================================================================== *)
(** ** A save as the dashboard sees it *)
(* ===================================================================== *)

Section save_then_read.

Import prediction_repository.

Lemma dashboard_stats_counts t :
  exists s,
    get_dashboard_stats t = inr s /\
    total_assessments s = Z.of_nat (length (database.predictions t)) /\
    high_risk_count s = count_level "high" (database.predictions t) /\
    medium_risk_count s = count_level "medium" (database.predictions t) /\
    low_risk_count s = count_level "low" (database.predictions t).
Proof.
  unfold get_dashboard_stats, stats_query.
  cbn [total high_count medium_count low_count avg_score].
  rewrite !sum_case_count.
  assert (Htotal :
    or_zero (Some (Z.of_nat (length (database.predictions t))))
    = Z.of_nat (length (database.predictions t))).
  { cbn [or_zero].
    destruct (Z.eqb_spec (Z.of_nat (length (database.predictions t))) 0)
      as [E|]; [now rewrite E|reflexivity]. }
  rewrite Htotal.
  destruct (percentage_of_returns
              (count_level "high" (database.predictions t))
              (Z.of_nat (length (database.predictions t)))) as (hp & ->).
  destruct (percentage_of_returns
              (count_level "medium" (database.predictions t))
              (Z.of_nat (length (database.predictions t)))) as (mp & ->).
  destruct (percentage_of_returns
              (count_level "low" (database.predictions t))
              (Z.of_nat (length (database.predictions t)))) as (lp & ->).
  cbn [py_bind]. eexists. split; [reflexivity|].
  repeat split; reflexivity.
Qed.

(** The predictions table after a save that went through. *)
Lemma saved_predictions prediction input endpoint c wk fs out now :
  Forall (fun outcome => outcome = None) (firstn 2 fs) ->
  exists w',
    save_prediction prediction input endpoint
      {| db := {| database.committed := c; database.working := wk;
                  database.pending := []; database.faults := fs |};
         stdout := out; utcnow := now |}
    = (inr (database.next_key (map database.id (database.predictions wk))),
       w') /\
    database.predictions (database.committed (db w'))
    = database.predictions wk
      ++ [prediction_row
            (database.next_key (map database.id (database.predictions wk)))
            now prediction endpoint].
Proof.
  intros Hfree. rewrite save_prediction_run.
  destruct (insert_children (flushed_tables wk now prediction endpoint)
              (database.next_key (map database.id (database.predictions wk)))
              prediction input) as (frows & rrows & Heq & _).
  destruct fs as [|[msg|] [|[msg'|] rest]];
    try (exfalso; cbn in Hfree;
         repeat match goal with
         | H : Forall _ (_ :: _) |- _ => inversion H; clear H; subst
         end; discriminate);
    cbv zeta; cbn [tl]; eexists; (split; [reflexivity|]);
    cbn [db database.committed]; rewrite Heq; reflexivity.
Qed.

End save_then_read.

(** X13.  A save that goes through shows in the statistics: read after
    the commit, the total is one more than before, the count of the tier
    of the saved response is one more, and the other two counts are what
    they were. *)
Theorem X13_save_then_dashboard
    (prediction : schemas.PredictionResponse)
    (input : option schemas.SimplifiedAssessmentRequest)
    (endpoint : string) (w : World) :
  database.pending (db w) = [] ->
  fault_free 2 (db w) ->
  exists k w' before after,
    prediction_repository.save_prediction prediction input endpoint w
      = (inr k, w') /\
    prediction_repository.get_dashboard_stats (database.working (db w))
      = inr before /\
    prediction_repository.get_dashboard_stats (database.committed (db w'))
      = inr after /\
    prediction_repository.total_assessments after
    = prediction_repository.total_assessments before + 1 /\
    let gain level :=
      if String.eqb (schemas.risk_level prediction) level then 1 else 0 in
    prediction_repository.high_risk_count after
    = prediction_repository.high_risk_count before + gain "high" /\
    prediction_repository.medium_risk_count after
    = prediction_repository.medium_risk_count before + gain "medium" /\
    prediction_repository.low_risk_count after
    = prediction_repository.low_risk_count before + gain "low".
Proof.
  intros Hp Hfree.
  destruct w as [[c wk p fs] out now].
  cbn [db database.pending database.working] in *. subst p.
  destruct (saved_predictions prediction input endpoint c wk fs out now
              Hfree) as (w' & Hrun & Hrows).
  destruct (dashboard_stats_counts wk)
    as (before & Hb & Hbt & Hbh & Hbm & Hbl).
  destruct (dashboard_stats_counts (database.committed (db w')))
    as (after & Ha & Hat & Hah & Ham & Hal).
  exists (database.next_key (map database.id (database.predictions wk))),
    w', before, after.
  split; [exact Hrun|]. split; [exact Hb|]. split; [exact Ha|].
  rewrite Hrows in Hat, Hah, Ham, Hal.
  rewrite Hat, Hah, Ham, Hal, Hbt, Hbh, Hbm, Hbl.
  rewrite !count_level_app, length_app, Nat2Z.inj_add.
  cbv zeta. rewrite !count_level_cons.
  cbn [prediction_row database.risk_level length count_level List.filter].
  change (count_level "high" []) with 0.
  change (count_level "medium" []) with 0.
  change (count_level "low" []) with 0.
  repeat split; lia.
Qed.

Lemma X13_save_then_dashboard_witness :
  exists k w' before after,
    prediction_repository.save_prediction sample_response None "raw"
      (fresh_world [] 1700000000) = (inr k, w') /\
    prediction_repository.get_dashboard_stats database.empty_tables
      = inr before /\
    prediction_repository.get_dashboard_stats (database.committed (db w'))
      = inr after /\
    prediction_repository.total_assessments after = 1 /\
    prediction_repository.medium_risk_count after = 1 /\
    prediction_repository.high_risk_count after = 0.
Proof.
  destruct (X13_save_then_dashboard sample_response None "raw"
              (fresh_world [] 1700000000))
    as (k & w' & before & after & Hrun & Hb & Ha & Ht & Hh & Hm & _);
    [reflexivity|constructor|].
  exists k, w', before, after.
  split; [exact Hrun|]. split; [exact Hb|]. split; [exact Ha|].
  cbn [fresh_world db database.working] in Hb.
  assert (E : before = {|
    prediction_repository.total_assessments := 0;
    prediction_repository.high_risk_count := 0;
    prediction_repository.medium_risk_count := 0;
    prediction_repository.low_risk_count := 0;
    prediction_repository.high_risk_percentage := py_round_ndigits 0 2;
    prediction_repository.medium_risk_percentage := py_round_ndigits 0 2;
    prediction_repository.low_risk_percentage := py_round_ndigits 0 2;
    prediction_repository.average_risk_score := py_round_ndigits 0 1 |}).
  { revert Hb. cbn. intros H. now injection H as <-. }
  rewrite E in Ht, Hh, Hm. cbn in Ht, Hh, Hm.
  repeat split; assumption.
Defined.

(* ===================================================================== *)
(** ** More on the top risk factors *)
(* ===================================================================== *)

Section top_factors.

Import prediction_repository.

(** *** Grouping *)

Lemma count_of_bump c c' groups :
  count_of c (bump c' groups)
  = count_of c groups + (if String.eqb c' c then 1 else 0).
Proof.
  induction groups as [|[c0 n] rest IH]; cbn [bump count_of fold_right fst snd].
  - destruct (String.eqb c' c); lia.
  - destruct (String.eqb_spec c0 c') as [->|Hne];
      cbn [count_of fold_right fst snd].
    + destruct (String.eqb c' c); lia.
    + fold (count_of c (bump c' rest)). fold (count_of c rest).
      rewrite IH. destruct (String.eqb c0 c); lia.
Qed.

Lemma keys_bump c groups :
  map fst (bump c groups)
  = if existsb (String.eqb c) (map fst groups)
    then map fst groups else map fst groups ++ [c].
Proof.
  induction groups as [|[c0 n] rest IH]; [reflexivity|].
  cbn [bump map fst existsb].
  rewrite (String.eqb_sym c c0).
  destruct (String.eqb c0 c); cbn [orb map fst]; [reflexivity|].
  rewrite IH. destruct (existsb _ _); reflexivity.
Qed.

Lemma existsb_eqb_In c keys :
  existsb (String.eqb c) keys = true <-> In c keys.
Proof.
  rewrite existsb_exists. split.
  - intros (k & Hk & E). apply String.eqb_eq in E. now subst.
  - intros H. exists c. split; [exact H|apply String.eqb_refl].
Qed.

Lemma keys_bump_NoDup c groups :
  List.NoDup (map fst groups) -> List.NoDup (map fst (bump c groups)).
Proof.
  intros H. rewrite keys_bump.
  destruct (existsb (String.eqb c) (map fst groups)) eqn:E; [exact H|].
  apply NoDup_app_remove_l with (l := []). cbn [app].
  apply List.NoDup_rev in H. rewrite <- (rev_involutive (_ ++ [c])).
  apply List.NoDup_rev. rewrite rev_app_distr. cbn [rev app].
  constructor; [|exact H].
  rewrite <- in_rev. intros Hin. apply existsb_eqb_In in Hin. congruence.
Qed.

Lemma keys_bump_In c c' groups :
  In c (map fst (bump c' groups)) <-> c = c' \/ In c (map fst groups).
Proof.
  rewrite keys_bump.
  destruct (existsb (String.eqb c') (map fst groups)) eqn:E.
  - apply existsb_eqb_In in E. intuition (subst; assumption).
  - rewrite in_app_iff. cbn [In]. intuition congruence.
Qed.

Lemma group_fold_keys {A} (key : A -> string) (rows : list A) acc :
  List.NoDup (map fst acc) ->
  let groups := fold_left (fun groups r => bump (key r) groups) rows acc in
  List.NoDup (map fst groups) /\
  (forall c, In c (map fst groups)
             <-> In c (map key rows) \/ In c (map fst acc)) /\
  (forall c, count_of c groups
             = count_of c acc
               + Z.of_nat (length (List.filter
                   (fun r => String.eqb (key r) c) rows))).
Proof.
  revert acc. induction rows as [|r rows IH]; intros acc Hacc; cbv zeta.
  - cbn [fold_left map]. split; [exact Hacc|]. split.
    + intros c. cbn [In]. tauto.
    + intros c. cbn. lia.
  - cbn [fold_left].
    destruct (IH (bump (key r) acc) (keys_bump_NoDup _ _ Hacc))
      as (Hnd & Hin & Hcount).
    split; [exact Hnd|]. split.
    + intros c. rewrite Hin, keys_bump_In. cbn [map In]. intuition.
    + intros c. rewrite Hcount, count_of_bump. cbn [List.filter].
      destruct (String.eqb (key r) c); cbn [length]; lia.
Qed.

(** *** Ordering and limiting *)

Lemma insert_desc_perm g sorted :
  Permutation (insert_desc g sorted) (g :: sorted).
Proof.
  induction sorted as [|h rest IH]; cbn [insert_desc]; [reflexivity|].
  destruct (snd h <=? snd g); [reflexivity|].
  rewrite IH. apply perm_swap.
Qed.

Lemma order_by_count_desc_perm groups :
  Permutation (order_by_count_desc groups) groups.
Proof.
  unfold order_by_count_desc.
  induction groups as [|g rest IH]; cbn [fold_right]; [reflexivity|].
  rewrite insert_desc_perm. now constructor.
Qed.

Lemma insert_desc_descending g sorted :
  descending sorted -> descending (insert_desc g sorted).
Proof.
  unfold descending. induction 1 as [|h rest Hrest IH Hh];
    cbn [insert_desc].
  - repeat constructor.
  - destruct (Z.leb_spec (snd h) (snd g)) as [Hle|Hgt].
    + constructor; [now constructor|].
      constructor; [exact Hle|].
      eapply Forall_impl; [exact Hh|]. cbn. intros x Hx. lia.
    + constructor; [exact IH|].
      apply Forall_forall. intros x Hx.
      apply list_elem_of_In in Hx.
      apply (Permutation_in _ (insert_desc_perm g rest)) in Hx.
      destruct Hx as [<-|Hx]; [lia|].
      apply (proj1 (Forall_forall _ _) Hh). now apply list_elem_of_In.
Qed.

Lemma order_by_count_desc_descending groups :
  descending (order_by_count_desc groups).
Proof.
  unfold order_by_count_desc.
  induction groups as [|g rest IH]; cbn [fold_right].
  - constructor.
  - now apply insert_desc_descending.
Qed.

Lemma firstn_In {A} m (rows : list A) x :
  In x (firstn m rows) -> In x rows.
Proof.
  revert rows. induction m as [|m IH]; intros [|y rows];
    cbn [firstn In]; try tauto.
  intros [->|H]; auto.
Qed.

Lemma sql_limit_In {A} n (rows : list A) x :
  In x (sql_limit n rows) -> In x rows.
Proof.
  unfold sql_limit. destruct (n <? 0); [auto|apply firstn_In].
Qed.

Lemma firstn_descending m groups :
  descending groups -> descending (firstn m groups).
Proof.
  unfold descending. intros H. revert m.
  induction H as [|g rest Hrest IH Hg]; intros [|m]; cbn [firstn];
    try constructor; auto.
  apply List.Forall_forall. intros x Hx. apply firstn_In in Hx.
  exact (proj1 (List.Forall_forall _ _) Hg x Hx).
Qed.

Lemma firstn_NoDup {A} m (keys : list A) :
  List.NoDup keys -> List.NoDup (firstn m keys).
Proof.
  intros H. revert m. induction H as [|k keys Hk _ IH]; intros [|m];
    cbn [firstn]; try constructor; auto.
  intros Hin. apply Hk. exact (firstn_In _ _ _ Hin).
Qed.

Lemma sql_limit_length {A} n (rows : list A) :
  0 <= n -> (length (sql_limit n rows) <= Z.to_nat n)%nat.
Proof.
  intros Hn. unfold sql_limit.
  destruct (Z.ltb_spec n 0); [lia|]. apply firstn_le_length.
Qed.

(** *** The rows of the query *)

Lemma grouped_rows (t : database.Tables) :
  let groups := group_by_category (database.risk_factors t) in
  List.NoDup (map fst groups) /\
  (forall c, In c (map fst groups)
             <-> In c (map database.category (database.risk_factors t))) /\
  (forall c, count_of c groups
             = count_category c (database.risk_factors t)).
Proof.
  destruct (group_fold_keys database.category (database.risk_factors t) [])
    as (Hnd & Hin & Hcount); [constructor|].
  split; [exact Hnd|]. split.
  - intros c. unfold group_by_category. rewrite (Hin c).
    cbn [map In]. tauto.
  - intros c. unfold group_by_category, count_category.
    rewrite (Hcount c). change (count_of c []) with 0. lia.
Qed.

Lemma count_of_perm c groups groups' :
  Permutation groups groups' -> count_of c groups = count_of c groups'.
Proof.
  induction 1 as [|g l l' _ IH|g g' l|l l' l'' _ IH1 _ IH2];
    cbn [count_of fold_right]; fold (count_of c);
    try reflexivity.
  - fold (count_of c l) (count_of c l'). now rewrite IH.
  - destruct (String.eqb (fst g) c), (String.eqb (fst g') c); lia.
  - congruence.
Qed.

Lemma count_of_entry c n groups :
  List.NoDup (map fst groups) -> In (c, n) groups ->
  count_of c groups = n.
Proof.
  induction groups as [|[c0 n0] rest IH]; [contradiction|].
  cbn [map fst]. intros Hnd Hin. apply List.NoDup_cons_iff in Hnd.
  destruct Hnd as [Hc0 Hnd].
  cbn [count_of fold_right fst snd]. fold (count_of c rest).
  destruct Hin as [E|Hin].
  - injection E as -> ->. rewrite String.eqb_refl.
    assert (H0 : count_of c rest = 0).
    { clear -Hc0. induction rest as [|[c1 n1] rest IH]; [reflexivity|].
      cbn [map fst In] in Hc0.
      cbn [count_of fold_right fst snd]. fold (count_of c rest).
      destruct (String.eqb_spec c1 c) as [->|_]; [tauto|].
      apply IH. tauto. }
    lia.
  - destruct (String.eqb_spec c0 c) as [->|_].
    + exfalso. apply Hc0. apply in_map_iff. exists (c, n). auto.
    + now apply IH.
Qed.

Lemma ordered_rows (t : database.Tables) :
  let rows :=
    order_by_count_desc (group_by_category (database.risk_factors t)) in
  List.NoDup (map fst rows) /\
  descending rows /\
  (forall c, In c (map fst rows)
             <-> In c (map database.category (database.risk_factors t))) /\
  (forall c n, In (c, n) rows
               -> n = count_category c (database.risk_factors t)) /\
  sum_counts rows = Z.of_nat (length (database.risk_factors t)).
Proof.
  cbv zeta.
  set (groups := group_by_category (database.risk_factors t)).
  destruct (grouped_rows t) as (Hnd & Hin & Hcount).
  change (group_by_category (database.risk_factors t)) with groups
    in Hnd, Hin, Hcount.
  pose proof (order_by_count_desc_perm groups) as Hperm.
  assert (Hnd' : List.NoDup (map fst (order_by_count_desc groups))).
  { eapply Permutation_NoDup; [|exact Hnd].
    apply Permutation_map. now symmetry. }
  split; [exact Hnd'|].
  split; [apply order_by_count_desc_descending|].
  split; [|split].
  - intros c. rewrite <- Hin. split; apply Permutation_in;
      apply Permutation_map; [exact Hperm|now symmetry].
  - intros c n Hcn. rewrite <- Hcount.
    rewrite <- (count_of_perm c _ _ Hperm).
    symmetry. now apply count_of_entry.
  - transitivity (sum_counts groups).
    + clear -Hperm. induction Hperm; cbn [sum_counts fold_right];
        fold (sum_counts); try fold (sum_counts l) (sum_counts l');
        try lia; try congruence.
    + subst groups. unfold group_by_category.
      assert (G : forall rows acc,
        sum_counts (fold_left
          (fun groups r => bump (database.category r) groups) rows acc)
        = sum_counts acc + Z.of_nat (length rows)).
      { induction rows as [|r rows IH]; intros acc; cbn [fold_left length].
        - lia.
        - rewrite IH. 
          assert (B : forall c g, sum_counts (bump c g) = sum_counts g + 1).
          { intros c g. induction g as [|[c0 n0] g IHg];
              cbn [bump sum_counts fold_right snd]; [lia|].
            destruct (String.eqb c0 c);
              cbn [sum_counts fold_right snd];
              fold (sum_counts g); fold (sum_counts (bump c g)); lia. }
          rewrite B. lia. }
      rewrite G. cbn. lia.
Qed.

Lemma top_rows (t : database.Tables) (limit : Z) :
  let rows := top_categories_query t limit in
  List.NoDup (map fst rows) /\
  descending rows /\
  (forall c n, In (c, n) rows ->
     In c (map database.category (database.risk_factors t)) /\
     n = count_category c (database.risk_factors t)).
Proof.
  cbv zeta. destruct (ordered_rows t) as (Hnd & Hdesc & Hin & Hcount & _).
  unfold top_categories_query, sql_limit.
  destruct (limit <? 0).
  - split; [exact Hnd|]. split; [exact Hdesc|].
    intros c n Hcn. split; [|now apply Hcount].
    apply Hin. apply in_map_iff. exists (c, n). auto.
  - split; [|split].
    + rewrite <- firstn_map. now apply firstn_NoDup.
    + now apply firstn_descending.
    + intros c n Hcn. apply firstn_In in Hcn.
      split; [|now apply Hcount].
      apply Hin. apply in_map_iff. exists (c, n). auto.
Qed.

Lemma get_top_risk_factors_total t now limit :
  get_top_risk_factors t now limit
  = inr (map (summary_of t now (sum_counts (top_categories_query t limit)))
           (top_categories_query t limit)).
Proof.
  unfold get_top_risk_factors. cbv zeta.
  destruct (top_categories_query t limit) as [|row rows] eqn:E;
    [reflexivity|].
  apply summarize_positive. rewrite <- E.
  apply sum_counts_positive; [apply top_categories_counted|].
  rewrite E. discriminate.
Qed.






End top_factors.

(** X14: the list of top risk factors names each category at most once,
    names only categories of stored risk factors, and, under a limit
    that is not negative, holds no more entries than the limit. *)
Theorem X14_top_factors_names (t : database.Tables) (now limit : Z) :
  0 <= limit ->
  exists factors,
    prediction_repository.get_top_risk_factors t now limit = inr factors /\
    List.NoDup (map prediction_repository.name factors) /\
    (forall f, In f factors ->
       In (prediction_repository.name f)
          (map database.category (database.risk_factors t))) /\
    (length factors <= Z.to_nat limit)%nat.
Proof.
  intros Hlimit. eexists. split; [apply get_top_risk_factors_total|].
  destruct (top_rows t limit) as (Hnd & _ & Hin).
  rewrite map_map. cbn [summary_of prediction_repository.name].
  split; [exact Hnd|]. split.
  - intros f Hf. apply in_map_iff in Hf. destruct Hf as ([c n] & <- & Hg).
    cbn [summary_of prediction_repository.name fst].
    exact (proj1 (Hin c n Hg)).
  - rewrite length_map. unfold prediction_repository.top_categories_query.
    now apply sql_limit_length.
Qed.

Lemma X14_top_factors_names_witness :
  exists factors,
    prediction_repository.get_top_risk_factors sample_tables 1700000000 2
      = inr factors /\
    map prediction_repository.name factors = ["Academic"; "Financial"] /\
    List.NoDup (map prediction_repository.name factors) /\
    (length factors <= 2)%nat.
Proof.
  destruct (X14_top_factors_names sample_tables 1700000000 2)
    as (factors & Hf & Hnd & _ & Hlen); [lia|].
  exists factors. split; [exact Hf|].
  split; [|split; [exact Hnd|exact Hlen]].
  vm_compute in Hf. injection Hf as <-. reflexivity.
Defined.





(* ===================================================================== *)
(** ** The trend of a category *)
(* ===================================================================== *)

Section trends.

Import prediction_repository.

Lemma joined_factor_ids_none t cond :
  (forall p, In p (database.predictions t) -> cond p = false) ->
  joined_factor_ids t cond = [].
Proof.
  intros H. unfold joined_factor_ids.
  induction (database.risk_factors t) as [|r rows IH]; [reflexivity|].
  cbn [flat_map]. rewrite IH, app_nil_r. clear IH.
  induction (database.predictions t) as [|p ps IHp]; [reflexivity|].
  cbn [flat_map]. rewrite (H p) by now left.
  rewrite andb_false_r. cbn [app]. apply IHp.
  intros q Hq. apply H. now right.
Qed.

Lemma joined_factor_ids_In t cond r p :
  In r (database.risk_factors t) -> In p (database.predictions t) ->
  database.id p = database.rf_prediction_id r -> cond p = true ->
  In (database.rf_id r) (joined_factor_ids t cond).
Proof.
  intros Hr Hp Hid Hcond. unfold joined_factor_ids.
  apply in_flat_map. exists r. split; [exact Hr|].
  apply in_flat_map. exists p. split; [exact Hp|].
  rewrite Hid, Z.eqb_refl, Hcond. now left.
Qed.

Lemma count_category_in_nil t c : count_category_in t c [] = 0.
Proof.
  unfold count_category_in.
  induction (database.risk_factors t) as [|r rows IH]; [reflexivity|].
  cbn [List.filter existsb]. now rewrite andb_false_r.
Qed.

Lemma count_category_in_positive t c ids r :
  In r (database.risk_factors t) -> database.category r = c ->
  In (database.rf_id r) ids ->
  0 < count_category_in t c ids.
Proof.
  intros Hr Hc Hid. unfold count_category_in.
  assert (Hin : In r (List.filter (fun r : database.RiskFactor =>
            String.eqb (database.category r) c
            && existsb (Z.eqb (database.rf_id r)) ids)
            (database.risk_factors t))).
  { apply filter_In. split; [exact Hr|].
    rewrite Hc, String.eqb_refl. cbn [andb].
    apply existsb_exists. exists (database.rf_id r).
    split; [exact Hid|apply Z.eqb_refl]. }
  destruct (List.filter _ _); [contradiction|]. cbn [length]. lia.
Qed.

Lemma or_zero_Some v : or_zero (Some v) = v.
Proof.
  unfold or_zero. destruct (Z.eqb_spec v 0); congruence.
Qed.

Lemma calculate_trend_stable t now c :
  (forall p, In p (database.predictions t) ->
     database.created_at p < now - timedelta_days 14) ->
  calculate_trend t now c = "stable".
Proof.
  intros Hold. unfold calculate_trend. cbv zeta.
  rewrite !joined_factor_ids_none, !count_category_in_nil; [reflexivity| |].
  - intros p Hp. specialize (Hold p Hp). unfold timedelta_days in *.
    apply andb_false_intro1. apply Z.leb_gt. lia.
  - intros p Hp. specialize (Hold p Hp). unfold timedelta_days in *.
    apply Z.leb_gt. lia.
Qed.

Lemma calculate_trend_up t now c r :
  (forall p, In p (database.predictions t) ->
     now - timedelta_days 7 <= database.created_at p) ->
  factors_have_predictions t ->
  In r (database.risk_factors t) -> database.category r = c ->
  calculate_trend t now c = "up".
Proof.
  intros Hnew Hfk Hr Hc. unfold calculate_trend. cbv zeta.
  rewrite (joined_factor_ids_none t (fun p => _ && _)).
  2:{ intros p Hp. specialize (Hnew p Hp).
      apply andb_false_intro2. apply Z.ltb_ge. lia. }
  rewrite count_category_in_nil, !or_zero_Some.
  destruct (Hfk r Hr) as (p & Hp & Hid).
  assert (Hpos : 0 < count_category_in t c
    (joined_factor_ids t
       (fun p => now - timedelta_days 7 <=? database.created_at p))).
  { apply (count_category_in_positive t c _ r Hr Hc).
    apply (joined_factor_ids_In t _ r p Hr Hp Hid).
    apply Z.leb_le. now apply Hnew. }
  destruct (Z.gtb_spec (count_category_in t c
    (joined_factor_ids t
       (fun p => now - timedelta_days 7 <=? database.created_at p))) 0);
    [reflexivity|lia].
Qed.

End trends.

(** X18: when no prediction was created in the last fourteen days, every
    returned risk factor has the trend "stable". *)
Theorem X18_trend_stable_when_idle (t : database.Tables) (now limit : Z) :
  (forall p, In p (database.predictions t) ->
     database.created_at p
       < now - prediction_repository.timedelta_days 14) ->
  exists factors,
    prediction_repository.get_top_risk_factors t now limit = inr factors /\
    Forall (fun f => prediction_repository.trend f = "stable") factors.
Proof.
  intros Hold. eexists. split; [apply get_top_risk_factors_total|].
  apply List.Forall_forall. intros f Hf. apply in_map_iff in Hf.
  destruct Hf as (g & <- & _). cbn [summary_of prediction_repository.trend].
  now apply calculate_trend_stable.
Qed.

Lemma X18_trend_stable_when_idle_witness :
  exists factors,
    prediction_repository.get_top_risk_factors sample_tables
      sample_now_late 5 = inr factors /\
    map prediction_repository.trend factors
      = ["stable"; "stable"; "stable"].
Proof.
  destruct (X18_trend_stable_when_idle sample_tables sample_now_late 5)
    as (factors & Hf & Htrend).
  { intros p [<-|[]]. vm_compute. reflexivity. }
  exists factors. split; [exact Hf|].
  vm_compute in Hf. injection Hf as <-. reflexivity.
Defined.

(** X19: when every prediction was created in the last seven days and
    every stored risk factor belongs to a stored prediction, every
    returned risk factor has the trend "up": there is no earlier week to
    compare with. *)
Theorem X19_trend_up_in_first_week (t : database.Tables) (now limit : Z) :
  (forall p, In p (database.predictions t) ->
     now - prediction_repository.timedelta_days 7
       <= database.created_at p) ->
  factors_have_predictions t ->
  exists factors,
    prediction_repository.get_top_risk_factors t now limit = inr factors /\
    Forall (fun f => prediction_repository.trend f = "up") factors.
Proof.
  intros Hnew Hfk. eexists. split; [apply get_top_risk_factors_total|].
  destruct (top_rows t limit) as (_ & _ & Hin).
  apply List.Forall_forall. intros f Hf. apply in_map_iff in Hf.
  destruct Hf as ([c n] & <- & Hg).
  cbn [summary_of prediction_repository.trend fst].
  destruct (Hin c n Hg) as (Hc & _). apply in_map_iff in Hc.
  destruct Hc as (r & Hc & Hr).
  exact (calculate_trend_up t now c r Hnew Hfk Hr Hc).
Qed.

Lemma X19_trend_up_in_first_week_witness :
  exists factors,
    prediction_repository.get_top_risk_factors sample_tables
      sample_now_soon 5 = inr factors /\
    map prediction_repository.trend factors = ["up"; "up"; "up"].
Proof.
  destruct (X19_trend_up_in_first_week sample_tables sample_now_soon 5)
    as (factors & Hf & Htrend).
  { intros p [<-|[]]. vm_compute. discriminate. }
  { intros r Hr. eexists. split; [now left|].
    cbn in Hr. decompose [or] Hr; subst; try reflexivity; contradiction. }
  exists factors. split; [exact Hf|].
  vm_compute in Hf. injection Hf as <-. reflexivity.
Defined.

(* ===================================================================== *)
(** ** The risk distribution *)
(* ===================================================================== *)

Section distribution.

Import prediction_repository.

Lemma count_of_absent c groups :
  ~ In c (map fst groups) -> count_of c groups = 0.
Proof.
  induction groups as [|[c1 n1] rest IH]; [reflexivity|].
  cbn [map fst In]. intros H.
  cbn [count_of fold_right fst snd]. fold (count_of c rest).
  destruct (String.eqb_spec c1 c) as [->|_]; [tauto|].
  apply IH. tauto.
Qed.

Lemma lookup_fold_insert (rows : list (string * Z)) (init : gmap string Z) k :
  List.NoDup (map fst rows) ->
  fold_left (fun d row => <[fst row := snd row]> d) rows init !! k
  = if existsb (String.eqb k) (map fst rows)
    then Some (count_of k rows) else init !! k.
Proof.
  revert init. induction rows as [|[c n] rest IH]; intros init Hnd;
    [reflexivity|].
  cbn [map fst] in Hnd. apply List.NoDup_cons_iff in Hnd.
  destruct Hnd as [Hc Hnd].
  cbn [fold_left map fst snd existsb count_of fold_right].
  fold (count_of k rest). rewrite (IH _ Hnd).
  rewrite (String.eqb_sym k c).
  destruct (String.eqb_spec c k) as [->|Hne]; cbn [orb].
  - rewrite (count_of_absent k rest Hc).
    destruct (existsb (String.eqb k) (map fst rest)) eqn:E.
    + apply existsb_eqb_In in E. contradiction.
    + rewrite lookup_insert_eq. f_equal. lia.
  - destruct (existsb (String.eqb k) (map fst rest)); [reflexivity|].
    now rewrite lookup_insert_ne.
Qed.

Lemma distribution_lookup t level :
  get_risk_distribution t !! level
  = if existsb (String.eqb level)
         (map database.risk_level (database.predictions t))
    then Some (count_level level (database.predictions t))
    else (list_to_map [("high", 0); ("medium", 0); ("low", 0)]
            : gmap string Z) !! level.
Proof.
  unfold get_risk_distribution. cbv zeta.
  destruct (group_fold_keys database.risk_level (database.predictions t) [])
    as (Hnd & Hin & Hcount); [constructor|].
  fold (group_by_risk_level (database.predictions t)) in Hnd, Hin, Hcount.
  rewrite (lookup_fold_insert _ _ _ Hnd), (Hcount level).
  change (count_of level []) with 0. rewrite Z.add_0_l.
  fold (count_level level (database.predictions t)).
  assert (E : existsb (String.eqb level)
                (map fst (group_by_risk_level (database.predictions t)))
              = existsb (String.eqb level)
                  (map database.risk_level (database.predictions t))).
  { apply eq_true_iff_eq. rewrite !existsb_eqb_In, Hin.
    cbn [map In]. tauto. }
  now rewrite E.
Qed.

Lemma count_level_absent level rows :
  ~ In level (map database.risk_level rows) -> count_level level rows = 0.
Proof.
  unfold count_level. induction rows as [|p rows IH]; [reflexivity|].
  cbn [map In List.filter]. intros H.
  destruct (String.eqb_spec (database.risk_level p) level); [tauto|].
  apply IH. tauto.
Qed.

Lemma count_level_present level rows :
  In level (map database.risk_level rows) -> 0 < count_level level rows.
Proof.
  unfold count_level. intros H. apply in_map_iff in H.
  destruct H as (p & Hp & Hin).
  assert (H : In p (List.filter
    (fun p => String.eqb (database.risk_level p) level) rows)).
  { apply filter_In. split; [exact Hin|]. rewrite Hp. apply String.eqb_refl. }
  destruct (List.filter _ rows); [contradiction|]. cbn [length]. lia.
Qed.

End distribution.

(** X20: the risk distribution holds, for each of the tiers "high",
    "medium" and "low", the count the dashboard statistics give; every
    other key it holds is a tier in store, with the number of stored
    predictions of that tier, which is at least one. *)
Theorem X20_distribution_agrees_with_dashboard (t : database.Tables) :
  exists stats,
    prediction_repository.get_dashboard_stats t = inr stats /\
    prediction_repository.get_risk_distribution t !! "high"
      = Some (prediction_repository.high_risk_count stats) /\
    prediction_repository.get_risk_distribution t !! "medium"
      = Some (prediction_repository.medium_risk_count stats) /\
    prediction_repository.get_risk_distribution t !! "low"
      = Some (prediction_repository.low_risk_count stats) /\
    forall level n,
      ~ In level ["high"; "medium"; "low"] ->
      (prediction_repository.get_risk_distribution t !! level = Some n
       <-> n = count_level level (database.predictions t) /\ 0 < n).
Proof.
  destruct (dashboard_stats_counts t) as (stats & Hs & _ & Hh & Hm & Hl).
  exists stats. split; [exact Hs|].
  rewrite Hh, Hm, Hl, !distribution_lookup.
  assert (Hknown : forall level, In level ["high"; "medium"; "low"] ->
    (if existsb (String.eqb level)
          (map database.risk_level (database.predictions t))
     then Some (count_level level (database.predictions t))
     else (list_to_map [("high", 0); ("medium", 0); ("low", 0)]
             : gmap string Z) !! level)
    = Some (count_level level (database.predictions t))).
  { intros level Hlevel. destruct (existsb _ _) eqn:E; [reflexivity|].
    assert (E' : ~ In level
      (map database.risk_level (database.predictions t)))
      by (rewrite <- existsb_eqb_In; congruence).
    rewrite (count_level_absent _ _ E').
    cbn [In] in Hlevel. decompose [or] Hlevel; subst; try reflexivity.
    contradiction. }
  split; [apply Hknown; cbn; tauto|].
  split; [apply Hknown; cbn; tauto|].
  split; [apply Hknown; cbn; tauto|].
  intros level n Hother. rewrite distribution_lookup.
  destruct (existsb _ _) eqn:E.
  - apply existsb_eqb_In in E.
    pose proof (count_level_present _ _ E). split.
    + intros [= <-]. split; [reflexivity|assumption].
    + intros [-> _]. reflexivity.
  - assert (E' : ~ In level
      (map database.risk_level (database.predictions t)))
      by (rewrite <- existsb_eqb_In; congruence).
    assert (Hnone : (list_to_map [("high", 0); ("medium", 0); ("low", 0)]
                       : gmap string Z) !! level = None).
    { cbn [In] in Hother. cbn [list_to_map foldr uncurry fst snd].
      rewrite !lookup_insert_ne by (intros E2; tauto).
      apply lookup_empty. }
    rewrite Hnone, (count_level_absent _ _ E'). split; [discriminate|].
    intros [-> H]. lia.
Qed.

(* ===================================================================== *)
(** ** The recent assessments *)
(* ===================================================================== *)

Section recent.

Import prediction_repository.

Lemma insert_recent_perm r sorted :
  Permutation (insert_recent r sorted) (r :: sorted).
Proof.
  induction sorted as [|h rest IH]; cbn [insert_recent]; [reflexivity|].
  destruct (row_created_at h <=? row_created_at r); [reflexivity|].
  rewrite IH. apply perm_swap.
Qed.

Lemma order_recent_perm rows :
  Permutation (fold_right insert_recent [] rows) rows.
Proof.
  induction rows as [|r rest IH]; cbn [fold_right]; [reflexivity|].
  rewrite insert_recent_perm. now constructor.
Qed.

Lemma insert_recent_sorted r sorted :
  recent_first sorted -> recent_first (insert_recent r sorted).
Proof.
  unfold recent_first. induction 1 as [|h rest Hrest IH Hh];
    cbn [insert_recent].
  - repeat constructor.
  - destruct (Z.leb_spec (row_created_at h) (row_created_at r)) as [Hle|Hgt].
    + constructor; [now constructor|].
      constructor; [exact Hle|].
      eapply List.Forall_impl; [|exact Hh]. cbn. intros x Hx. lia.
    + constructor; [exact IH|].
      apply List.Forall_forall. intros x Hx.
      apply (Permutation_in _ (insert_recent_perm r rest)) in Hx.
      destruct Hx as [<-|Hx]; [lia|].
      exact (proj1 (List.Forall_forall _ _) Hh x Hx).
Qed.

Lemma order_recent_sorted rows :
  recent_first (fold_right insert_recent [] rows).
Proof.
  induction rows as [|r rest IH]; cbn [fold_right].
  - constructor.
  - now apply insert_recent_sorted.
Qed.

Lemma firstn_recent_first m rows :
  recent_first rows -> recent_first (firstn m rows).
Proof.
  unfold recent_first. intros H. revert m.
  induction H as [|g rest Hrest IH Hg]; intros [|m]; cbn [firstn];
    try constructor; auto.
  apply List.Forall_forall. intros x Hx. apply firstn_In in Hx.
  exact (proj1 (List.Forall_forall _ _) Hg x Hx).
Qed.

(** What a limit leaves out is no more recent than what it keeps. *)
Lemma firstn_keeps_latest m rows r :
  recent_first rows -> In r rows ->
  In r (firstn m rows) \/
  (length (firstn m rows) = m /\
   Forall (fun kept => row_created_at r <= row_created_at kept)
     (firstn m rows)).
Proof.
  unfold recent_first. intros H. revert m.
  induction H as [|g rest Hrest IH Hg]; intros m Hin; [contradiction|].
  destruct m as [|m]; cbn [firstn].
  - right. split; [reflexivity|constructor].
  - destruct Hin as [->|Hin]; [left; now left|].
    destruct (IH m Hin) as [Hkept|[Hlen Hall]].
    + left. now right.
    + right. cbn [length]. split; [now rewrite Hlen|].
      constructor; [|exact Hall].
      exact (proj1 (List.Forall_forall _ _) Hg r Hin).
Qed.

(** *** The join *)

Lemma join_rows_of_prediction t r :
  In r (outerjoin_assessment_inputs t) ->
  exists p, In p (database.predictions t) /\ row_of p r /\
    match row_academic_year r with
    | Some y => In y (academic_years t (database.id p))
    | None => academic_years t (database.id p) = []
    end.
Proof.
  unfold outerjoin_assessment_inputs, academic_years. intros H.
  apply in_flat_map in H. destruct H as (p & Hp & Hr).
  exists p. split; [exact Hp|].
  destruct (List.filter _ (database.assessment_inputs t)) as [|a inputs].
  - destruct Hr as [<-|[]]. repeat split.
  - apply in_map_iff in Hr. destruct Hr as (a' & <- & Ha').
    split; [repeat split|]. cbn [row_academic_year].
    now apply in_map.
Qed.

Lemma join_covers_predictions t p :
  In p (database.predictions t) ->
  exists r, In r (outerjoin_assessment_inputs t) /\ row_of p r.
Proof.
  unfold outerjoin_assessment_inputs. intros Hp.
  destruct (List.filter
              (fun a => database.ai_prediction_id a =? database.id p)
              (database.assessment_inputs t)) as [|a inputs] eqn:E.
  - eexists. split.
    + apply in_flat_map. exists p. split; [exact Hp|].
      rewrite E. now left.
    + repeat split.
  - eexists. split.
    + apply in_flat_map. exists p. split; [exact Hp|].
      rewrite E. cbn [map]. now left.
    + repeat split.
Qed.

Lemma get_recent_assessments_eq t limit :
  get_recent_assessments t limit = map entry_of (recent_query t limit).
Proof. reflexivity. Qed.

Lemma recent_query_rows t limit :
  recent_first (recent_query t limit) /\
  (forall r, In r (recent_query t limit) ->
     In r (outerjoin_assessment_inputs t)) /\
  (0 <= limit ->
   (length (recent_query t limit) <= Z.to_nat limit)%nat /\
   forall r, In r (outerjoin_assessment_inputs t) ->
     In r (recent_query t limit) \/
     (length (recent_query t limit) = Z.to_nat limit /\
      Forall (fun kept => row_created_at r <= row_created_at kept)
        (recent_query t limit))).
Proof.
  unfold recent_query.
  pose proof (order_recent_sorted (outerjoin_assessment_inputs t)) as Hs.
  pose proof (order_recent_perm (outerjoin_assessment_inputs t)) as Hp.
  split; [|split].
  - unfold sql_limit. destruct (limit <? 0); [exact Hs|].
    now apply firstn_recent_first.
  - intros r Hr. apply sql_limit_In in Hr.
    exact (Permutation_in _ Hp Hr).
  - intros Hlimit. split; [now apply sql_limit_length|].
    intros r Hr. unfold sql_limit.
    destruct (Z.ltb_spec limit 0); [lia|].
    apply firstn_keeps_latest; [exact Hs|].
    apply (Permutation_in _ (Permutation_sym Hp) Hr).
Qed.

(** A prediction for each row, field by field. *)
Lemma rows_have_predictions t rows :
  (forall r, In r rows -> In r (outerjoin_assessment_inputs t)) ->
  exists ps, Forall2 (fun r p => In p (database.predictions t) /\ row_of p r)
               rows ps.
Proof.
  induction rows as [|r rows IH]; intros H.
  - exists []. constructor.
  - destruct IH as (ps & Hps); [intros x Hx; apply H; now right|].
    destruct (join_rows_of_prediction t r) as (p & Hp & Hrow & _);
      [apply H; now left|].
    exists (p :: ps). constructor; [split; assumption|exact Hps].
Qed.

Lemma Forall2_Forall_transfer {A B} (R : A -> B -> Prop)
    (P : A -> Prop) (Q : B -> Prop) l l' :
  (forall a b, R a b -> P a -> Q b) ->
  Forall2 R l l' -> Forall P l -> Forall Q l'.
Proof.
  intros H. induction 1 as [|a b l l' Hab _ IH]; intros HP;
    [constructor|].
  apply List.Forall_cons_iff in HP. destruct HP as [Ha Hl].
  constructor; [now apply (H a b)|now apply IH].
Qed.

Lemma rows_newest_first t rows ps :
  Forall2 (fun r p => In p (database.predictions t) /\ row_of p r) rows ps ->
  recent_first rows -> newest_first ps.
Proof.
  unfold recent_first, newest_first.
  induction 1 as [|r p rows ps (_ & _ & Hc & _) Hrest IH]; intros Hs;
    [constructor|].
  apply StronglySorted_inv in Hs. destruct Hs as [Hs Hr].
  constructor; [now apply IH|].
  refine (Forall2_Forall_transfer _ _ _ _ _ _ Hrest Hr).
  cbn beta. intros r' q (_ & _ & Hc' & _) Hle. lia.
Qed.

End recent.

(** X21: under a limit that is not negative, the recent assessments are
    at most [limit] entries; they describe stored predictions, the
    latest created first; and a stored prediction that is not listed
    was created no later than every one that is, the list being
    full. *)
Theorem X21_recent_assessments_newest_first (t : database.Tables)
    (limit : Z) :
  0 <= limit ->
  exists ps,
    Forall2 (fun e p => In p (database.predictions t) /\ describes e p)
      (prediction_repository.get_recent_assessments t limit) ps /\
    newest_first ps /\
    (length ps <= Z.to_nat limit)%nat /\
    forall p, In p (database.predictions t) ->
      In (database.id p)
         (map prediction_repository.as_id
            (prediction_repository.get_recent_assessments t limit)) \/
      (length ps = Z.to_nat limit /\
       Forall (fun q => database.created_at p <= database.created_at q) ps).
Proof.
  intros Hlimit. rewrite get_recent_assessments_eq.
  destruct (recent_query_rows t limit) as (Hsorted & Hin & Hfull).
  destruct (Hfull Hlimit) as (Hlen & Hlatest). clear Hfull.
  destruct (rows_have_predictions t _ Hin) as (ps & Hps).
  assert (Hlength := Hps). apply Forall2_length in Hlength.
  exists ps. split; [|split; [|split]].
  - clear -Hps. induction Hps as [|r p rows ps (Hp & Hid & Hc & Hl) _ IH];
      cbn [map]; constructor; [|exact IH].
    split; [exact Hp|]. unfold describes, entry_of.
    cbn [prediction_repository.as_id prediction_repository.as_name
         prediction_repository.as_date prediction_repository.as_time
         prediction_repository.as_risk].
    rewrite Hid, Hc, Hl. repeat split.
  - exact (rows_newest_first t _ _ Hps Hsorted).
  - rewrite <- Hlength. exact Hlen.
  - intros p Hp. destruct (join_covers_predictions t p Hp)
      as (r & Hr & Hid & Hc & _).
    destruct (Hlatest r Hr) as [Hkept|[Hn Hall]].
    + left. rewrite map_map. cbn [entry_of prediction_repository.as_id].
      rewrite <- Hid. now apply in_map.
    + right. split; [now rewrite <- Hlength|].
      refine (Forall2_Forall_transfer _ _ _ _ _ _ Hps Hall).
      cbn beta. intros r' q (_ & _ & Hc' & _) Hle. lia.
Qed.

Lemma X21_recent_assessments_newest_first_witness :
  map (fun e => (prediction_repository.as_id e,
                 prediction_repository.as_date e,
                 prediction_repository.as_time e))
    (prediction_repository.get_recent_assessments history_tables 2)
  = [(2, "Wed, 29 Nov", "11:20 PM"); (3, "Thu, 23 Nov", "12:40 AM")] /\
  exists ps,
    Forall2 (fun e p => In p (database.predictions history_tables)
                        /\ describes e p)
      (prediction_repository.get_recent_assessments history_tables 2) ps /\
    newest_first ps /\ (length ps <= 2)%nat.
Proof.
  split; [vm_compute; reflexivity|].
  destruct (X21_recent_assessments_newest_first history_tables 2)
    as (ps & Hps & Hnew & Hlen & _); [lia|].
  exists ps. split; [exact Hps|]. split; [exact Hnew|exact Hlen].
Defined.

(** X22: an entry of the recent assessments is labelled
    "Year N/A Review" when no assessment input belongs to its
    prediction, as for a prediction of the raw endpoint, and else by the
    academic year of one of its assessment inputs, an empty year
    reading N/A. *)
Theorem X22_recent_assessment_labels (t : database.Tables) (limit : Z) :
  Forall (fun e =>
    (academic_years t (prediction_repository.as_id e) = [] /\
     prediction_repository.as_type e = "Year N/A Review") \/
    (exists y,
       In y (academic_years t (prediction_repository.as_id e)) /\
       prediction_repository.as_type e = year_label y))
    (prediction_repository.get_recent_assessments t limit).
Proof.
  rewrite get_recent_assessments_eq.
  destruct (recent_query_rows t limit) as (_ & Hin & _).
  apply List.Forall_forall. intros e He. apply in_map_iff in He.
  destruct He as (r & <- & Hr).
  destruct (join_rows_of_prediction t r (Hin r Hr))
    as (p & _ & (Hid & _) & Hyear).
  cbn [entry_of prediction_repository.as_id prediction_repository.as_type].
  rewrite Hid.
  destruct (prediction_repository.row_academic_year r) as [y|].
  - right. exists y. split; [exact Hyear|reflexivity].
  - left. split; [exact Hyear|reflexivity].
Qed.

(* ===================================================================== *)
(** ** The risk trends *)
(* ===================================================================== *)

Section risk_trends.

Import prediction_repository.

(** *** The loop over the rows *)

Lemma get_set_count l l' c d :
  get_count l (set_count l' c d)
  = if same_slot l l' then c else get_count l d.
Proof.
  unfold get_count, set_count, same_slot.
  destruct (String.eqb_spec l "high") as [Hh|Hh],
           (String.eqb_spec l "medium") as [Hm|Hm],
           (String.eqb_spec l' "high") as [Hh'|Hh'],
           (String.eqb_spec l' "medium") as [Hm'|Hm'];
    try reflexivity; congruence.
Qed.

Lemma week_set_count l c d : week (set_count l c d) = week d.
Proof.
  unfold set_count.
  destruct (String.eqb l "high"), (String.eqb l "medium"); reflexivity.
Qed.

Lemma lookup_update_week key key' l c wd :
  lookup_week key' (update_week key l c wd)
  = if String.eqb key key'
    then Some (set_count l c
                 (default {| week := key; high_risk := 0;
                             medium_risk := 0; low_risk := 0 |}
                    (lookup_week key wd)))
    else lookup_week key' wd.
Proof.
  unfold lookup_week.
  induction wd as [|[k d] rest IH]; cbn [update_week List.find fst].
  - destruct (String.eqb key key'); reflexivity.
  - destruct (String.eqb_spec k key) as [->|Hk];
      cbn [List.find fst option_map snd default].
    + destruct (String.eqb key key'); reflexivity.
    + destruct (String.eqb_spec k key') as [->|Hk'].
      * destruct (String.eqb_spec key key') as [->|_];
          [contradiction|reflexivity].
      * exact IH.
Qed.

Lemma keys_update_week key l c wd :
  map fst (update_week key l c wd)
  = if existsb (String.eqb key) (map fst wd)
    then map fst wd else map fst wd ++ [key].
Proof.
  induction wd as [|[k d] rest IH]; [reflexivity|].
  cbn [update_week map fst existsb]. rewrite (String.eqb_sym key k).
  destruct (String.eqb k key); cbn [orb map fst]; [reflexivity|].
  rewrite IH. destruct (existsb _ _); reflexivity.
Qed.

Lemma weeks_update_week key l c wd :
  Forall (fun kd => week (snd kd) = fst kd) wd ->
  Forall (fun kd => week (snd kd) = fst kd) (update_week key l c wd).
Proof.
  induction 1 as [|[k d] rest Hd Hrest IH]; cbn [update_week].
  - constructor; [|constructor]. cbn [fst snd]. now rewrite week_set_count.
  - cbn [fst snd] in Hd.
    destruct (String.eqb k key); constructor; try assumption.
    cbn [fst snd]. now rewrite week_set_count.
Qed.

Lemma NoDup_snoc {A} (l : list A) x :
  List.NoDup l -> ~ In x l -> List.NoDup (l ++ [x]).
Proof.
  intros H Hx. apply List.NoDup_rev in H.
  rewrite <- (rev_involutive (l ++ [x])). apply List.NoDup_rev.
  rewrite rev_app_distr. cbn [rev app]. constructor; [|exact H].
  now rewrite <- in_rev.
Qed.

Lemma trends_loop_keys rows wd :
  List.NoDup (map fst wd) ->
  Forall (fun kd => week (snd kd) = fst kd) wd ->
  List.NoDup (map fst (trends_loop rows wd)) /\
  Forall (fun kd => week (snd kd) = fst kd) (trends_loop rows wd) /\
  forall key, In key (map fst (trends_loop rows wd))
              <-> In key (map fst wd) \/ In key (map week_key_of rows).
Proof.
  revert wd. induction rows as [|r rows IH]; intros wd Hnd Hw.
  - cbn [trends_loop fold_left map In]. repeat split; auto; tauto.
  - cbn [trends_loop fold_left].
    fold (trends_loop rows
            (update_week (week_key_of r) (tr_risk_level r) (tr_count r) wd)).
    assert (Hkeys := keys_update_week (week_key_of r) (tr_risk_level r)
                       (tr_count r) wd).
    destruct (IH (update_week (week_key_of r) (tr_risk_level r)
                    (tr_count r) wd)) as (Hnd' & Hw' & Hin').
    + rewrite Hkeys. destruct (existsb _ _) eqn:E; [exact Hnd|].
      apply NoDup_snoc; [exact Hnd|].
      rewrite <- existsb_eqb_In. congruence.
    + now apply weeks_update_week.
    + split; [exact Hnd'|]. split; [exact Hw'|].
      intros key. rewrite Hin', Hkeys. cbn [map In].
      destruct (existsb _ _) eqn:E.
      * apply existsb_eqb_In in E. intuition (subst; auto).
      * rewrite in_app_iff. cbn [In]. intuition.
Qed.

Lemma trends_loop_written key level rows wd :
  option_map (get_count level) (lookup_week key (trends_loop rows wd))
  = written key level rows
      (option_map (get_count level) (lookup_week key wd)).
Proof.
  revert wd. induction rows as [|r rows IH]; intros wd; [reflexivity|].
  cbn [trends_loop written fold_left].
  fold (trends_loop rows
          (update_week (week_key_of r) (tr_risk_level r) (tr_count r) wd)).
  rewrite IH, lookup_update_week. unfold written. f_equal.
  destruct (String.eqb_spec (week_key_of r) key) as [<-|_]; [|reflexivity].
  cbn [option_map]. rewrite get_set_count. f_equal.
  destruct (same_slot level (tr_risk_level r)); [reflexivity|].
  destruct (lookup_week (week_key_of r) wd) as [d|]; cbn [default option_map];
    [reflexivity|].
  unfold get_count. cbn [high_risk medium_risk low_risk].
  destruct (String.eqb level "high"), (String.eqb level "medium");
    reflexivity.
Qed.

Lemma written_cons key level r rows v :
  written key level (r :: rows) v
  = written key level rows
      (if String.eqb (week_key_of r) key
       then Some (if same_slot level (tr_risk_level r)
                  then tr_count r else default 0 v)
       else v).
Proof. reflexivity. Qed.

Lemma weigh_cons sel g groups :
  weigh sel (g :: groups)
  = (if sel (snd (week_num g)) (tr_risk_level g) then tr_count g else 0)
    + weigh sel groups.
Proof. reflexivity. Qed.

Lemma weigh_none sel rows :
  existsb (fun r => sel (snd (week_num r)) (tr_risk_level r)) rows = false ->
  weigh sel rows = 0.
Proof.
  induction rows as [|x rows IH]; [reflexivity|].
  cbn [existsb]. intros H. apply orb_false_elim in H.
  destruct H as [Hx Hrows]. rewrite weigh_cons, Hx, (IH Hrows). reflexivity.
Qed.

(** What is written where at most one row writes. *)
Lemma written_unique key level rows v :
  let m r := String.eqb ("W" ++ snd (week_num r)) key
             && same_slot level (tr_risk_level r) in
  (length (List.filter m rows) <= 1)%nat ->
  default 0 (written key level rows v)
  = if existsb m rows
    then weigh (fun w l => String.eqb ("W" ++ w) key && same_slot level l)
           rows
    else default 0 v.
Proof.
  cbv zeta. revert v. induction rows as [|r rows IH]; intros v Hone;
    [reflexivity|].
  rewrite written_cons, weigh_cons. cbn [existsb List.filter] in *.
  change ("W" ++ snd (week_num r))%string with (week_key_of r) in *.
  destruct (String.eqb (week_key_of r) key) eqn:Ek; cbn [andb] in *.
  - destruct (same_slot level (tr_risk_level r)) eqn:Es; cbn [orb].
    + cbn [length] in Hone.
      assert (Hnone : List.filter
        (fun r => String.eqb ("W" ++ snd (week_num r)) key
                  && same_slot level (tr_risk_level r)) rows = [])
        by (destruct (List.filter _ rows); [reflexivity|cbn in Hone; lia]).
      rewrite IH by (rewrite Hnone; cbn; lia).
      assert (Hex : existsb
        (fun r => String.eqb ("W" ++ snd (week_num r)) key
                  && same_slot level (tr_risk_level r)) rows = false).
      { apply not_true_is_false. intros Hex. apply existsb_exists in Hex.
        destruct Hex as (x & Hx & Hm).
        assert (Hin : In x (List.filter
          (fun r => String.eqb ("W" ++ snd (week_num r)) key
                    && same_slot level (tr_risk_level r)) rows))
          by (apply filter_In; auto).
        rewrite Hnone in Hin. contradiction. }
      rewrite Hex. cbn [default].
      rewrite (weigh_none
        (fun w l => String.eqb ("W" ++ w) key && same_slot level l)
        rows Hex).
      unfold id. lia.
    + rewrite IH by exact Hone. cbn [default]. unfold id.
      destruct (existsb _ rows); [lia|reflexivity].
  - cbn [orb]. rewrite IH by exact Hone.
    destruct (existsb _ rows); [lia|reflexivity].
Qed.

Lemma filter_unique {A B} (f : A -> B) (m : A -> bool) rows :
  List.NoDup (map f rows) ->
  (forall r r', In r rows -> In r' rows ->
     m r = true -> m r' = true -> f r = f r') ->
  (length (List.filter m rows) <= 1)%nat.
Proof.
  induction rows as [|r rows IH]; intros Hnd Hsame; [cbn; lia|].
  cbn [map] in Hnd. apply List.NoDup_cons_iff in Hnd.
  destruct Hnd as [Hr Hnd]. cbn [List.filter].
  assert (IH' : (length (List.filter m rows) <= 1)%nat).
  { apply IH; [exact Hnd|]. intros x y Hx Hy. apply Hsame; now right. }
  destruct (m r) eqn:Em; [|exact IH'].
  destruct (List.filter m rows) as [|x rest] eqn:E; [cbn; lia|].
  exfalso. apply Hr.
  assert (Hx : In x (List.filter m rows)) by (rewrite E; now left).
  apply filter_In in Hx. destruct Hx as [Hx Hmx].
  rewrite (Hsame r x); [now apply in_map|now left|now right|exact Em|exact Hmx].
Qed.

Lemma lookup_week_In key d wd :
  List.NoDup (map fst wd) -> In (key, d) wd ->
  lookup_week key wd = Some d.
Proof.
  unfold lookup_week. induction wd as [|[k d'] rest IH]; [contradiction|].
  cbn [map fst]. intros Hnd Hin. apply List.NoDup_cons_iff in Hnd.
  destruct Hnd as [Hk Hnd]. cbn [List.find fst].
  destruct Hin as [E|Hin].
  - injection E as -> ->. now rewrite String.eqb_refl.
  - destruct (String.eqb_spec k key) as [->|_]; [|now apply IH].
    exfalso. apply Hk. apply in_map_iff. exists (key, d). auto.
Qed.

(** *** The rows of the query *)

Lemma append_inj (y a b : string) :
  (y ++ a)%string = (y ++ b)%string -> a = b.
Proof.
  induction y as [|c y IH]; cbn; [auto|]. intros [= H]. auto.
Qed.

Lemma week_num_text_eqb w w' :
  fst w = fst w' ->
  String.eqb (week_num_text w) (week_num_text w')
  = String.eqb (snd w) (snd w').
Proof.
  intros Hy. unfold week_num_text. rewrite Hy.
  apply eq_true_iff_eq. rewrite !String.eqb_eq. split.
  - intros E. apply append_inj in E. now injection E.
  - now intros ->.
Qed.

Lemma bump_trend_Forall (P : string * string -> string -> Prop) w l groups :
  P w l -> Forall (fun g => P (week_num g) (tr_risk_level g)) groups ->
  Forall (fun g => P (week_num g) (tr_risk_level g)) (bump_trend w l groups).
Proof.
  intros Hw. induction 1 as [|g rest Hg Hrest IH]; cbn [bump_trend].
  - repeat constructor. exact Hw.
  - destruct (_ && _); constructor; auto.
Qed.

Lemma bump_trend_keys y w l groups :
  fst w = y -> Forall (fun g => fst (week_num g) = y) groups ->
  map trend_key (bump_trend w l groups)
  = if existsb (fun k => String.eqb (fst k) (snd w) && String.eqb (snd k) l)
         (map trend_key groups)
    then map trend_key groups
    else map trend_key groups ++ [(snd w, l)].
Proof.
  intros Hw. induction 1 as [|g rest Hg Hrest IH]; [reflexivity|].
  cbn [bump_trend map existsb].
  rewrite week_num_text_eqb by congruence.
  change (fst (trend_key g)) with (snd (week_num g)).
  change (snd (trend_key g)) with (tr_risk_level g).
  destruct (_ && _); cbn [orb map]; [reflexivity|].
  rewrite IH. destruct (existsb _ _); reflexivity.
Qed.

Lemma bump_trend_weigh sel y w l groups :
  fst w = y -> Forall (fun g => fst (week_num g) = y) groups ->
  weigh sel (bump_trend w l groups)
  = weigh sel groups + (if sel (snd w) l then 1 else 0).
Proof.
  intros Hw. induction 1 as [|g rest Hg Hrest IH]; cbn [bump_trend].
  - rewrite weigh_cons. cbn [week_num tr_risk_level tr_count].
    change (weigh sel []) with 0. destruct (sel (snd w) l); lia.
  - rewrite week_num_text_eqb by congruence.
    destruct (String.eqb_spec (snd (week_num g)) (snd w)) as [Ew|_];
      cbn [andb].
    + destruct (String.eqb_spec (tr_risk_level g) l) as [El|_].
      * rewrite !weigh_cons. cbn [week_num tr_risk_level tr_count].
        rewrite Ew, El. destruct (sel (snd w) l); lia.
      * rewrite !weigh_cons, IH. lia.
    + rewrite !weigh_cons, IH. lia.
Qed.

Lemma pair_eqb_In (k : string * string) keys :
  existsb (fun k' => String.eqb (fst k') (fst k)
                     && String.eqb (snd k') (snd k)) keys = true
  <-> In k keys.
Proof.
  rewrite existsb_exists. split.
  - intros ([a b] & Hin & E). apply andb_prop in E. destruct E as [E1 E2].
    apply String.eqb_eq in E1, E2. cbn [fst snd] in *. destruct k.
    cbn [fst snd] in *. now subst.
  - intros H. exists k. split; [exact H|].
    now rewrite !String.eqb_refl.
Qed.

(** The groups of predictions of one year. *)
Lemma grouped_trends y (rows : list database.Prediction) acc :
  Forall (fun p => year_text p = y) rows ->
  Forall (fun g => fst (week_num g) = y) acc ->
  List.NoDup (map trend_key acc) ->
  let groups := fold_left
    (fun groups p =>
       bump_trend (strftime_Y_W (database.created_at p))
         (database.risk_level p) groups) rows acc in
  Forall (fun g => fst (week_num g) = y) groups /\
  List.NoDup (map trend_key groups) /\
  forall sel, weigh sel groups = weigh sel acc + tally sel rows.
Proof.
  cbv zeta. intros Hrows. revert acc.
  induction Hrows as [|p rows Hp _ IH]; intros acc Hacc Hnd.
  - cbn [fold_left]. repeat split; auto. intros sel. unfold tally. cbn. lia.
  - cbn [fold_left].
    destruct (IH (bump_trend (strftime_Y_W (database.created_at p))
                    (database.risk_level p) acc)) as (Hy & Hnd' & Hw).
    + now apply (bump_trend_Forall (fun w _ => fst w = y)).
    + rewrite (bump_trend_keys y) by assumption.
      destruct (existsb _ _) eqn:E; [exact Hnd|].
      apply NoDup_snoc; [exact Hnd|].
      intros Hin.
      apply (pair_eqb_In
               (snd (strftime_Y_W (database.created_at p)),
                database.risk_level p)) in Hin.
      cbn [fst snd] in Hin. congruence.
    + split; [exact Hy|]. split; [exact Hnd'|].
      intros sel. rewrite Hw, (bump_trend_weigh sel y) by assumption.
      unfold tally. cbn [List.filter].
      destruct (sel _ _); cbn [length]; lia.
Qed.

(** Every group carries the week and the tier of one of the
    predictions. *)
Lemma grouped_trends_origin (rows all : list database.Prediction) acc :
  (forall p, In p rows -> In p all) ->
  Forall (fun g => exists p, In p all /\
            week_num g = strftime_Y_W (database.created_at p) /\
            tr_risk_level g = database.risk_level p) acc ->
  Forall (fun g => exists p, In p all /\
            week_num g = strftime_Y_W (database.created_at p) /\
            tr_risk_level g = database.risk_level p)
    (fold_left
       (fun groups p =>
          bump_trend (strftime_Y_W (database.created_at p))
            (database.risk_level p) groups) rows acc).
Proof.
  revert acc. induction rows as [|p rows IH]; intros acc Hall Hacc;
    [exact Hacc|].
  cbn [fold_left]. apply IH; [intros q Hq; apply Hall; now right|].
  apply (bump_trend_Forall
           (fun w l => exists p, In p all /\
                         w = strftime_Y_W (database.created_at p) /\
                         l = database.risk_level p));
    [|exact Hacc].
  exists p. split; [apply Hall; now left|split; reflexivity].
Qed.

Lemma insert_week_perm g sorted :
  Permutation (insert_week g sorted) (g :: sorted).
Proof.
  induction sorted as [|h rest IH]; cbn [insert_week]; [reflexivity|].
  destruct (String.ltb _ _); [reflexivity|].
  rewrite IH. apply perm_swap.
Qed.

Lemma order_by_week_perm groups :
  Permutation (fold_right insert_week [] groups) groups.
Proof.
  induction groups as [|g rest IH]; cbn [fold_right]; [reflexivity|].
  rewrite insert_week_perm. now constructor.
Qed.

Lemma weigh_perm sel groups groups' :
  Permutation groups groups' -> weigh sel groups = weigh sel groups'.
Proof.
  induction 1; rewrite ?weigh_cons; try lia; congruence.
Qed.

Lemma trends_query_rows t start_date :
  exists groups,
    groups = fold_left
      (fun groups p =>
         bump_trend (strftime_Y_W (database.created_at p))
           (database.risk_level p) groups)
      (in_window t start_date) [] /\
    Permutation (trends_query t start_date) groups /\
    Forall (fun g => exists p, In p (in_window t start_date) /\
              week_num g = strftime_Y_W (database.created_at p) /\
              tr_risk_level g = database.risk_level p)
      (trends_query t start_date).
Proof.
  eexists. split; [reflexivity|].
  assert (Hperm : Permutation (trends_query t start_date)
    (fold_left
      (fun groups p =>
         bump_trend (strftime_Y_W (database.created_at p))
           (database.risk_level p) groups)
      (in_window t start_date) [])) by apply order_by_week_perm.
  split; [exact Hperm|].
  apply List.Forall_forall. intros g Hg.
  apply (Permutation_in _ Hperm) in Hg. revert g Hg.
  apply List.Forall_forall.
  apply grouped_trends_origin; [auto|constructor].
Qed.

Lemma get_risk_trends_eq t now weeks :
  get_risk_trends t now weeks
  = map snd (trends_loop (trends_query t (now - timedelta_weeks weeks)) []).
Proof. reflexivity. Qed.

Lemma weeks_of_points (wd : list (string * trend_point)) :
  Forall (fun kd => week (snd kd) = fst kd) wd ->
  map week (map snd wd) = map fst wd.
Proof.
  induction 1 as [|kd wd H _ IH]; [reflexivity|].
  cbn [map]. now rewrite H, IH.
Qed.

Lemma same_slot_known level l :
  known_tier level -> known_tier l ->
  same_slot level l = String.eqb l level.
Proof.
  intros [-> | [-> | ->]] [-> | [-> | ->]]; reflexivity.
Qed.

Lemma week_key_inj a b : ("W" ++ a)%string = ("W" ++ b)%string -> a = b.
Proof. now intros [= H]. Qed.

(** The field of a tier of a point holds the number of the predictions
    of the week and the tier, when the rows are of one year and of
    known tiers. *)
Lemma point_count t start_date key d level :
  (forall p q, In p (in_window t start_date) ->
     In q (in_window t start_date) -> year_text p = year_text q) ->
  (forall p, In p (in_window t start_date) ->
     known_tier (database.risk_level p)) ->
  known_tier level ->
  In (key, d) (trends_loop (trends_query t start_date) []) ->
  get_count level d = tally_week (in_window t start_date) key level.
Proof.
  intros Hyear Htier Hlevel Hin.
  destruct (trends_query_rows t start_date) as (groups & Hg & Hperm & Horigin).
  destruct (trends_loop_keys (trends_query t start_date) [])
    as (Hnd & _ & _); [constructor|constructor|].
  pose proof (lookup_week_In key d _ Hnd Hin) as Hlookup.
  pose proof (trends_loop_written key level (trends_query t start_date) [])
    as Hw.
  rewrite Hlookup in Hw. cbn [option_map lookup_week List.find] in Hw.
  assert (Hgroups :
    List.NoDup (map trend_key groups) /\
    forall sel, weigh sel groups = tally sel (in_window t start_date)).
  { destruct (in_window t start_date) as [|p0 window] eqn:E.
    - subst groups. split; [constructor|]. intros sel. reflexivity.
    - destruct (grouped_trends (year_text p0) (p0 :: window) [])
        as (_ & Hnd' & Hweigh).
      + apply List.Forall_forall. intros p Hp. apply Hyear; [exact Hp|].
        now left.
      + constructor.
      + constructor.
      + rewrite <- Hg in Hnd', Hweigh. split; [exact Hnd'|].
        intros sel. rewrite (Hweigh sel). change (weigh sel []) with 0. lia. }
  destruct Hgroups as (Hnd' & Hweigh).
  assert (Hone : (length (List.filter
    (fun r => String.eqb ("W" ++ snd (week_num r)) key
              && same_slot level (tr_risk_level r))
    (trends_query t start_date)) <= 1)%nat).
  { apply (filter_unique trend_key).
    - eapply Permutation_NoDup; [|exact Hnd'].
      apply Permutation_map. now symmetry.
    - intros r r' Hr Hr' Hm Hm'.
      apply andb_prop in Hm, Hm'. destruct Hm as [Hk Hs], Hm' as [Hk' Hs'].
      apply String.eqb_eq in Hk, Hk'.
      destruct (proj1 (List.Forall_forall _ _) Horigin r Hr)
        as (p & Hp & _ & Hl).
      destruct (proj1 (List.Forall_forall _ _) Horigin r' Hr')
        as (p' & Hp' & _ & Hl').
      rewrite same_slot_known in Hs, Hs'
        by (try exact Hlevel; rewrite ?Hl, ?Hl'; now apply Htier).
      apply String.eqb_eq in Hs, Hs'.
      unfold trend_key. f_equal; [|congruence].
      apply week_key_inj. congruence. }
  pose proof (written_unique key level (trends_query t start_date) None Hone)
    as Hval.
  cbv zeta in Hval. rewrite <- Hw in Hval. cbn [default] in Hval.
  unfold id in Hval. rewrite Hval. clear Hval Hw.
  assert (Hsum : weigh
    (fun w l => String.eqb ("W" ++ w) key && same_slot level l)
    (trends_query t start_date)
    = tally_week (in_window t start_date) key level).
  { rewrite (weigh_perm _ _ _ Hperm), Hweigh.
    unfold tally, tally_week. do 2 f_equal.
    apply filter_ext_in. intros p Hp.
    change ("W" ++ snd (strftime_Y_W (database.created_at p)))%string
      with (week_label p).
    now rewrite same_slot_known by (try exact Hlevel; now apply Htier). }
  destruct (existsb _ _) eqn:E; [exact Hsum|].
  rewrite <- Hsum. symmetry.
  exact (weigh_none
    (fun w l => String.eqb ("W" ++ w) key && same_slot level l) _ E).
Qed.

Lemma window_weeks_present t start_date p :
  (forall p q, In p (in_window t start_date) ->
     In q (in_window t start_date) -> year_text p = year_text q) ->
  In p (in_window t start_date) ->
  In (week_label p) (map week_key_of (trends_query t start_date)).
Proof.
  intros Hyear Hp.
  destruct (trends_query_rows t start_date) as (groups & Hg & Hperm & _).
  destruct (grouped_trends (year_text p) (in_window t start_date) [])
    as (_ & _ & Hweigh).
  { apply List.Forall_forall. intros q Hq. now apply Hyear. }
  { constructor. }
  { constructor. }
  rewrite <- Hg in Hweigh.
  set (sel := fun (w l : string) =>
    String.eqb w (snd (strftime_Y_W (database.created_at p)))).
  assert (Hpos : 0 < weigh sel (trends_query t start_date)).
  { rewrite (weigh_perm _ _ _ Hperm), (Hweigh sel).
    change (weigh sel []) with 0. unfold tally.
    assert (Hin : In p (List.filter
      (fun p0 => sel (snd (strftime_Y_W (database.created_at p0)))
                     (database.risk_level p0))
      (in_window t start_date))).
    { apply filter_In. split; [exact Hp|]. apply String.eqb_refl. }
    destruct (List.filter _ _); [contradiction|]. cbn [length]. lia. }
  destruct (existsb (fun r => sel (snd (week_num r)) (tr_risk_level r))
              (trends_query t start_date)) eqn:E.
  - apply existsb_exists in E. destruct E as (r & Hr & Hsel).
    apply String.eqb_eq in Hsel. apply in_map_iff. exists r.
    split; [|exact Hr]. unfold week_key_of, week_label. now rewrite Hsel.
  - rewrite (weigh_none sel _ E) in Hpos. lia.
Qed.

End risk_trends.

(** X23: the points of the risk trends carry pairwise different week
    labels, and each label is that of the week of a prediction created
    in the weeks asked for; with no such prediction there is no point. *)
Theorem X23_trends_weeks (t : database.Tables) (now weeks : Z) :
  List.NoDup
    (map prediction_repository.week
       (prediction_repository.get_risk_trends t now weeks)) /\
  Forall (fun d =>
    exists p,
      In p (in_window t (now - prediction_repository.timedelta_weeks weeks))
      /\ prediction_repository.week d = week_label p)
    (prediction_repository.get_risk_trends t now weeks).
Proof.
  rewrite get_risk_trends_eq.
  set (start_date := now - prediction_repository.timedelta_weeks weeks).
  destruct (trends_loop_keys
              (prediction_repository.trends_query t start_date) [])
    as (Hnd & Hweek & Hkeys); [constructor|constructor|].
  rewrite (weeks_of_points _ Hweek). split; [exact Hnd|].
  destruct (trends_query_rows t start_date) as (_ & _ & _ & Horigin).
  apply List.Forall_forall. intros d Hd.
  assert (Hk : In (prediction_repository.week d)
    (map prediction_repository.week
       (map snd (trends_loop
          (prediction_repository.trends_query t start_date) []))))
    by now apply in_map.
  rewrite (weeks_of_points _ Hweek) in Hk. apply Hkeys in Hk.
  destruct Hk as [[]|Hk]. apply in_map_iff in Hk.
  destruct Hk as (r & Hr & Hin).
  destruct (proj1 (List.Forall_forall _ _) Horigin r Hin) as (p & Hp & Hw & _).
  exists p. split; [exact Hp|].
  rewrite <- Hr. unfold prediction_repository.week_key_of, week_label.
  now rewrite Hw.
Qed.

(** X24: when the predictions created in the weeks asked for are all of
    one year and of the tiers "high", "medium" and "low", each point of
    the risk trends holds, tier by tier, the number of those predictions
    of its week, and every week of such a prediction has its point. *)
Theorem X24_trends_counts (t : database.Tables) (now weeks : Z) :
  (forall p q,
     In p (in_window t (now - prediction_repository.timedelta_weeks weeks)) ->
     In q (in_window t (now - prediction_repository.timedelta_weeks weeks)) ->
     year_text p = year_text q) ->
  (forall p,
     In p (in_window t (now - prediction_repository.timedelta_weeks weeks)) ->
     known_tier (database.risk_level p)) ->
  Forall (fun d =>
    forall level, known_tier level ->
      get_count level d
      = tally_week
          (in_window t (now - prediction_repository.timedelta_weeks weeks))
          (prediction_repository.week d) level)
    (prediction_repository.get_risk_trends t now weeks) /\
  forall p,
    In p (in_window t (now - prediction_repository.timedelta_weeks weeks)) ->
    In (week_label p)
       (map prediction_repository.week
          (prediction_repository.get_risk_trends t now weeks)).
Proof.
  intros Hyear Htier. rewrite get_risk_trends_eq.
  set (start_date := now - prediction_repository.timedelta_weeks weeks) in *.
  destruct (trends_loop_keys
              (prediction_repository.trends_query t start_date) [])
    as (Hnd & Hweek & Hkeys); [constructor|constructor|].
  split.
  - apply List.Forall_forall. intros d Hd level Hlevel.
    apply in_map_iff in Hd. destruct Hd as ([k d'] & Hd & Hin).
    cbn [snd] in Hd. subst d'.
    pose proof (proj1 (List.Forall_forall _ _) Hweek _ Hin) as Hk.
    cbn [fst snd] in Hk. rewrite Hk.
    exact (point_count t start_date k d level Hyear Htier Hlevel Hin).
  - intros p Hp. rewrite (weeks_of_points _ Hweek). apply Hkeys. right.
    now apply window_weeks_present.
Qed.

Lemma X24_trends_counts_witness :
  prediction_repository.get_risk_trends history_tables 1701400000 8
  = [ {| prediction_repository.week := "W46";
         prediction_repository.high_risk := 1;
         prediction_repository.medium_risk := 0;
         prediction_repository.low_risk := 0 |};
      {| prediction_repository.week := "W47";
         prediction_repository.high_risk := 1;
         prediction_repository.medium_risk := 0;
         prediction_repository.low_risk := 0 |};
      {| prediction_repository.week := "W48";
         prediction_repository.high_risk := 0;
         prediction_repository.medium_risk := 0;
         prediction_repository.low_risk := 1 |} ] /\
  Forall (fun d =>
    forall level, known_tier level ->
      get_count level d
      = tally_week
          (in_window history_tables
             (1701400000 - prediction_repository.timedelta_weeks 8))
          (prediction_repository.week d) level)
    (prediction_repository.get_risk_trends history_tables 1701400000 8).
Proof.
  split; [vm_compute; reflexivity|].
  assert (Hwindow :
    in_window history_tables
      (1701400000 - prediction_repository.timedelta_weeks 8)
    = database.predictions history_tables) by reflexivity.
  destruct (X24_trends_counts history_tables 1701400000 8) as [H _];
    [| |exact H]; rewrite Hwindow.
  - assert (Hy : forall p, In p (database.predictions history_tables) ->
                   year_text p = "2023").
    { intros p [<-|[<-|[<-|[]]]]; vm_compute; reflexivity. }
    intros p q Hp Hq. now rewrite (Hy p Hp), (Hy q Hq).
  - intros p [<-|[<-|[<-|[]]]]; unfold known_tier; cbn; auto.
Defined.

(* ===================================================================== *)
(** ** The admin endpoints *)
(* ===================================================================== *)

Section admin_endpoints.

Lemma run_db_execute c t fs out now :
  admin.db_execute (reading_world c t fs out now)
  = match fs with
    | Some msg :: rest =>
        (inl (SQLAlchemyError msg), reading_world c t rest out now)
    | _ => (inr t, reading_world c t (tl fs) out now)
    end.
Proof. destruct fs as [|[msg|] fs]; reflexivity. Qed.

Lemma run_db_execute_fault (w : World) msg :
  hd None (database.faults (db w)) = Some msg ->
  exists w', admin.db_execute w = (inl (SQLAlchemyError msg), w') /\
             stdout w' = stdout w.
Proof.
  destruct w as [[c wk p fs] out now]. cbn [db database.faults].
  destruct fs as [|[msg'|] fs]; cbn [hd]; try discriminate.
  intros [= ->]. eexists. split; reflexivity.
Qed.

Lemma first_fault_None n fs :
  first_fault n fs = None <-> Forall (fun o => o = None) (firstn n fs).
Proof.
  revert fs. induction n as [|n IH]; intros fs; cbn [first_fault firstn].
  - split; [constructor|reflexivity].
  - destruct fs as [|[msg|] fs]; cbn [tl].
    + split; [constructor|]. intros _. apply IH. destruct n; constructor.
    + split; [discriminate|]. intros H. inversion H. discriminate.
    + rewrite IH. split.
      * now constructor.
      * intros H. now inversion H.
Qed.

Lemma run_calculate_trend category c t fs out now :
  admin.calculate_trend category (reading_world c t fs out now)
  = match first_fault 2 fs with
    | Some (msg, rest) =>
        (inl (SQLAlchemyError msg), reading_world c t rest out now)
    | None =>
        (inr (prediction_repository.calculate_trend t now category),
         reading_world c t (skipn 2 fs) out now)
    end.
Proof.
  unfold admin.calculate_trend.
  rewrite run_bind. unfold reading_world at 1. rewrite run_utcnow.
  fold (reading_world c t fs out now).
  rewrite run_bind, run_db_execute.
  destruct fs as [|[msg|] fs]; cbn [first_fault tl skipn].
  - rewrite run_bind, run_db_execute. reflexivity.
  - reflexivity.
  - rewrite run_bind, run_db_execute.
    destruct fs as [|[msg|] fs]; reflexivity.
Qed.

Lemma first_fault_add n m fs :
  first_fault (n + m) fs
  = match first_fault n fs with
    | Some found => Some found
    | None => first_fault m (skipn n fs)
    end.
Proof.
  revert fs. induction n as [|n IH]; intros fs; [reflexivity|].
  cbn [Nat.add first_fault].
  destruct fs as [|[msg|] fs]; cbn [tl skipn]; try reflexivity.
  - rewrite IH. destruct n; reflexivity.
  - apply IH.
Qed.

Lemma skipn_add {A} n m (l : list A) :
  skipn (n + m) l = skipn m (skipn n l).
Proof. now rewrite skipn_skipn, Nat.add_comm. Qed.

Lemma run_summarize total rows c t fs out now :
  0 < total ->
  admin.summarize total rows (reading_world c t fs out now)
  = match first_fault (2 * length rows) fs with
    | Some (msg, rest) =>
        (inl (SQLAlchemyError msg), reading_world c t rest out now)
    | None =>
        (inr (map (summary_of t now total) rows),
         reading_world c t (skipn (2 * length rows) fs) out now)
    end.
Proof.
  intros Hpos. revert fs. induction rows as [|row rows IH]; intros fs.
  - reflexivity.
  - cbn [admin.summarize length].
    replace (2 * S (length rows))%nat with (2 + 2 * length rows)%nat by lia.
    rewrite first_fault_add, skipn_add.
    rewrite percentage_of_positive by exact Hpos.
    rewrite run_bind_lift, run_bind, run_calculate_trend.
    destruct (first_fault 2 fs) as [[msg rest]|]; [reflexivity|].
    rewrite run_bind, IH.
    destruct (first_fault (2 * length rows) (skipn 2 fs)) as [[msg rest]|];
      reflexivity.
Qed.

Lemma run_get_top_risk_factors limit c t fs out now :
  admin.get_top_risk_factors limit (reading_world c t fs out now)
  = match first_fault (top_factor_reads t limit) fs with
    | Some (msg, rest) =>
        (inl (SQLAlchemyError msg), reading_world c t rest out now)
    | None =>
        (prediction_repository.get_top_risk_factors t now limit,
         reading_world c t (skipn (top_factor_reads t limit) fs) out now)
    end.
Proof.
  unfold admin.get_top_risk_factors, top_factor_reads.
  rewrite first_fault_add, skipn_add.
  rewrite run_bind, run_db_execute.
  destruct fs as [|[msg|] fs]; cbn [first_fault tl skipn]; try reflexivity.
  - cbv zeta. rewrite get_top_risk_factors_total.
    destruct (prediction_repository.top_categories_query t limit)
      as [|row rows] eqn:E; [reflexivity|].
    rewrite <- E. apply run_summarize.
    apply sum_counts_positive; [apply top_categories_counted|].
    rewrite E. discriminate.
  - cbv zeta. rewrite get_top_risk_factors_total.
    destruct (prediction_repository.top_categories_query t limit)
      as [|row rows] eqn:E; [reflexivity|].
    rewrite <- E. apply run_summarize.
    apply sum_counts_positive; [apply top_categories_counted|].
    rewrite E. discriminate.
Qed.

Lemma world_reading (w : World) :
  database.pending (db w) = [] ->
  w = reading_world (database.committed (db w)) (database.working (db w))
        (database.faults (db w)) (stdout w) (utcnow w).
Proof.
  destruct w as [[c wk p fs] out now]. cbn. now intros ->.
Qed.

Lemma bind_raises {A B} (c : M A) (f : A -> M B) w e w' :
  c w = (inl e, w') -> (c ≫= f) w = (inl e, w').
Proof. intros H. now rewrite run_bind, H. Qed.

Lemma bind_returns {A B} (c : M A) (f : A -> M B) w a w' :
  c w = (inr a, w') -> (c ≫= f) w = f a w'.
Proof. intros H. now rewrite run_bind, H. Qed.

(** An endpoint whose body raises reports and answers its default. *)
Lemma handled {A} (body : M A) (line : exn -> string) (dflt : A) w e w' :
  body w = (inl e, w') ->
  try_except body (fun e => print (line e);; mret dflt) w
  = (inr dflt, after_report w' (line e)).
Proof. intros H. unfold try_except. now rewrite H. Qed.

Lemma unhandled {A} (body : M A) (handler : exn -> M A) w a w' :
  body w = (inr a, w') -> try_except body handler w = (inr a, w').
Proof. intros H. unfold try_except. now rewrite H. Qed.

(** *** A failed first read *)

Lemma failed_dashboard_stats w msg :
  hd None (database.faults (db w)) = Some msg ->
  exists w', admin.dashboard_stats w
             = (inr no_stats,
                after_report w'
                  ("Error fetching dashboard stats: " ++ msg)%string) /\
             stdout w' = stdout w.
Proof.
  intros H. destruct (run_db_execute_fault w msg H) as (w' & Hrun & Hout).
  exists w'. split; [|exact Hout]. unfold admin.dashboard_stats.
  apply (handled _ (fun e => ("Error fetching dashboard stats: "
                              ++ exn_str e)%string) _ w
           (SQLAlchemyError msg) w').
  apply bind_raises. unfold admin.get_dashboard_stats.
  now apply bind_raises.
Qed.

Lemma failed_dashboard_trends period w msg :
  hd None (database.faults (db w)) = Some msg ->
  exists w', admin.dashboard_trends period w
             = (inr [],
                after_report w' ("Error fetching trends: " ++ msg)%string) /\
             stdout w' = stdout w.
Proof.
  intros H. destruct (run_db_execute_fault w msg H) as (w' & Hrun & Hout).
  exists w'. split; [|exact Hout]. unfold admin.dashboard_trends.
  apply (handled _ (fun e => ("Error fetching trends: "
                              ++ exn_str e)%string) _ w
           (SQLAlchemyError msg) w').
  apply bind_raises. unfold admin.get_risk_trends.
  rewrite (bind_returns datetime_utcnow _ w (utcnow w) w) by reflexivity.
  now apply bind_raises.
Qed.

Lemma failed_top_risk_factors limit w msg :
  hd None (database.faults (db w)) = Some msg ->
  exists w', admin.top_risk_factors limit w
             = (inr [],
                after_report w'
                  ("Error fetching risk factors: " ++ msg)%string) /\
             stdout w' = stdout w.
Proof.
  intros H. destruct (run_db_execute_fault w msg H) as (w' & Hrun & Hout).
  exists w'. split; [|exact Hout]. unfold admin.top_risk_factors.
  apply (handled _ (fun e => ("Error fetching risk factors: "
                              ++ exn_str e)%string) _ w
           (SQLAlchemyError msg) w').
  apply bind_raises. unfold admin.get_top_risk_factors.
  now apply bind_raises.
Qed.

Lemma failed_recent_assessments limit w msg :
  hd None (database.faults (db w)) = Some msg ->
  exists w', admin.recent_assessments limit w
             = (inr [],
                after_report w'
                  ("Error fetching recent assessments: " ++ msg)%string) /\
             stdout w' = stdout w.
Proof.
  intros H. destruct (run_db_execute_fault w msg H) as (w' & Hrun & Hout).
  exists w'. split; [|exact Hout]. unfold admin.recent_assessments.
  apply (handled _ (fun e => ("Error fetching recent assessments: "
                              ++ exn_str e)%string) _ w
           (SQLAlchemyError msg) w').
  apply bind_raises. unfold admin.get_recent_assessments.
  now apply bind_raises.
Qed.

Lemma failed_risk_distribution w msg :
  hd None (database.faults (db w)) = Some msg ->
  exists w', admin.risk_distribution w
             = (inr no_distribution,
                after_report w'
                  ("Error fetching risk distribution: " ++ msg)%string) /\
             stdout w' = stdout w.
Proof.
  intros H. destruct (run_db_execute_fault w msg H) as (w' & Hrun & Hout).
  exists w'. split; [|exact Hout]. unfold admin.risk_distribution.
  apply (handled _ (fun e => ("Error fetching risk distribution: "
                              ++ exn_str e)%string) _ w
           (SQLAlchemyError msg) w').
  apply bind_raises. unfold admin.get_risk_distribution.
  now apply bind_raises.
Qed.

(** *** A session that does not fail *)

Lemma run_dashboard_stats c t out now :
  exists stats,
    prediction_repository.get_dashboard_stats t = inr stats /\
    admin.dashboard_stats (reading_world c t [] out now)
    = (inr stats, reading_world c t [] out now).
Proof.
  destruct (get_dashboard_stats_returns t) as (stats & Hs).
  exists stats. split; [exact Hs|]. unfold admin.dashboard_stats.
  apply unhandled.
  rewrite (bind_returns _ _ _ stats (reading_world c t [] out now));
    [reflexivity|].
  unfold admin.get_dashboard_stats.
  rewrite (bind_returns _ _ _ t (reading_world c t [] out now))
    by apply run_db_execute.
  unfold lift. now rewrite Hs.
Qed.

Lemma run_dashboard_trends period c t out now :
  admin.dashboard_trends period (reading_world c t [] out now)
  = (inr (prediction_repository.get_risk_trends t now 8),
     reading_world c t [] out now).
Proof. reflexivity. Qed.

Lemma run_recent_assessments limit c t out now :
  admin.recent_assessments limit (reading_world c t [] out now)
  = (inr (prediction_repository.get_recent_assessments t limit),
     reading_world c t [] out now).
Proof. reflexivity. Qed.

Lemma distribution_init t :
  admin.RiskDistributionResponse_init
    (prediction_repository.get_risk_distribution t)
  = inr (distribution_of t).
Proof.
  unfold admin.RiskDistributionResponse_init.
  assert (Hknown : forall level, In level ["high"; "medium"; "low"] ->
    prediction_repository.get_risk_distribution t !! level
    = Some (count_level level (database.predictions t))).
  { intros level Hlevel. rewrite distribution_lookup.
    destruct (existsb _ _) eqn:E; [reflexivity|].
    assert (E' : ~ In level
      (map database.risk_level (database.predictions t)))
      by (rewrite <- existsb_eqb_In; congruence).
    rewrite (count_level_absent _ _ E').
    cbn [In] in Hlevel. decompose [or] Hlevel; subst; try reflexivity.
    contradiction. }
  rewrite !Hknown by (cbn; tauto). reflexivity.
Qed.

Lemma run_risk_distribution c t out now :
  admin.risk_distribution (reading_world c t [] out now)
  = (inr (distribution_of t), reading_world c t [] out now).
Proof.
  unfold admin.risk_distribution. apply unhandled.
  unfold admin.get_risk_distribution.
  rewrite (bind_returns _ _ _
             (prediction_repository.get_risk_distribution t)
             (reading_world c t [] out now)) by reflexivity.
  unfold lift. now rewrite distribution_init.
Qed.

(** The endpoint of the top risk factors, whatever the session does. *)
Lemma run_top_risk_factors limit c t fs out now :
  exists factors,
    prediction_repository.get_top_risk_factors t now limit = inr factors /\
    admin.top_risk_factors limit (reading_world c t fs out now)
    = match first_fault (top_factor_reads t limit) fs with
      | Some (msg, rest) =>
          (inr [],
           after_report (reading_world c t rest out now)
             ("Error fetching risk factors: " ++ msg)%string)
      | None =>
          (inr factors,
           reading_world c t (skipn (top_factor_reads t limit) fs) out now)
      end.
Proof.
  eexists. split; [apply get_top_risk_factors_total|].
  unfold admin.top_risk_factors.
  destruct (first_fault (top_factor_reads t limit) fs) as [[msg rest]|] eqn:E.
  - apply (handled _ (fun e => ("Error fetching risk factors: "
                                ++ exn_str e)%string) _ _
             (SQLAlchemyError msg)).
    apply bind_raises. now rewrite run_get_top_risk_factors, E.
  - apply unhandled.
    rewrite (bind_returns _ _ _ _ _
               ltac:(rewrite run_get_top_risk_factors, E,
                       get_top_risk_factors_total; reflexivity)).
    reflexivity.
Qed.

(** *** Nothing stored *)

Lemma sql_limit_nil {A} n : prediction_repository.sql_limit n (@nil A) = [].
Proof.
  unfold prediction_repository.sql_limit.
  destruct (n <? 0); [reflexivity|apply firstn_nil].
Qed.

Lemma no_recent_assessments limit :
  prediction_repository.get_recent_assessments database.empty_tables limit
  = [].
Proof.
  unfold prediction_repository.get_recent_assessments,
    prediction_repository.recent_query.
  cbn [prediction_repository.outerjoin_assessment_inputs
       database.predictions database.empty_tables flat_map fold_right].
  now rewrite sql_limit_nil.
Qed.

Lemma no_top_risk_factors now limit :
  prediction_repository.get_top_risk_factors database.empty_tables now limit
  = inr [].
Proof.
  unfold prediction_repository.get_top_risk_factors,
    prediction_repository.top_categories_query.
  cbn [database.risk_factors database.empty_tables
       prediction_repository.group_by_category fold_left
       prediction_repository.order_by_count_desc fold_right].
  now rewrite sql_limit_nil.
Qed.

End admin_endpoints.

(** X25: when the first read of an admin endpoint fails, the endpoint
    does not fail: it answers statistics of zeros, no trend point, no
    risk factor, no assessment, a distribution of zeros, and prints one
    line that reports the error. *)
Theorem X25_admin_failed_read (w : World) (msg period : string)
    (limit : Z) :
  hd None (database.faults (db w)) = Some msg ->
  (fst (admin.dashboard_stats w) = inr no_stats /\
   stdout (snd (admin.dashboard_stats w))
   = stdout w ++ [("Error fetching dashboard stats: " ++ msg)%string]) /\
  (fst (admin.dashboard_trends period w) = inr [] /\
   stdout (snd (admin.dashboard_trends period w))
   = stdout w ++ [("Error fetching trends: " ++ msg)%string]) /\
  (fst (admin.top_risk_factors limit w) = inr [] /\
   stdout (snd (admin.top_risk_factors limit w))
   = stdout w ++ [("Error fetching risk factors: " ++ msg)%string]) /\
  (fst (admin.recent_assessments limit w) = inr [] /\
   stdout (snd (admin.recent_assessments limit w))
   = stdout w ++ [("Error fetching recent assessments: " ++ msg)%string]) /\
  (fst (admin.risk_distribution w) = inr no_distribution /\
   stdout (snd (admin.risk_distribution w))
   = stdout w ++ [("Error fetching risk distribution: " ++ msg)%string]).
Proof.
  intros H.
  destruct (failed_dashboard_stats w msg H) as (w1 & -> & H1).
  destruct (failed_dashboard_trends period w msg H) as (w2 & -> & H2).
  destruct (failed_top_risk_factors limit w msg H) as (w3 & -> & H3).
  destruct (failed_recent_assessments limit w msg H) as (w4 & -> & H4).
  destruct (failed_risk_distribution w msg H) as (w5 & -> & H5).
  cbn [fst snd after_report stdout].
  rewrite H1, H2, H3, H4, H5. repeat split.
Qed.

Lemma X25_admin_failed_read_witness :
  fst (admin.dashboard_stats (fresh_world [Some "database is locked"] 0))
    = inr no_stats /\
  stdout (snd (admin.risk_distribution
                 (fresh_world [Some "database is locked"] 0)))
    = ["Error fetching risk distribution: database is locked"].
Proof.
  destruct (X25_admin_failed_read
              (fresh_world [Some "database is locked"] 0)
              "database is locked" "weekly" 5)
    as ((Hstats & _) & _ & _ & _ & (_ & Hout)); [reflexivity|].
  split; [exact Hstats|exact Hout].
Defined.

(** X26: over tables without predictions and without risk factors, on
    a session that has nothing pending and does not fail, the admin
    endpoints answer what they answer to a failed read: statistics of
    zeros, no trend point, no risk factor, no assessment, a distribution
    of zeros.  Nothing is printed: the two cases cannot be told apart
    from the answers. *)
Theorem X26_admin_nothing_stored (w : World) (period : string) (limit : Z) :
  database.pending (db w) = [] ->
  database.faults (db w) = [] ->
  database.predictions (database.working (db w)) = [] ->
  database.risk_factors (database.working (db w)) = [] ->
  (exists stats,
     admin.dashboard_stats w = (inr stats, w) /\ same_stats stats no_stats) /\
  admin.dashboard_trends period w = (inr [], w) /\
  admin.top_risk_factors limit w = (inr [], w) /\
  admin.recent_assessments limit w = (inr [], w) /\
  admin.risk_distribution w = (inr no_distribution, w).
Proof.
  destruct w as [[c t p fs] out now].
  cbn [db database.pending database.faults database.working].
  intros -> -> Hpredictions Hfactors.
  change {| db := {| database.committed := c; database.working := t;
                     database.pending := []; database.faults := [] |};
            stdout := out; utcnow := now |}
    with (reading_world c t [] out now).
  split; [|split; [|split; [|split]]].
  - destruct (run_dashboard_stats c t out now) as (stats & Hs & ->).
    exists stats. split; [reflexivity|].
    unfold prediction_repository.get_dashboard_stats,
      prediction_repository.stats_query in Hs.
    rewrite Hpredictions in Hs. cbn in Hs. injection Hs as <-.
    repeat split; reflexivity.
  - rewrite run_dashboard_trends. do 2 f_equal.
    unfold prediction_repository.get_risk_trends,
      prediction_repository.trends_query.
    now rewrite Hpredictions.
  - destruct (run_top_risk_factors limit c t [] out now)
      as (factors & Hf & ->).
    assert (Hrows : prediction_repository.top_categories_query t limit = []).
    { unfold prediction_repository.top_categories_query.
      rewrite Hfactors. apply sql_limit_nil. }
    unfold top_factor_reads. rewrite Hrows. cbn [length first_fault tl skipn
      Nat.mul Nat.add].
    unfold prediction_repository.get_top_risk_factors in Hf.
    rewrite Hrows in Hf. cbn in Hf. now injection Hf as <-.
  - rewrite run_recent_assessments. do 2 f_equal.
    unfold prediction_repository.get_recent_assessments,
      prediction_repository.recent_query,
      prediction_repository.outerjoin_assessment_inputs.
    rewrite Hpredictions. cbn [flat_map fold_right].
    now rewrite sql_limit_nil.
  - rewrite run_risk_distribution. do 2 f_equal.
    unfold distribution_of. now rewrite Hpredictions.
Qed.

Lemma X26_admin_nothing_stored_witness :
  admin.top_risk_factors 5 (fresh_world [] 1700000000)
    = (inr [], fresh_world [] 1700000000) /\
  admin.risk_distribution (fresh_world [] 1700000000)
    = (inr no_distribution, fresh_world [] 1700000000).
Proof.
  destruct (X26_admin_nothing_stored (fresh_world [] 1700000000) "weekly" 5)
    as (_ & _ & Htop & _ & Hdist); try reflexivity.
  split; [exact Htop|exact Hdist].
Defined.

(** X27: on a session that has nothing pending and does not fail, each
    admin endpoint answers what the repository computes from the tables
    the session sees, the trends over eight weeks whatever the period
    asked for; it prints nothing and leaves the session as it was. *)
Theorem X27_admin_reads_agree (w : World) (period : string) (limit : Z) :
  database.pending (db w) = [] ->
  database.faults (db w) = [] ->
  let t := database.working (db w) in
  (exists stats,
     prediction_repository.get_dashboard_stats t = inr stats /\
     admin.dashboard_stats w = (inr stats, w)) /\
  admin.dashboard_trends period w
    = (inr (prediction_repository.get_risk_trends t (utcnow w) 8), w) /\
  (exists factors,
     prediction_repository.get_top_risk_factors t (utcnow w) limit
       = inr factors /\
     admin.top_risk_factors limit w = (inr factors, w)) /\
  admin.recent_assessments limit w
    = (inr (prediction_repository.get_recent_assessments t limit), w) /\
  admin.risk_distribution w = (inr (distribution_of t), w).
Proof.
  destruct w as [[c t p fs] out now].
  cbn [db database.pending database.faults database.working utcnow].
  intros -> ->. cbv zeta.
  change {| db := {| database.committed := c; database.working := t;
                     database.pending := []; database.faults := [] |};
            stdout := out; utcnow := now |}
    with (reading_world c t [] out now).
  split; [apply run_dashboard_stats|].
  split; [apply run_dashboard_trends|].
  split; [|split; [apply run_recent_assessments|apply run_risk_distribution]].
  destruct (run_top_risk_factors limit c t [] out now) as (factors & Hf & ->).
  exists factors. split; [exact Hf|].
  assert (Hnone : first_fault (top_factor_reads t limit) [] = None).
  { apply first_fault_None. rewrite firstn_nil. constructor. }
  rewrite Hnone. now rewrite skipn_nil.
Qed.

Lemma X27_admin_reads_agree_witness :
  let w := reading_world history_tables history_tables [] [] 1701400000 in
  admin.risk_distribution w
    = (inr {| admin.high := 2; admin.medium := 0; admin.low := 1 |}, w) /\
  admin.recent_assessments 1 w
    = (inr (prediction_repository.get_recent_assessments history_tables 1),
       w) /\
  map prediction_repository.as_type
    (prediction_repository.get_recent_assessments history_tables 1)
    = ["Year 2 Review"].
Proof.
  cbv zeta.
  destruct (X27_admin_reads_agree
              (reading_world history_tables history_tables [] [] 1701400000)
              "weekly" 1)
    as (_ & _ & _ & Hrecent & Hdist); try reflexivity.
  split; [exact Hdist|]. split; [exact Hrecent|].
  vm_compute. reflexivity.
Defined.

(** X28: the endpoint of the top risk factors reads once for the
    categories and twice for the trend of each.  On a session that has
    nothing pending it answers the factors the repository computes when
    all these reads go through, and no factor at all when one of them
    fails, the first or a later one. *)
Theorem X28_top_factors_all_or_nothing (w : World) (limit : Z) :
  database.pending (db w) = [] ->
  let t := database.working (db w) in
  exists factors,
    prediction_repository.get_top_risk_factors t (utcnow w) limit
      = inr factors /\
    (fault_free (top_factor_reads t limit) (db w) ->
     fst (admin.top_risk_factors limit w) = inr factors) /\
    (~ fault_free (top_factor_reads t limit) (db w) ->
     fst (admin.top_risk_factors limit w) = inr []).
Proof.
  destruct w as [[c t p fs] out now].
  cbn [db database.pending database.working utcnow].
  intros ->. cbv zeta. unfold fault_free. cbn [database.faults].
  change {| db := {| database.committed := c; database.working := t;
                     database.pending := []; database.faults := fs |};
            stdout := out; utcnow := now |}
    with (reading_world c t fs out now).
  destruct (run_top_risk_factors limit c t fs out now) as (factors & Hf & ->).
  exists factors. split; [exact Hf|].
  destruct (first_fault (top_factor_reads t limit) fs) as [[msg rest]|] eqn:E.
  - split; [|reflexivity].
    intros Hfree. apply first_fault_None in Hfree. congruence.
  - split; [reflexivity|].
    intros Hnot. exfalso. apply Hnot. now apply first_fault_None.
Qed.

Lemma X28_top_factors_all_or_nothing_witness :
  let w := reading_world sample_tables sample_tables
             [None; None; None; Some "disk I/O error"] [] 1700000000 in
  top_factor_reads sample_tables 2 = 5%nat /\
  fst (admin.top_risk_factors 2 w) = inr [] /\
  exists factors,
    prediction_repository.get_top_risk_factors sample_tables 1700000000 2
      = inr factors /\
    map prediction_repository.name factors = ["Academic"; "Financial"].
Proof.
  cbv zeta.
  destruct (X28_top_factors_all_or_nothing
              (reading_world sample_tables sample_tables
                 [None; None; None; Some "disk I/O error"] [] 1700000000) 2)
    as (factors & Hf & _ & Hfail); [reflexivity|].
  split; [reflexivity|]. split.
  - apply Hfail. intros Hfree. unfold fault_free in Hfree.
    vm_compute in Hfree.
    repeat match goal with
    | H : Forall _ (_ :: _) |- _ => inversion H; clear H; subst
    end. discriminate.
  - exists factors. split; [exact Hf|].
    vm_compute in Hf. injection Hf as <-. reflexivity.
Defined.
